(* ===== verification/_CoqProject ===== *)
-Q . S2P
Prelude.v
Loop.v
ParitySum.v
PyBuiltins.v
Django.v
PyDecimal.v
Regex.v
RegexPrint.v
Codici.v
Ssn.v
SsnSyntax.v
SsnCheck.v
SsnLoop.v
SsnDetect.v
SsnValid.v
SsnDecode.v
SsnUnchecked.v
Vat.v
VatCheck.v
VatLoop.v
VatValid.v
VatDetect.v
SsnVat.v
Examples.v
