(* ===== verification/Prelude.v ===== *)
(** * Verification of [localflavor/it/util.py]: Italian fiscal codes and VAT numbers

    The program is one Python module, [src/localflavor/it/util.py].  It
    validates and decodes Italian fiscal codes (SSN) and VAT numbers:

    - [ssn_isvalid] matches a string against the regular expression [PATTERN];
    - [ssn_get_birthday], [ssn_get_sex], [ssn_get_municipality] decode the
      birth date, the sex and the municipality of birth of a fiscal code that
      passed [ssn_isvalid] (they [assert] it, which an interpreter started
      with [-O] does not execute);
    - [ssn_check_digit] computes the control letter of a fiscal code from its
      first fifteen characters with two weight dictionaries, and
      [ssn_validation] compares it with the sixteenth character;
    - [vat_number_check_digit] computes the Luhn-style control digit of a VAT
      number and [vat_number_validation] normalises its argument with
      [str(int(x)).zfill(11)] and compares the eleventh digit.

    The functions are pure; what makes them delicate is the behaviour of the
    Python primitives they are written with (slices with negative bounds,
    [$] in [re.match], [x and y or z], [int()] of a string, [zfill] on a
    signed literal, exceptions that a [try] does or does not catch).  The
    development therefore models those primitives first and then translates
    every function of the module line by line on top of them.

    ** Files

    - [Prelude] (this file): the exceptions the module can raise ([pyexc]),
      the [result] monad in which every function is written, [try_except],
      the [assert] statement ([py_assert_stmt]) and the interpreter that
      executes it or not ([Interpreter], [python], [python_O]), the [for]
      loop over a [range] ([for_loop], [py_range]), the tactics and hint
      databases the other files share, and generic facts about loops and
      modular arithmetic.
    - [Loop]: the [for] statement as a transition system, one step per
      iteration ([loop_config], [loop_step], the step function [loop_next]
      and its iteration [loop_run]), for any body, with determinism,
      progress, the length of its runs ([loop_steps]) and its agreement
      with [for_loop].  It is the library of [SsnLoop] and [VatLoop]; its
      theorems are about no line of [util.py] in particular.
    - [ParitySum]: sums of weights that alternate with the position
      ([psum]), the form that the two control characters share, with the
      conditions under which a substitution or an exchange of neighbours
      changes the sum modulo a constant; the number of positions in which
      two lists differ ([hamming]).
    - [PyBuiltins]: Python values ([pyval]) and the built-in operations the
      module calls: [isinstance(_, str)], [len], indexing, slicing,
      [str.upper], [str.zfill], [int()], [str()], [chr], [divmod], the
      [%02d] conversion, [x and y or z], [list.index], [dict[key]] and
      [dict.get].  Characters are Rocq's 8-bit [ascii]; strings are
      [string].
    - [PyDecimal]: decimal text.  The digits of a number on a given width
      ([zdigits], [zpad]), the value of a list of digits ([zvalue]), and the
      facts that relate [str], [int] and [zfill] to them.
    - [Regex]: the fragment of Python's [re] syntax that [PATTERN] uses: a
      type of regular expressions, a parser of pattern text ([re_compile]),
      a backtracking matcher in continuation-passing style for [re.match]
      ([rmatch]), its denotation as an inductive relation ([re_den]) and
      the proof that the matcher decides it.
    - [RegexPrint]: the printer of expressions ([re_print]), the form of
      the expressions the parser produces ([wf_alt]) and the depth of its
      calls ([re_depth]).
    - [Django]: the two helpers of Django that the module imports.
      [smart_text] is modelled from its documentation; [ugettext_lazy] is
      the translation of the active catalogue, the class [Translation],
      with the instances [untranslated] and [catalogue_translation] (a
      dictionary of messages) for the examples.
    - [Codici]: the interface of the municipality table [CODICI_CHOICES],
      which lives in [it_codici.py] outside [src/]: the class [CodiciTable]
      states what the specification promises of it, [CadastralTable] what
      holds of a table of cadastral codes proper, and [sample_table] is a
      small instance for the examples.
    - [Ssn]: the fiscal-code functions of [util.py], [PATTERN],
      [MONTHSCODE], [ssn_isvalid], [ssn_get_birthday],
      [ssn_get_municipality], [ssn_get_sex], [ssn_check_digit] and
      [ssn_validation]: definitions only, one per function.
    - [SsnSyntax]: [ssn_isvalid] characterised.  [PATTERN] is parsed from
      its text to the expression [PATTERN_regex], which is written out by
      hand, and shown to accept the sixteen-character shape
      ([fiscal_shape]).
    - [SsnCheck]: [ssn_check_digit] and [ssn_validation] against a
      reference on arrays ([ssn_scan], [ssn_check_digit_ref]).
    - [SsnLoop]: the loop of [ssn_check_digit] as an instance of [Loop]:
      its start [ssn_loop_start], its invariant [ssn_loop_inv] and the
      length of its run [ssn_loop_steps].
    - [SsnDetect]: the errors that the control letter detects: the
      substitution of a character and the exchange of two neighbours.
    - [SsnValid]: the syntax check and the control letter together.
    - [SsnDecode]: the three decoders against the fields of a code
      ([day_field], [month_field], [year_field], [cadastral_field]), on
      the calls whose precondition is checked or holds ([checked]).
    - [SsnUnchecked]: the decoders when their assertions are not executed,
      and their precondition for both kinds of interpreter.
    - [Vat]: the VAT functions of [util.py], [vat_number_check_digit] and
      [vat_number_validation]: definitions only.
    - [VatCheck]: [vat_number_check_digit] against the reference sum
      ([vat_sum], [vat_check]) and the first character that is not a digit
      in the order in which the loops read ([vat_read_order],
      [vat_first_bad]).
    - [VatLoop]: the body of [vat_number_check_digit] as a transition
      system with two phases, one per loop ([vat_config], [vat_step],
      [vat_next], [vat_run]); each phase is the machine of [Loop], embedded
      by [vat_embed]; the configurations of the reference [vat_reach] and
      the length of the run [vat_steps].
    - [VatValid]: [vat_number_validation] on every integer.
    - [VatDetect]: the errors that the control digit detects, and the
      distance between two numbers that are accepted.
    - [SsnVat]: the validators of the two kinds of code together.
    - [Examples]: the functions evaluated on the arguments of the
      docstrings and on the corner cases of the theorems.

    ** How the model corresponds to the code

    A Python function [f(x)] that may raise is a Rocq function returning
    [result T]: [Ok v] for a returned value, [Raise e] for an exception [e].
    Sequencing is monadic bind, written [x ← e1; e2], so the evaluation order
    of the source (and so which exception wins) is kept.  [try: ... except
    KeyError: ...] is [try_except body is_KeyError handler].  A [for i in
    range(a, b, s)] loop that accumulates into a local variable is
    [for_loop (py_range a b s) body init]; the bodies of the loops of
    [util.py] are [Ssn.ssn_check_digit_step], [Vat.vat_even_step] and
    [Vat.vat_odd_step].  The same loops are also run one iteration at a
    time: a configuration [Iter xs st] of [Loop] holds the items that the
    loop has not visited yet and the value of the variable it updates
    ([total] in both functions), [Done r] is the loop left with a result or
    an exception; [VatLoop.vat_config] adds which of the two loops of
    [vat_number_check_digit] is running.  The messages that the source
    passes to [_] are translated by the [Translation] instance in scope;
    the functions and theorems that mention them take it as a parameter.
    [assert e] is [py_assert_stmt e], which evaluates [e] and raises
    [AssertionError] when [__debug__] holds and does nothing otherwise;
    [__debug__] is the field [py_debug] of the [Interpreter] instance in
    scope, [python] unless another is named.
    Integers are unbounded in Python and are [Z] here;
    [%] and [divmod] are floor division, as [Z.modulo] and [Z.div] are.  An
    argument of unknown type is a [pyval]: text, an integer, [True] or
    [False], or [None].  A dictionary is a [gmap] from one-character texts
    to weights.

    ** What the theorems show

    - [PyDecimal]: decimal rendering and parsing are inverse
      ([py_int_str_py_str_int]: [int(str(n)) = n]); [zfill] pads to the
      width and preserves the value ([py_zfill_str_fits],
      [py_int_str_zfill]); digits and values are inverse
      ([zvalue_zdigits_small], [zdigits_zvalue]).
    - [Regex]: the matcher is sound and complete for the denotation
      ([rmatch_spec]).
    - [RegexPrint]: the parser is a left inverse of the printer
      ([re_compile_print]), with any fuel above the depth of the
      expression ([parse_alt_print]), which is at most three times the
      length of the pattern ([re_depth_bound]).
    - [SsnSyntax]: [ssn_isvalid] never raises and accepts exactly the texts
      of the sixteen-character shape, optionally followed by one newline;
      position by position, which characters it accepts
      ([ssn_isvalid_positions]), and that one character outside its class
      is enough for a rejection; it accepts the texts of which a prefix is
      in the denotation of [PATTERN_regex] ([ssn_isvalid_denotation]), the
      expression of a fiscal code written out constructor by constructor,
      which [PATTERN] compiles to and prints back from.
    - [Loop]: the machine is deterministic, its final configurations are
      those without a step, every step uses up fuel (so no run is infinite),
      the run from the start has [loop_steps] steps and ends with the
      result of [for_loop], and a predicate that the body keeps holds in
      every configuration a run reaches.
    - [SsnCheck]: the loop of [ssn_check_digit] refines the reference scan;
      every branch of it (result, [ValueError], [IndexError],
      [AttributeError]), the first index that decides the exception
      ([ssn_check_digit_first_error]) and the set of its exceptions; the control letter is
      a capital letter; it does not depend on case; the functional
      behaviour of [ssn_validation], with its round trip and its rejection.
    - [SsnLoop]: the configurations that the loop of [ssn_check_digit]
      reaches are exactly those of the invariant (the weighted sum of the
      characters read so far); [total] never exceeds 375; the run has one
      step for each character up to the first that is missing or not
      allowed, sixteen at most, and ends with the reference scan
      ([ssn_loop_live]).
    - [ParitySum]: a substitution leaves the sum unchanged modulo [m]
      exactly when the two elements have the same weight modulo [m] at
      that position ([psum_subst]); an exchange of neighbours exactly when
      the differences of their two weights agree ([psum_swap]).  The
      detection theorems of [SsnDetect] and [VatValid] are these two
      lemmas applied to the weights of each scheme.
    - [SsnDetect]: the control letter detects the substitution of one
      character by another of the same kind, and the exchange of two
      neighbours of the same kind unless they are W and Y; a digit and the
      letter of the same rank (0 and A, ..., 9 and J) are never told
      apart.
    - [SsnValid]: on a code that passes the syntax check [ssn_validation]
      returns it or raises the check-digit error, nothing else; fifteen
      characters of the shape completed with their control letter pass both
      checks; a code that passes both with a digit at 13 passes both with
      the letter of the same rank there ([ssn_valid_digit_letter]), so two
      accepted codes can differ in one character only.
    - [SsnDecode]: the result of each decoder on every checked call:
      [AssertionError] outside the fiscal shape, the text built from the
      fields inside it, the same for every interpreter; which day fields
      give a day of the month.
    - [SsnUnchecked]: without their assertions the decoders return a sex,
      a date or a place for texts that are no fiscal codes
      ([ssn_decoders_unchecked]) and raise [TypeError] or the [ValueError]
      of [int()] or of [list.index], never [IndexError]
      ([ssn_decoders_unchecked_exceptions]); outside the values that
      [ssn_isvalid] accepts, the decoders raise [AssertionError] exactly
      when [__debug__] holds ([ssn_decoders_precondition]).
    - [VatCheck]: the two loops of [vat_number_check_digit] refine the
      reference sum; its result on every value, the exception included,
      which is that of the first character that is not a digit in the order
      of the loops, even indices before odd ones
      ([vat_number_check_digit_spec], from [for_loop_guarded] of this file).
    - [VatLoop]: the machine of the two loops is deterministic and keeps
      [total] within nine times the number of digits added; the
      configurations it reaches are exactly those of the reference
      ([vat_loop_reachable]: digits read so far, [total] the sum of their
      terms, and [vat_result] at the end); its run has one step for each
      index up to the first whose character is not a digit and one between
      the loops, twelve at most, and ends with [vat_result] ([vat_live]).
    - [VatValid]: the result of [vat_number_validation] on every integer
      (below [10^11], above, negative) and its dependence on the argument
      through [int()] only; the form of what it returns (digits only,
      eleven at least, read back by [int()] as the same number);
      idempotence and round trip.
    - [VatDetect]: detection of every single-digit error, and of the
      exchange of two neighbours exactly when they are not 0 and 9; two
      accepted numbers of eleven digits differ in two digits at least
      ([vat_number_validation_distance]).
    - [SsnVat]: no value passes both [vat_number_validation] and the
      checks of the fiscal codes of persons ([validators_disjoint]): a
      text that [int()] reads has no capital letter
      ([PyDecimal.py_int_str_chars]), and a value that [ssn_isvalid] or
      [ssn_validation] accepts makes [vat_number_validation] raise the
      [ValueError] of [int()].

    ** Bounds and modelling choices

    - Characters are 8-bit, the code points 0..255 of Python 3 text.  The
      model is exact for ASCII text.  On the codes 128..255 [str.upper] is
      the identity, where Python 3 changes a few Latin-1 letters (and the
      length of the text for one of them); no character there is a digit.
    - [int()] accepts surrounding white space, one sign and decimal digits
      with single underscores between digits (Python 3.6 and later).  The
      white space that it skips is [PyBuiltins.is_int_space]: tab, newline,
      vertical tab, form feed, carriage return, space, and the characters
      133 and 160; not the separators 28..31, on which [int()] raises
      although [str.isspace] holds of them.  This is exact on 8-bit text.
    - [py_range] models [range] with a positive step, the only kind the
      module uses.
    - Decimal rendering uses fuel [S (Z.log2 n)], which bounds the number of
      decimal digits of [n]; [PyDecimal.ndigits_fuel_bound] shows the fuel is
      never exhausted, and [PyDecimal.py_int_str_py_str_int] depends on it.
    - The parser of patterns uses fuel four times the length of the pattern
      plus four.  The depth of its calls on a printed expression is at most
      three times the length of the text plus one
      ([RegexPrint.re_depth_bound]), so the fuel is enough for every
      pattern that is the printed form of an expression
      ([RegexPrint.re_compile_print]); [PATTERN], the only pattern of the
      module, is one ([SsnSyntax.PATTERN_roundtrip]).
    - The machines of the loops need no fuel to be defined (the step is a
      relation, and a function of one configuration); [Loop.loop_fuel] and
      [VatLoop.vat_fuel] are the variants of the termination proofs: one
      step per item left and one to leave the loop, sixteen for
      [range(0, 15)], twelve for the two loops of five indices each.  The
      lengths of the runs, [SsnLoop.ssn_loop_steps] and
      [VatLoop.vat_steps], are computed from the text, not from the
      machine.
    - Whether [assert] statements are executed is a parameter, the class
      [Prelude.Interpreter]: [python] executes them, [python_O] (the
      interpreter started with [-O]) does not.  The theorems of [SsnDecode]
      hold for every interpreter on the calls that are [checked]; those of
      [SsnUnchecked] say what happens otherwise.  A statement that names no
      interpreter is about [python].
    - The messages built with [ugettext_lazy] are translated by a
      parameter, the class [Django.Translation]; that the translation
      happens when the message is rendered, not when the exception is
      built, is not modelled.
    - The functions are pure and end: there is no reactive behaviour.  The
      liveness theorems are those of the loops run as machines: the run
      from the start reaches the final configuration that the reference
      gives, in the number of steps that the text determines, and so does
      every configuration on the way, in fewer.
    - [CODICI_CHOICES] is reference data outside [src/]; it is a parameter
      (class [Codici.CodiciTable]).  [smart_text] (Django) is modelled from
      its documented behaviour: the identity on [str], [str(x)] otherwise.

    ** What is not modelled

    The entries of the municipality table and the catalogues of translated
    messages (data outside [src/]: both are parameters); the constructs of
    [re] that [PATTERN] does not use; text outside 8-bit characters; and
    arguments that are neither text, an integer, a Boolean nor [None]:
    floats (their [str()] is the shortest decimal that reads back, which
    needs a model of binary floating point), bytes (which [smart_text]
    decodes as UTF-8 into characters that may lie outside the 8-bit model)
    and objects with their own [__int__], [__getitem__] or [upper].  Every
    line of code of [util.py] is translated; the lines without a
    definition are the encoding comment, the imports of Django and [re],
    and blank lines.
*)

From stdpp Require Export base tactics option list list_numbers strings.
From Stdlib Require Export ZArith Lia Ascii.

#[local] Open Scope Z_scope.

(** ** Exceptions and results *)

(** The exceptions that the module's code and the built-ins it calls can
    raise.  [ValueError] carries the message of a [raise ValueError(msg)] of
    [util.py]; [ValueError_int] is the [ValueError] of the built-in [int()],
    with the literal it refused, and [ValueError_index] the one of
    [list.index], with the item it did not find.  [ReError] is [re.error],
    raised for a pattern that does not compile. *)
Inductive pyexc : Type :=
| AssertionError
| AttributeError
| IndexError
| KeyError (key : string)
| TypeError
| ValueError (msg : string)
| ValueError_int (literal : string)
| ValueError_index (item : string)
| ReError (pattern : string).

Inductive result (A : Type) : Type :=
| Ok (a : A)
| Raise (e : pyexc).

Arguments Ok {A} a.
Arguments Raise {A} e.

#[export] Instance pyexc_eq_dec : EqDecision pyexc.
Proof. solve_decision. Defined.

#[export] Instance result_eq_dec `{EqDecision A} : EqDecision (result A).
Proof. solve_decision. Defined.

#[export] Instance result_ret : MRet result := @Ok.

#[export] Instance result_bind : MBind result :=
  λ A B f m, match m with Ok a => f a | Raise e => Raise e end.

#[export] Instance result_fmap : FMap result :=
  λ A B f m, match m with Ok a => Ok (f a) | Raise e => Raise e end.

Definition is_Ok {A} (m : result A) : Prop := ∃ a, m = Ok a.

Definition is_KeyError (e : pyexc) : bool :=
  match e with KeyError _ => true | _ => false end.

(** [try: body except E: handler]: an exception of [body] selected by
    [catches] runs [handler]; any other propagates. *)
Definition try_except {A} (body : result A) (catches : pyexc → bool)
    (handler : pyexc → result A) : result A :=
  match body with
  | Ok a => Ok a
  | Raise e => if catches e then handler e else Raise e
  end.

(** The test of an [assert] statement that is executed. *)
Definition py_assert (c : bool) : result unit :=
  if c then Ok () else Raise AssertionError.

(** The interpreter that runs the module.  [py_debug] is the constant
    [__debug__] of Python: true, unless the interpreter is started with
    [-O]. *)
Class Interpreter : Type := {
  py_debug : bool
}.

(** [python]: the [assert] statements are executed. *)
#[export] Instance python : Interpreter := {| py_debug := true |}.

(** [python -O]: no code is generated for an [assert] statement. *)
Definition python_O : Interpreter := {| py_debug := false |}.

(** The statement [assert e], which is [if __debug__: if not e: raise
    AssertionError]: without [__debug__] the expression [e] is not
    evaluated. *)
Definition py_assert_stmt {interp : Interpreter} (e : result bool)
    : result unit :=
  if py_debug then c ← e; py_assert c else Ok ().

(** ** Loops *)

(** [range(start, stop, step)] for a positive [step]. *)
Definition py_range (start stop step : Z) : list Z :=
  (λ k, start + step * k) <$> seqZ 0 ((stop - start + step - 1) `div` step).

(** [for i in xs: st = body(st, i)], stopping at the first exception. *)
Fixpoint for_loop {I S : Type} (xs : list I) (body : S → I → result S)
    (st : S) : result S :=
  match xs with
  | [] => Ok st
  | i :: xs' => st' ← body st i; for_loop xs' body st'
  end.

(** ** Tactics and hint databases *)

Create HintDb py discriminated.
Create Rewrite HintDb pyrw.

(** Simplify monadic code applied to constructors. *)
Ltac simpl_result :=
  repeat (progress (cbn [mbind result_bind mret result_ret fmap result_fmap
                        try_except py_assert for_loop] in *)).

(** Destruct an ascii into its 256 values and compute. *)
Ltac ascii_cases c :=
  destruct c as [[] [] [] [] [] [] [] []]; try reflexivity; try discriminate.

(** ** Lemmas on the result monad *)

Section result_lemmas.
Context {A B C : Type}.
Implicit Types (m : result A) (f : A → result B) (g : B → result C).

Lemma is_Ok_Ok (a : A) : is_Ok (Ok a).
Proof. by exists a. Qed.

Lemma is_Ok_Raise (e : pyexc) : ¬ is_Ok (@Raise A e).
Proof. by intros [a ?]. Qed.

#[export] Instance is_Ok_dec m : Decision (is_Ok m).
Proof.
  destruct m; [left; apply is_Ok_Ok | right; apply is_Ok_Raise].
Defined.

Lemma bind_Ok m f b :
  m ≫= f = Ok b ↔ ∃ a, m = Ok a ∧ f a = Ok b.
Proof.
  destruct m as [a|e]; cbn; split.
  - eauto.
  - by intros (a' & [= <-] & Hf).
  - done.
  - by intros (a' & [=] & _).
Qed.

Lemma bind_Raise m f e :
  m ≫= f = Raise e ↔ m = Raise e ∨ ∃ a, m = Ok a ∧ f a = Raise e.
Proof.
  destruct m as [a|e']; cbn; split.
  - eauto.
  - by intros [[=]|(a' & [= <-] & Hf)].
  - intros [= ->]; by left.
  - by intros [[= ->]|(a' & [=] & _)].
Qed.

Lemma bind_assoc m f g :
  (m ≫= f) ≫= g = m ≫= (λ a, f a ≫= g).
Proof. by destruct m. Qed.

Lemma bind_ret_l (a : A) f : mret a ≫= f = f a.
Proof. done. Qed.

Lemma bind_ret_r m : m ≫= mret = m.
Proof. by destruct m. Qed.

Lemma bind_ext m (f f' : A → result B) :
  (∀ a, m = Ok a → f a = f' a) → m ≫= f = m ≫= f'.
Proof. destruct m as [a|e]; cbn; auto. Qed.

(** The [assert] statement on a condition that returns: it raises when the
    condition is false and [__debug__] is true. *)
Lemma py_assert_stmt_Ok {interp : Interpreter} (c : bool) :
  py_assert_stmt (Ok c)
  = if py_debug && negb c then Raise AssertionError else Ok ().
Proof. unfold py_assert_stmt. by destruct py_debug, c. Qed.

Lemma py_assert_stmt_holds {interp : Interpreter} (c : bool) :
  py_debug = false ∨ c = true → py_assert_stmt (Ok c) = Ok ().
Proof. rewrite py_assert_stmt_Ok. by intros [->| ->]; rewrite ?andb_false_r. Qed.

Lemma py_assert_stmt_skipped {interp : Interpreter} (e : result bool) :
  py_debug = false → py_assert_stmt e = Ok ().
Proof. unfold py_assert_stmt. by intros ->. Qed.

Lemma py_assert_stmt_fails {interp : Interpreter} :
  py_debug = true → py_assert_stmt (Ok false) = Raise AssertionError.
Proof. rewrite py_assert_stmt_Ok. by intros ->. Qed.

Lemma try_except_Ok m catches handler (a : A) :
  m = Ok a → try_except m catches handler = Ok a.
Proof. by intros ->. Qed.

Lemma try_except_uncaught m catches handler e :
  m = Raise e → catches e = false → try_except m catches handler = Raise e.
Proof. by intros -> Hc; cbn; rewrite Hc. Qed.

Lemma try_except_caught m catches handler e :
  m = Raise e → catches e = true → try_except m catches handler = handler e.
Proof. by intros -> Hc; cbn; rewrite Hc. Qed.

End result_lemmas.

(** ** Lemmas on loops *)

Section loop_lemmas.
Context {I S : Type}.
Implicit Types (xs ys : list I) (body : S → I → result S) (st : S).

Lemma for_loop_app xs ys body st :
  for_loop (xs ++ ys) body st = for_loop xs body st ≫= for_loop ys body.
Proof.
  revert st; induction xs as [|i xs IH]; intros st; [done|].
  cbn. destruct (body st i); cbn; auto.
Qed.

Lemma for_loop_snoc xs i body st :
  for_loop (xs ++ [i]) body st = for_loop xs body st ≫= (λ s, body s i).
Proof.
  rewrite for_loop_app. apply bind_ext; intros s _. cbn. apply bind_ret_r.
Qed.

(** A loop whose body never raises is a left fold. *)
Lemma for_loop_fold xs body (step : S → I → S) st :
  (∀ s i, i ∈ xs → body s i = Ok (step s i)) →
  for_loop xs body st = Ok (foldl step st xs).
Proof.
  revert st; induction xs as [|i xs IH]; intros st Hb; [done|].
  cbn. rewrite Hb by left. cbn. apply IH. intros; apply Hb; by right.
Qed.

(** The loop stops at the first iteration that raises. *)
Lemma for_loop_raise xs i ys body (step : S → I → S) st e :
  (∀ s j, j ∈ xs → body s j = Ok (step s j)) →
  body (foldl step st xs) i = Raise e →
  for_loop (xs ++ i :: ys) body st = Raise e.
Proof.
  intros Hb He. rewrite for_loop_app, (for_loop_fold _ _ step) by done.
  cbn. by rewrite He.
Qed.

(** Loop invariants: a predicate kept by every iteration holds of the
    result. *)
Lemma for_loop_invariant (P : S → Prop) xs body st st' :
  (∀ s i s', i ∈ xs → P s → body s i = Ok s' → P s') →
  P st → for_loop xs body st = Ok st' → P st'.
Proof.
  revert st; induction xs as [|i xs IH]; intros st Hb HP; cbn.
  - by intros [= <-].
  - destruct (body st i) as [s1|] eqn:E; cbn; [|done].
    apply IH; [intros; eapply Hb; eauto; by right|].
    eapply Hb; eauto; by left.
Qed.

(** An exception of the loop is the exception of one of its iterations. *)
Lemma for_loop_Raise xs body st e :
  for_loop xs body st = Raise e → ∃ i s, i ∈ xs ∧ body s i = Raise e.
Proof.
  revert st; induction xs as [|i xs IH]; intros st; cbn; [done|].
  destruct (body st i) as [s1|e1] eqn:E; cbn.
  - intros (j & s & Hj & Hb)%IH. exists j, s. split; [by right|done].
  - intros [= <-]. exists i, st. split; [by left|done].
Qed.

(** A loop whose body raises exactly on the items that fail a test raises
    on the first of them, and is a left fold when there is none. *)
Lemma for_loop_guarded xs body (good : I → bool) (step : S → I → S)
    (err : I → pyexc) st :
  (∀ s i, i ∈ xs →
     body s i = if good i then Ok (step s i) else Raise (err i)) →
  for_loop xs body st
  = match list_find (λ i, good i = false) xs with
    | Some (_, i) => Raise (err i)
    | None => Ok (foldl step st xs)
    end.
Proof.
  revert st; induction xs as [|i xs IH]; intros st Hb; [done|].
  cbn [for_loop list_find foldl]. rewrite Hb by left.
  case_decide as Hg; [by rewrite Hg|]. apply not_false_is_true in Hg.
  rewrite Hg. cbn [mbind result_bind].
  rewrite IH by (intros; apply Hb; by right).
  by destruct (list_find _ xs) as [[? ?]|].
Qed.

(** Such a loop returns exactly when every item passes the test. *)
Lemma for_loop_guarded_Ok xs body (good : I → bool) (step : S → I → S)
    (err : I → pyexc) st st' :
  (∀ s i, i ∈ xs →
     body s i = if good i then Ok (step s i) else Raise (err i)) →
  for_loop xs body st = Ok st'
  ↔ Forall (λ i, good i = true) xs ∧ st' = foldl step st xs.
Proof.
  intros Hb. rewrite (for_loop_guarded _ _ _ _ _ _ Hb).
  destruct (list_find _ xs) as [[k i]|] eqn:E.
  - apply list_find_Some in E as (Hk%list_elem_of_lookup_2 & Hi & _).
    split; [done|]. intros [Hg _]. rewrite Forall_forall in Hg.
    by rewrite (Hg _ Hk) in Hi.
  - apply list_find_None in E. split.
    + intros [= <-]. split; [|done].
      eapply Forall_impl; [done|]. intros i. apply not_false_is_true.
    + by intros [_ ->].
Qed.

End loop_lemmas.

(** The first element with a property is the one that follows a prefix
    without it. *)
Lemma list_find_first {A} (P : A → Prop) `{∀ x, Decision (P x)}
    (pre : list A) (x : A) (post : list A) :
  Forall (λ y, ¬ P y) pre → P x →
  list_find P (pre ++ x :: post) = Some (length pre, x).
Proof.
  intros Hpre Hx. apply list_find_Some. split_and!; [|done|].
  - by rewrite lookup_app_r, Nat.sub_diag.
  - intros j y Hj Hlt. rewrite lookup_app_l in Hj by done.
    rewrite Forall_forall in Hpre. by eapply Hpre, list_elem_of_lookup_2.
Qed.

(** ** [range] *)

Lemma py_range_unit (start stop : Z) :
  py_range start stop 1 = seqZ start (stop - start).
Proof.
  unfold py_range. replace (stop - start + 1 - 1) with (stop - start) by lia.
  rewrite Z.div_1_r. trans (Z.add start <$> seqZ 0 (stop - start)).
  - apply list_fmap_ext; intros; lia.
  - rewrite fmap_add_seqZ. f_equal; lia.
Qed.

Lemma py_range_length (start stop step : Z) :
  length (py_range start stop step)
  = Z.to_nat ((stop - start + step - 1) `div` step).
Proof. unfold py_range. by rewrite length_fmap, length_seqZ. Qed.

Lemma elem_of_py_range (start stop step i : Z) :
  0 < step →
  i ∈ py_range start stop step
  ↔ start ≤ i < stop ∧ (i - start) `mod` step = 0.
Proof.
  intros Hs. unfold py_range. rewrite list_elem_of_fmap. split.
  - intros (k & -> & Hk%elem_of_seqZ).
    replace (start + step * k - start) with (k * step) by lia.
    rewrite Z.mod_mul by lia. split; [|done].
    assert (step * k ≤ stop - start - 1); [|lia].
    assert (step * (k + 1) ≤ step * ((stop - start + step - 1) `div` step))
      by (apply Z.mul_le_mono_nonneg_l; lia).
    pose proof (Z.mul_div_le (stop - start + step - 1) step Hs). lia.
  - intros [Hi Hm]. exists ((i - start) `div` step). split.
    + pose proof (Z.div_mod (i - start) step). lia.
    + apply elem_of_seqZ. split; [apply Z.div_pos; lia|].
      apply Z.div_lt_upper_bound; [done|].
      pose proof (Z.mul_div_le (stop - start + step - 1) step Hs).
      pose proof (Z.mod_pos_bound (stop - start + step - 1) step Hs).
      pose proof (Z.div_mod (stop - start + step - 1) step). lia.
Qed.

(** ** Modular arithmetic *)

Section mod_lemmas.
Context (m : Z) (Hm : 0 < m).

(** Adding different residues to a sum gives sums with different residues:
    the fact behind the detection of single-character errors. *)
Lemma add_mod_cancel_l (a b c : Z) :
  0 ≤ b < m → 0 ≤ c < m →
  (a + b) `mod` m = (a + c) `mod` m → b = c.
Proof.
  intros Hb Hc Heq.
  assert ((b - c) `mod` m = 0) as Hd.
  { replace (b - c) with ((a + b) - (a + c)) by lia.
    rewrite Zminus_mod, Heq, Z.sub_diag. apply Z.mod_0_l; lia. }
  apply Z.mod_divide in Hd as [k Hk]; [|lia].
  assert (k = 0) by nia. lia.
Qed.

Lemma add_mod_cancel_mid (a b c d : Z) :
  0 ≤ b < m → 0 ≤ c < m →
  (a + b + d) `mod` m = (a + c + d) `mod` m → b = c.
Proof.
  intros Hb Hc Heq. apply (add_mod_cancel_l (a + d)); [done..|].
  by replace (a + d + b) with (a + b + d) by lia;
     replace (a + d + c) with (a + c + d) by lia.
Qed.

End mod_lemmas.

#[export] Hint Resolve is_Ok_Ok : py.
#[export] Hint Rewrite @bind_ret_l @bind_ret_r @bind_assoc : pyrw.
