(* ===== verification/Loop.v ===== *)
(** * The [for] statement as a transition system

    [for_loop] of the prelude runs a loop to its end in one go.  Here the
    same statement is a machine that takes one step per iteration: a
    configuration holds the items still to visit and the value of the loop's
    variables, a step runs the body once, leaves the loop with the exception
    of the body, or leaves it at the end of the items.  The machine is
    deterministic, every run ends after at most one step per item and one
    more, and its runs are the results of [for_loop]; invariants of the body
    hold in every configuration a run reaches. *)

From S2P Require Import Prelude.
From stdpp Require Import relations.

(** ** Configurations and steps *)

Inductive loop_config (I T : Type) : Type :=
| Iter (xs : list I) (st : T)
| Done (r : result T).

Arguments Iter {I T} xs st.
Arguments Done {I T} r.

Inductive loop_step {I T : Type} (body : T → I → result T)
    : relation (loop_config I T) :=
| loop_step_next i xs st st' :
    body st i = Ok st' → loop_step body (Iter (i :: xs) st) (Iter xs st')
| loop_step_raise i xs st e :
    body st i = Raise e → loop_step body (Iter (i :: xs) st) (Done (Raise e))
| loop_step_exit st :
    loop_step body (Iter [] st) (Done (Ok st)).

(** The step as a function. *)
Definition loop_next {I T : Type} (body : T → I → result T)
    (c : loop_config I T) : option (loop_config I T) :=
  match c with
  | Iter [] st => Some (Done (Ok st))
  | Iter (i :: xs) st =>
      Some (match body st i with
            | Ok st' => Iter xs st'
            | Raise e => Done (Raise e)
            end)
  | Done _ => None
  end.

(** The number of steps a configuration has left at most. *)
Definition loop_fuel {I T : Type} (c : loop_config I T) : nat :=
  match c with
  | Iter xs _ => S (length xs)
  | Done _ => 0
  end.

(** [n] steps of the machine, fewer when it stops before. *)
Fixpoint loop_run {I T : Type} (body : T → I → result T) (n : nat)
    (c : loop_config I T) : loop_config I T :=
  match n with
  | O => c
  | S n' =>
      match loop_next body c with
      | Some c' => loop_run body n' c'
      | None => c
      end
  end.

(** The length of the run from [Iter xs st]: one step for each iteration
    that is started, and one to leave the loop at the end of the items. *)
Fixpoint loop_steps {I T : Type} (body : T → I → result T) (xs : list I)
    (st : T) : nat :=
  match xs with
  | [] => 1
  | i :: xs' =>
      match body st i with
      | Ok st' => S (loop_steps body xs' st')
      | Raise _ => 1
      end
  end.

Definition loop_final {I T : Type} (c : loop_config I T) : Prop :=
  ∃ r, c = Done r.

#[export] Instance loop_final_dec {I T} (c : loop_config I T) :
  Decision (loop_final c).
Proof.
  destruct c as [xs st|r]; [right|left]; [by intros [? [=]]|by exists r].
Defined.

(** ** Runs of a deterministic system *)

(** Two runs of a deterministic relation that both end in a configuration
    without a step end in the same one. *)
Lemma rtc_det_nf {A} (R : relation A) (x y z : A) :
  (∀ a b c, R a b → R a c → b = c) →
  rtc R x y → nf R y → rtc R x z → nf R z → y = z.
Proof.
  intros Hdet Hy. revert z.
  induction Hy as [x|x x1 y Hs Hy IH]; intros z Hnf Hz Hnfz.
  - destruct Hz as [|x x2 z Hs' _]; [done|]. destruct Hnf. by exists x2.
  - destruct Hz as [|x x2 z Hs' Hz]; [destruct Hnfz; by exists x1|].
    rewrite (Hdet _ _ _ Hs' Hs) in Hz. by apply IH.
Qed.

(** In a deterministic system, a configuration on the way of a run that
    ends is at most as many steps from the end as the start is. *)
Lemma nsteps_det_rest {A} (R : relation A) (n : nat) (x y z : A) :
  (∀ a b c, R a b → R a c → b = c) →
  nsteps R n x z → nf R z → rtc R x y →
  ∃ m, (m ≤ n)%nat ∧ nsteps R m y z.
Proof.
  intros Hdet Hn Hnf Hy. revert n Hn.
  induction Hy as [x|x x1 y Hs Hy IH]; intros n Hn; [by exists n|].
  destruct Hn as [|n x x2 z Hs' Hn]; [destruct Hnf; by exists x1|].
  rewrite (Hdet _ _ _ Hs' Hs) in Hn.
  destruct (IH n Hn) as (m & Hm & Hr). exists m. split; [lia|done].
Qed.

(** ** The machine *)

Section machine.
Context {I T : Type} (body : T → I → result T).
Implicit Types (c : loop_config I T) (xs ys : list I) (st : T) (r : result T).

Lemma loop_step_next_iff c c' :
  loop_step body c c' ↔ loop_next body c = Some c'.
Proof.
  split.
  - intros [i xs st st' E|i xs st e E|st]; cbn; by rewrite ?E.
  - destruct c as [[|i xs] st|r]; cbn; intros [= <-]; [constructor| ].
    destruct (body st i) eqn:E; by constructor.
Qed.

Lemma loop_step_det c c1 c2 :
  loop_step body c c1 → loop_step body c c2 → c1 = c2.
Proof. rewrite !loop_step_next_iff. congruence. Qed.

(** Progress: the configurations that cannot step are the final ones. *)
Lemma loop_nf_final c : nf (loop_step body) c ↔ loop_final c.
Proof.
  split.
  - intros Hnf. destruct c as [xs st|r]; [|by exists r].
    destruct Hnf. destruct (loop_next body (Iter xs st)) as [c'|] eqn:E.
    + exists c'. by apply loop_step_next_iff.
    + by destruct xs.
  - intros [r ->] [c' Hc]. inversion Hc.
Qed.

(** The variant: every step uses up fuel. *)
Lemma loop_step_fuel c c' :
  loop_step body c c' → (loop_fuel c' < loop_fuel c)%nat.
Proof. intros [ ]; cbn; lia. Qed.

Lemma loop_rtc_fuel c c' :
  rtc (loop_step body) c c' → (loop_fuel c' ≤ loop_fuel c)%nat.
Proof.
  induction 1 as [|c c1 c2 Hs%loop_step_fuel _ IH]; [done|lia].
Qed.

Lemma loop_run_steps n c : rtc (loop_step body) c (loop_run body n c).
Proof.
  revert c; induction n as [|n IH]; intros c; cbn; [done|].
  destruct (loop_next body c) as [c'|] eqn:E; [|done].
  eapply rtc_l; [by apply loop_step_next_iff|apply IH].
Qed.

(** Running for the fuel of a configuration ends the loop, with the result
    of [for_loop]. *)
Lemma loop_run_for_loop n xs st :
  (length xs < n)%nat →
  loop_run body n (Iter xs st) = Done (for_loop xs body st).
Proof.
  revert xs st; induction n as [|n IH]; intros xs st Hn; [lia|].
  destruct xs as [|i xs]; cbn.
  - by destruct n.
  - destruct (body st i) as [st'|e]; cbn in *; [apply IH; lia|by destruct n].
Qed.

Lemma loop_steps_for_loop xs st :
  rtc (loop_step body) (Iter xs st) (Done (for_loop xs body st)).
Proof.
  rewrite <- (loop_run_for_loop (S (length xs))) by lia. apply loop_run_steps.
Qed.

(** The run from the start of a loop has [loop_steps] steps. *)
Lemma loop_nsteps_for_loop xs st :
  nsteps (loop_step body) (loop_steps body xs st) (Iter xs st)
    (Done (for_loop xs body st)).
Proof.
  revert st; induction xs as [|i xs IH]; intros st; cbn.
  - apply nsteps_once. constructor.
  - destruct (body st i) as [st'|e] eqn:E; cbn.
    + eapply nsteps_l; [by constructor|apply IH].
    + apply nsteps_once. by constructor.
Qed.

(** When the body raises exactly on the items that fail a test, the run
    ends one step after the iterations before the first such item. *)
Lemma loop_steps_guarded xs (good : I → bool) (step : T → I → T)
    (err : I → pyexc) st :
  (∀ s i, i ∈ xs →
     body s i = if good i then Ok (step s i) else Raise (err i)) →
  loop_steps body xs st
  = match list_find (λ i, good i = false) xs with
    | Some (k, _) => S k
    | None => S (length xs)
    end.
Proof.
  revert st; induction xs as [|i xs IH]; intros st Hb; [done|].
  cbn [loop_steps list_find length]. rewrite Hb by left.
  case_decide as Hg; [by rewrite Hg|]. apply not_false_is_true in Hg.
  rewrite Hg, IH by (intros; apply Hb; by right).
  by destruct (list_find _ xs) as [[? ?]|].
Qed.

(** The configurations inside the loop that a run reaches: some items have
    been visited, and the body has returned on each of them. *)
Lemma loop_reach_iter xs st ys st' :
  rtc (loop_step body) (Iter xs st) (Iter ys st') ↔
  ∃ zs, xs = zs ++ ys ∧ for_loop zs body st = Ok st'.
Proof.
  split.
  - intros Hr. remember (Iter xs st) as c eqn:Ec.
    remember (Iter ys st') as c' eqn:Ec'. revert xs st Ec.
    induction Hr as [c|c c1 c2 Hs Hr IH]; intros xs st ->.
    + injection Ec' as -> ->. by exists [].
    + inversion Hs; subst; [|inversion Hr as [|??? Hs']; inversion Hs'..].
      destruct (IH eq_refl _ _ eq_refl) as (zs & -> & Hz).
      exists (i :: zs). split; [done|]. cbn. by rewrite H2.
  - intros (zs & -> & Hz). revert st Hz.
    induction zs as [|i zs IH]; intros st; cbn; [by intros [= ->]|].
    destruct (body st i) as [s1|] eqn:E; cbn; [|done]. intros Hz.
    eapply rtc_l; [by constructor|by apply IH].
Qed.

(** The final configurations that a run reaches: the result of
    [for_loop]. *)
Lemma loop_reach_done xs st r :
  rtc (loop_step body) (Iter xs st) (Done r) ↔ r = for_loop xs body st.
Proof.
  split; [|intros ->; apply loop_steps_for_loop].
  intros Hr. remember (Iter xs st) as c eqn:Ec.
  remember (Done r) as c' eqn:Ec'. revert xs st Ec.
  induction Hr as [c|c c1 c2 Hs Hr IH]; intros xs st ->; [done|].
  inversion Hs; subst; cbn.
  - rewrite H2. cbn. by apply IH.
  - rewrite H2. inversion Hr as [|??? Hs']; [done|inversion Hs'].
  - inversion Hr as [|??? Hs']; [done|inversion Hs'].
Qed.

(** Invariants by induction on the run: a predicate on the items left and
    the state that every iteration keeps holds wherever the run gets. *)
Lemma loop_reach_invariant (P : list I → T → Prop) xs st ys st' :
  (∀ i zs s s', P (i :: zs) s → body s i = Ok s' → P zs s') →
  P xs st → rtc (loop_step body) (Iter xs st) (Iter ys st') → P ys st'.
Proof.
  intros Hb HP Hr. remember (Iter xs st) as c eqn:Ec.
  remember (Iter ys st') as c' eqn:Ec'. revert xs st HP Ec.
  induction Hr as [c|c c1 c2 Hs Hr IH]; intros xs st HP ->.
  - by injection Ec' as -> ->.
  - inversion Hs; subst; [|inversion Hr as [|??? Hs']; inversion Hs'..].
    eapply (IH eq_refl); [|reflexivity]. eapply Hb; eauto.
Qed.

(** Every run ends: from a configuration with fuel [n], a final
    configuration is reached in at most [n] steps. *)
Lemma loop_live c :
  ∃ n r, (n ≤ loop_fuel c)%nat ∧ nsteps (loop_step body) n c (Done r).
Proof.
  remember (loop_fuel c) as k eqn:Ek. revert c Ek.
  induction k as [k IH] using lt_wf_ind; intros c ->.
  destruct c as [xs st|r]; [|exists 0%nat, r; split; [done|constructor]].
  destruct (loop_next body (Iter xs st)) as [c'|] eqn:E; [|by destruct xs].
  apply loop_step_next_iff in E. pose proof (loop_step_fuel _ _ E) as Hf.
  destruct (IH _ Hf c' eq_refl) as (n & r & Hn & Hr).
  exists (S n), r. split; [lia|]. by econstructor.
Qed.

Lemma loop_sn c : sn (loop_step body) c.
Proof.
  remember (loop_fuel c) as k eqn:Ek. revert c Ek.
  induction k as [k IH] using lt_wf_ind; intros c ->.
  constructor. intros c' Hs. eapply IH; [|done]. by apply loop_step_fuel.
Qed.

(** The machine refines [for_loop]: the runs from the start of a loop
    that end, end with the result of [for_loop]; the run of the step
    function for more steps than there are items has ended there; and no
    run is infinite. *)
Theorem loop_machine_for_loop xs st :
  (∀ r, rtc (loop_step body) (Iter xs st) (Done r) ↔ r = for_loop xs body st)
  ∧ (∀ n, (length xs < n)%nat →
          loop_run body n (Iter xs st) = Done (for_loop xs body st))
  ∧ sn (loop_step body) (Iter xs st).
Proof.
  split_and!; [apply loop_reach_done|intros n; apply loop_run_for_loop|].
  apply loop_sn.
Qed.

End machine.
