(* ===== verification/ParitySum.v ===== *)
(** * Sums of weights that alternate with the position

    Both control characters of [util.py] are sums, modulo a constant, of
    weights that depend on the character and on the parity of its position:
    the two dictionaries of [ssn_check_digit] modulo 26, the digit and the
    digit sum of its double in [vat_number_check_digit] modulo 10.  This
    file has what the two have in common: the sum [psum], the conditions
    under which the substitution of one element and the exchange of two
    neighbours leave the sum unchanged modulo [m], and the number of
    positions in which two lists differ ([hamming]). *)

From S2P Require Import Prelude.

#[local] Open Scope Z_scope.

(** ** Cancellation modulo [m] *)

Lemma add_mod_inj (m a x y : Z) :
  (a + x) `mod` m = (a + y) `mod` m ↔ x `mod` m = y `mod` m.
Proof.
  split; intros H.
  - assert (x = a + x - a) as Hx by lia. assert (y = a + y - a) as Hy by lia.
    by rewrite Hx, Hy, Zminus_mod, H, <- Zminus_mod.
  - by rewrite Zplus_mod, H, <- Zplus_mod.
Qed.

Section parity_sum.
Context {A : Type} (w : bool → A → Z).
Implicit Types (p : bool) (xs ys pre post : list A).

(** The sum of the weights of [xs]; [p] is the parity of the first
    position, and the parities alternate. *)
Fixpoint psum (p : bool) (xs : list A) : Z :=
  match xs with
  | [] => 0
  | x :: xs' => w p x + psum (negb p) xs'
  end.

(** The parity of the position that follows [n] elements. *)
Definition pflip (p : bool) (n : nat) : bool := xorb p (Nat.odd n).

Lemma pflip_S p n : pflip p (S n) = pflip (negb p) n.
Proof.
  unfold pflip. rewrite Nat.odd_succ, <- Nat.negb_odd.
  by destruct p, (Nat.odd n).
Qed.

Lemma psum_app p xs ys :
  psum p (xs ++ ys) = psum p xs + psum (pflip p (length xs)) ys.
Proof.
  revert p; induction xs as [|x xs IH]; intros p; cbn [app psum length].
  - unfold pflip. cbn. by rewrite xorb_false_r.
  - rewrite IH, pflip_S. lia.
Qed.

Context (m : Z).

(** Replacing one element leaves the sum as it is modulo [m] exactly when
    the two elements have the same weight modulo [m] at that position. *)
Lemma psum_subst p pre x y post :
  psum p (pre ++ x :: post) `mod` m = psum p (pre ++ y :: post) `mod` m
  ↔ w (pflip p (length pre)) x `mod` m = w (pflip p (length pre)) y `mod` m.
Proof.
  rewrite !psum_app. cbn [psum]. rewrite add_mod_inj.
  by rewrite !(Z.add_comm (w _ _)), add_mod_inj.
Qed.

(** Exchanging two neighbours leaves the sum as it is modulo [m] exactly
    when the differences of their two weights agree modulo [m]. *)
Lemma psum_swap p pre a b post :
  psum p (pre ++ a :: b :: post) `mod` m
  = psum p (pre ++ b :: a :: post) `mod` m
  ↔ (w (pflip p (length pre)) a - w (negb (pflip p (length pre))) a) `mod` m
    = (w (pflip p (length pre)) b - w (negb (pflip p (length pre))) b) `mod` m.
Proof.
  rewrite !psum_app. cbn [psum]. set (q := pflip p (length pre)).
  set (P := psum p pre). set (R := psum (negb (negb q)) post).
  set (C := P + w (negb q) a + w (negb q) b + R).
  rewrite <- (add_mod_inj m C (w q a - _) (w q b - _)).
  replace (P + (w q a + (w (negb q) b + R)))
    with (C + (w q a - w (negb q) a)) by (unfold C; lia).
  by replace (P + (w q b + (w (negb q) a + R)))
    with (C + (w q b - w (negb q) b)) by (unfold C; lia).
Qed.

End parity_sum.

(** ** The number of positions in which two lists differ *)

Section hamming.
Context `{EqDecision A}.
Implicit Types (x y : A) (xs ys l r : list A).

Fixpoint hamming xs ys : nat :=
  match xs, ys with
  | x :: xs', y :: ys' => (if decide (x = y) then 0 else 1) + hamming xs' ys'
  | _, _ => 0
  end.

Lemma hamming_refl xs : hamming xs xs = 0%nat.
Proof. induction xs as [|x xs IH]; [done|]. cbn. by rewrite decide_True. Qed.

Lemma hamming_0 xs ys :
  length xs = length ys → hamming xs ys = 0%nat → xs = ys.
Proof.
  revert ys; induction xs as [|x xs IH]; intros [|y ys] Hl Hd; try done.
  cbn in Hl, Hd. destruct (decide (x = y)) as [->|]; [|done].
  f_equal. apply IH; [lia|done].
Qed.

Lemma hamming_subst l x y r :
  x ≠ y → hamming (l ++ x :: r) (l ++ y :: r) = 1%nat.
Proof.
  intros Hxy. induction l as [|a l IH]; cbn.
  - by rewrite decide_False, hamming_refl.
  - by rewrite decide_True.
Qed.

(** The lists that differ in one position are those with one element
    replaced. *)
Lemma hamming_1 xs ys :
  length xs = length ys →
  hamming xs ys = 1%nat
  ↔ ∃ l x y r, xs = l ++ x :: r ∧ ys = l ++ y :: r ∧ x ≠ y.
Proof.
  intros Hl. split; [|intros (l & x & y & r & -> & -> & Hxy);
                       by apply hamming_subst].
  revert ys Hl; induction xs as [|x xs IH]; intros [|y ys] Hl Hd; try done.
  cbn in Hl, Hd. destruct (decide (x = y)) as [->|Hxy].
  - destruct (IH ys) as (l & a & b & r & -> & -> & Hab); [lia|done|].
    by exists (y :: l), a, b, r.
  - assert (xs = ys) as -> by (apply hamming_0; [lia|cbn in Hd; lia]).
    by exists [], x, y, ys.
Qed.

End hamming.
