(* ===== verification/PyBuiltins.v ===== *)
(** * Python values and the built-in operations that [util.py] calls

    Strings are [string] (sequences of 8-bit [ascii]); integers are [Z].  A
    one-character Python string is a [string] of length one: Python has no
    character type, so indexing returns a string and the weight dictionaries
    of [ssn_check_digit] are keyed by strings.  Each operation is named after
    the Python construct it models. *)

From S2P Require Import Prelude.
From stdpp Require Import gmap.

#[local] Open Scope Z_scope.

(** ** Values *)

(** The arguments the public functions are called with: text, an integer,
    [True] or [False] (which [int()] accepts as it does an integer: [bool]
    is a subclass of [int]), or [None].  Values of other types (floats,
    bytes, objects with methods of their own) are not represented. *)
Inductive pyval : Type :=
| PyStr (s : string)
| PyInt (n : Z)
| PyBool (b : bool)
| PyNone.

#[export] Instance pyval_eq_dec : EqDecision pyval.
Proof. solve_decision. Defined.

(** [isinstance(v, str)] *)
Definition isinstance_str (v : pyval) : bool :=
  match v with PyStr _ => true | _ => false end.

(** Truth value of an object in a boolean context. *)
Definition truthy_int (n : Z) : bool := negb (n =? 0).
Definition truthy_str (s : string) : bool :=
  match s with EmptyString => false | _ => true end.

(** [c and y or z], where [c] is a [bool]: [y] when [c] holds and [y] is
    true, [z] otherwise. *)
Definition py_and_or {A} (truthy : A → bool) (c : bool) (y z : A) : A :=
  if c then (if truthy y then y else z) else z.

(** ** Characters *)

Definition ascii_code (c : ascii) : Z := Z.of_N (N_of_ascii c).
Definition ascii_of_code (n : Z) : ascii := ascii_of_N (Z.to_N n).

Definition in_range (lo hi : Z) (c : ascii) : bool :=
  (lo <=? ascii_code c) && (ascii_code c <=? hi).

Definition is_digit : ascii → bool := in_range 48 57.
Definition is_upper : ascii → bool := in_range 65 90.
Definition is_lower : ascii → bool := in_range 97 122.
Definition is_upper_alnum (c : ascii) : bool := is_digit c || is_upper c.
Definition is_alnum (c : ascii) : bool := is_upper_alnum c || is_lower c.

(** White space as [int()] skips it around a literal: tab, newline,
    vertical tab, form feed, carriage return and the space, and above 127
    the next-line character 133 and the no-break space 160.  The four
    separators 28..31, which [str.isspace] counts as white space, are not
    skipped: [int()] raises on them. *)
Definition is_int_space (c : ascii) : bool :=
  in_range 9 13 c || in_range 32 32 c || in_range 133 133 c
  || in_range 160 160 c.

Definition is_sign (c : ascii) : bool :=
  bool_decide (c = "+"%char) || bool_decide (c = "-"%char).

Definition digit_val (c : ascii) : Z := ascii_code c - 48.
Definition digit_char (d : Z) : ascii := ascii_of_code (48 + d).

Definition upper_char (c : ascii) : ascii :=
  if is_lower c then ascii_of_code (ascii_code c - 32) else c.

(** ** Strings *)

Fixpoint str_map (f : ascii → ascii) (s : string) : string :=
  match s with
  | EmptyString => EmptyString
  | String c r => String (f c) (str_map f r)
  end.

Fixpoint str_forall (p : ascii → bool) (s : string) : bool :=
  match s with
  | EmptyString => true
  | String c r => p c && str_forall p r
  end.

Fixpoint str_take (n : nat) (s : string) : string :=
  match n, s with
  | S n', String c r => String c (str_take n' r)
  | _, _ => EmptyString
  end.

Fixpoint str_drop (n : nat) (s : string) : string :=
  match n, s with
  | S n', String _ r => str_drop n' r
  | _, _ => s
  end.

Fixpoint str_repeat (c : ascii) (n : nat) : string :=
  match n with
  | O => EmptyString
  | S n' => String c (str_repeat c n')
  end.

(** [len(s)] *)
Definition py_len (s : string) : Z := Z.of_nat (String.length s).

(** [s.upper()] *)
Definition py_upper (s : string) : string := str_map upper_char s.

(** [v.upper()] on an arbitrary value: only text has the method. *)
Definition py_upper_val (v : pyval) : result string :=
  match v with
  | PyStr s => Ok (py_upper s)
  | _ => Raise AttributeError
  end.

(** An index as Python normalises it: a negative index counts from the
    end. *)
Definition norm_index (len i : Z) : Z := if i <? 0 then i + len else i.

(** [s[i]]: a string of length one, or [IndexError]. *)
Definition py_getitem (s : string) (i : Z) : result string :=
  let j := norm_index (py_len s) i in
  if (0 <=? j) && (j <? py_len s) then
    match String.get (Z.to_nat j) s with
    | Some c => Ok (String c EmptyString)
    | None => Raise IndexError
    end
  else Raise IndexError.

(** [v[i]] on an arbitrary value: integers, Booleans and [None] are not
    subscriptable. *)
Definition py_getitem_val (v : pyval) (i : Z) : result string :=
  match v with
  | PyStr s => py_getitem s i
  | _ => Raise TypeError
  end.

(** A slice bound as Python clamps it. *)
Definition slice_bound (len i : Z) : Z :=
  if i <? 0 then Z.max 0 (i + len) else Z.min i len.

(** [s[lo:hi]]: never raises; out-of-range bounds are clamped. *)
Definition py_slice (s : string) (lo hi : Z) : string :=
  let len := py_len s in
  let lo' := slice_bound len lo in
  let hi' := slice_bound len hi in
  str_take (Z.to_nat (hi' - lo')) (str_drop (Z.to_nat lo') s).

(** [v[lo:hi]] on an arbitrary value. *)
Definition py_slice_val (v : pyval) (lo hi : Z) : result string :=
  match v with
  | PyStr s => Ok (py_slice s lo hi)
  | _ => Raise TypeError
  end.

(** [s.zfill(width)]: zeros on the left up to [width], after the sign if
    the string starts with one. *)
Definition py_zfill (s : string) (width : Z) : string :=
  let pad := str_repeat "0" (Z.to_nat (width - py_len s)) in
  match s with
  | String c r => if is_sign c then String c (pad +:+ r) else pad +:+ s
  | EmptyString => pad
  end.

(** [chr(x)] for [0 <= x < 256]. *)
Definition py_chr (x : Z) : string := String (ascii_of_code x) EmptyString.

(** ** Integers and text *)

(** The decimal digits of [n >= 0], most significant first, in front of
    [acc].  The fuel bounds the number of digits. *)
Fixpoint digits_fuel (fuel : nat) (n : Z) (acc : string) : string :=
  match fuel with
  | O => acc
  | S fuel' =>
      let acc' := String (digit_char (n `mod` 10)) acc in
      if n <? 10 then acc' else digits_fuel fuel' (n `div` 10) acc'
  end.

Definition py_str_nonneg (n : Z) : string :=
  digits_fuel (S (Z.to_nat (Z.log2 n))) n EmptyString.

(** [str(n)] for an integer. *)
Definition py_str_int (n : Z) : string :=
  if n <? 0 then String "-" (py_str_nonneg (- n)) else py_str_nonneg n.

(** [str(v)] *)
Definition py_str (v : pyval) : string :=
  match v with
  | PyStr s => s
  | PyInt n => py_str_int n
  | PyBool b => if b then "True" else "False"
  | PyNone => "None"
  end.

Fixpoint str_lstrip (s : string) : string :=
  match s with
  | String c r => if is_int_space c then str_lstrip r else s
  | EmptyString => EmptyString
  end.

Fixpoint str_rstrip (s : string) : string :=
  match s with
  | EmptyString => EmptyString
  | String c r =>
      match str_rstrip r with
      | EmptyString => if is_int_space c then EmptyString else String c EmptyString
      | r' => String c r'
      end
  end.

(** The digits of an integer literal: decimal digits, with single
    underscores allowed between two digits.  [prev] tells whether the
    character before was a digit. *)
Fixpoint parse_digits (s : string) (acc : Z) (prev : bool) : option Z :=
  match s with
  | EmptyString => if prev then Some acc else None
  | String c r =>
      if is_digit c then parse_digits r (10 * acc + digit_val c) true
      else if bool_decide (c = "_"%char) && prev then parse_digits r acc false
      else None
  end.

(** [int(s)] for text: white space around, an optional sign, digits. *)
Definition py_int_str (s : string) : result Z :=
  let t := str_rstrip (str_lstrip s) in
  let '(neg, body) :=
    match t with
    | String c r =>
        if bool_decide (c = "-"%char) then (true, r)
        else if bool_decide (c = "+"%char) then (false, r)
        else (false, t)
    | EmptyString => (false, t)
    end in
  match parse_digits body 0 false with
  | Some n => Ok (if neg then - n else n)
  | None => Raise (ValueError_int s)
  end.

(** [int(v)] *)
Definition py_int (v : pyval) : result Z :=
  match v with
  | PyStr s => py_int_str s
  | PyInt n => Ok n
  | PyBool b => Ok (if b then 1 else 0)
  | PyNone => Raise TypeError
  end.

(** [divmod(a, b)] for [b <> 0]: floor division and its remainder. *)
Definition py_divmod (a b : Z) : Z * Z := (a `div` b, a `mod` b).

(** ["%02d" % n]: at least two characters, zero padded, the sign first. *)
Definition py_format_02d (n : Z) : string := py_zfill (py_str_int n) 2.

(** ** Lists and dictionaries *)

(** [l[i]] *)
Definition py_list_getitem {A} (l : list A) (i : Z) : result A :=
  let len := Z.of_nat (length l) in
  let j := norm_index len i in
  if (0 <=? j) && (j <? len) then
    match l !! Z.to_nat j with
    | Some x => Ok x
    | None => Raise IndexError
    end
  else Raise IndexError.

(** [l.index(x)]: the position of the first occurrence. *)
Definition py_list_index (l : list string) (x : string) : result Z :=
  match list_find (λ y, y = x) l with
  | Some (i, _) => Ok (Z.of_nat i)
  | None => Raise (ValueError_index x)
  end.

(** [d[k]] *)
Definition py_dict_getitem {V} (d : gmap string V) (k : string) : result V :=
  match d !! k with
  | Some v => Ok v
  | None => Raise (KeyError k)
  end.

(** [d.get(k, dflt)] *)
Definition py_dict_get {V} (d : gmap string V) (k : string) (dflt : V) : V :=
  default dflt (d !! k).

(** ** Lemmas on characters *)

Lemma ascii_code_range (c : ascii) : 0 ≤ ascii_code c < 256.
Proof.
  unfold ascii_code. pose proof (N_ascii_bounded c). lia.
Qed.

Lemma ascii_of_code_code (c : ascii) : ascii_of_code (ascii_code c) = c.
Proof.
  unfold ascii_of_code, ascii_code. by rewrite N2Z.id, ascii_N_embedding.
Qed.

Lemma ascii_code_of_code (n : Z) :
  0 ≤ n < 256 → ascii_code (ascii_of_code n) = n.
Proof.
  intros Hn. unfold ascii_of_code, ascii_code.
  rewrite N_ascii_embedding by lia. lia.
Qed.

Lemma ascii_code_inj (c d : ascii) : ascii_code c = ascii_code d → c = d.
Proof.
  intros Hcd. by rewrite <- (ascii_of_code_code c), Hcd, ascii_of_code_code.
Qed.

Lemma in_range_spec (lo hi : Z) (c : ascii) :
  in_range lo hi c = true ↔ lo ≤ ascii_code c ≤ hi.
Proof. unfold in_range. lia. Qed.

Lemma is_digit_spec c : is_digit c = true ↔ 48 ≤ ascii_code c ≤ 57.
Proof. apply in_range_spec. Qed.

Lemma is_upper_spec c : is_upper c = true ↔ 65 ≤ ascii_code c ≤ 90.
Proof. apply in_range_spec. Qed.

Lemma is_lower_spec c : is_lower c = true ↔ 97 ≤ ascii_code c ≤ 122.
Proof. apply in_range_spec. Qed.

Lemma digit_val_range c : is_digit c = true → 0 ≤ digit_val c ≤ 9.
Proof. rewrite is_digit_spec. unfold digit_val. lia. Qed.

Lemma digit_char_code (d : Z) :
  0 ≤ d ≤ 9 → ascii_code (digit_char d) = 48 + d.
Proof. intros. unfold digit_char. apply ascii_code_of_code; lia. Qed.

Lemma is_digit_digit_char (d : Z) : 0 ≤ d ≤ 9 → is_digit (digit_char d) = true.
Proof. intros. apply is_digit_spec. rewrite digit_char_code; lia. Qed.

Lemma digit_val_digit_char (d : Z) : 0 ≤ d ≤ 9 → digit_val (digit_char d) = d.
Proof. intros. unfold digit_val. rewrite digit_char_code; lia. Qed.

Lemma digit_char_digit_val c : is_digit c = true → digit_char (digit_val c) = c.
Proof.
  intros _. unfold digit_char, digit_val.
  replace (48 + (ascii_code c - 48)) with (ascii_code c) by lia.
  apply ascii_of_code_code.
Qed.

Lemma digit_val_inj c d :
  digit_val c = digit_val d → c = d.
Proof. unfold digit_val. intros. apply ascii_code_inj. lia. Qed.

Lemma is_digit_not_space c : is_digit c = true → is_int_space c = false.
Proof.
  rewrite is_digit_spec. unfold is_int_space, in_range. lia.
Qed.

Lemma is_digit_not_sign c : is_digit c = true → is_sign c = false.
Proof. ascii_cases c. Qed.

Lemma is_digit_not_underscore c :
  is_digit c = true → bool_decide (c = "_"%char) = false.
Proof. ascii_cases c. Qed.

Lemma is_sign_not_space c : is_sign c = true → is_int_space c = false.
Proof. ascii_cases c. Qed.

Lemma upper_char_idem c : upper_char (upper_char c) = upper_char c.
Proof. ascii_cases c. Qed.

Lemma upper_char_not_lower c : is_lower (upper_char c) = false.
Proof. ascii_cases c. Qed.

Lemma upper_char_fixed c : is_lower c = false → upper_char c = c.
Proof. unfold upper_char. by intros ->. Qed.

Lemma is_upper_alnum_not_lower c : is_upper_alnum c = true → is_lower c = false.
Proof. ascii_cases c. Qed.

Lemma upper_char_upper_alnum c :
  is_upper_alnum (upper_char c) = is_alnum c.
Proof. ascii_cases c. Qed.

#[export] Hint Resolve is_digit_not_space is_digit_not_sign
  is_upper_alnum_not_lower digit_val_range is_digit_digit_char : py.
#[export] Hint Rewrite upper_char_idem ascii_of_code_code : pyrw.

(** ** Strings as lists of characters *)

(** The characters of a string, to reason with the list library. *)
Definition chars (s : string) : list ascii := String.list_ascii_of_string s.

Lemma chars_nil : chars EmptyString = [].
Proof. done. Qed.

Lemma chars_cons c s : chars (String c s) = c :: chars s.
Proof. done. Qed.

Lemma chars_inj s t : chars s = chars t → s = t.
Proof.
  intros Hst. rewrite <- (String.string_of_list_ascii_of_string s),
    <- (String.string_of_list_ascii_of_string t). unfold chars in Hst. by rewrite Hst.
Qed.

Lemma chars_length s : length (chars s) = String.length s.
Proof. induction s; cbn; auto. Qed.

Lemma chars_lookup s (n : nat) : chars s !! n = String.get n s.
Proof. revert n; induction s as [|c s IH]; intros [|n]; cbn; auto. Qed.

Lemma str_app_cons c s t : String c s +:+ t = String c (s +:+ t).
Proof. done. Qed.

Lemma str_app_nil_l s : EmptyString +:+ s = s.
Proof. done. Qed.

Lemma str_app_nil_r s : s +:+ EmptyString = s.
Proof. induction s as [|c s IH]; [done|]. by rewrite str_app_cons, IH. Qed.

Lemma chars_app s t : chars (s +:+ t) = chars s ++ chars t.
Proof.
  induction s as [|c s IH]; [done|].
  by rewrite str_app_cons, !chars_cons, IH.
Qed.

Lemma chars_map f s : chars (str_map f s) = f <$> chars s.
Proof. induction s as [|c s IH]; cbn; [done|]. f_equal. apply IH. Qed.

Lemma chars_take n s : chars (str_take n s) = take n (chars s).
Proof.
  revert s; induction n as [|n IH]; intros [|c s]; cbn; try done.
  f_equal. apply IH.
Qed.

Lemma chars_drop n s : chars (str_drop n s) = drop n (chars s).
Proof.
  revert s; induction n as [|n IH]; intros [|c s]; cbn; auto.
Qed.

Lemma chars_repeat c n : chars (str_repeat c n) = replicate n c.
Proof. induction n as [|n IH]; cbn; [done|]. f_equal. apply IH. Qed.

Lemma str_forall_Forall p s :
  str_forall p s = true ↔ Forall (λ c, p c = true) (chars s).
Proof.
  induction s as [|c s IH]; cbn; [by split; [constructor|]|].
  rewrite andb_true_iff, IH, Forall_cons. done.
Qed.

Lemma py_len_chars s : py_len s = Z.of_nat (length (chars s)).
Proof. unfold py_len. by rewrite chars_length. Qed.

Lemma py_len_nonneg s : 0 ≤ py_len s.
Proof. unfold py_len. lia. Qed.

Lemma py_len_app s t : py_len (s +:+ t) = py_len s + py_len t.
Proof. rewrite !py_len_chars, chars_app, length_app. lia. Qed.

(** ** Lemmas on indexing and slicing *)

Lemma py_getitem_lookup s (i : nat) c :
  chars s !! i = Some c → py_getitem s (Z.of_nat i) = Ok (String c EmptyString).
Proof.
  intros Hi. pose proof (lookup_lt_Some _ _ _ Hi) as Hlt.
  rewrite chars_length in Hlt. rewrite chars_lookup in Hi.
  unfold py_getitem, norm_index, py_len.
  destruct (Z.ltb_spec (Z.of_nat i) 0); [lia|].
  destruct (Z.leb_spec 0 (Z.of_nat i)); [|lia].
  destruct (Z.ltb_spec (Z.of_nat i) (Z.of_nat (String.length s))); [|lia].
  cbn. by rewrite Nat2Z.id, Hi.
Qed.

Lemma py_getitem_ge s i : py_len s ≤ i → py_getitem s i = Raise IndexError.
Proof.
  intros Hi. pose proof (py_len_nonneg s). unfold py_getitem, norm_index.
  destruct (Z.ltb_spec i 0); [lia|].
  destruct (Z.ltb_spec i (py_len s)); [lia|]. by rewrite andb_false_r.
Qed.

Lemma py_getitem_neg s (i : nat) c :
  (0 < i ≤ length (chars s))%nat →
  chars s !! (length (chars s) - i)%nat = Some c →
  py_getitem s (- Z.of_nat i) = Ok (String c EmptyString).
Proof.
  intros Hi Hc. rewrite <- (py_getitem_lookup _ _ _ Hc).
  unfold py_getitem, norm_index. rewrite py_len_chars.
  destruct (Z.ltb_spec (- Z.of_nat i) 0); [|lia].
  destruct (Z.ltb_spec (Z.of_nat (length (chars s) - i)) 0); [lia|].
  by replace (- Z.of_nat i + Z.of_nat (length (chars s)))
    with (Z.of_nat (length (chars s) - i)) by lia.
Qed.

Lemma py_getitem_Ok s i r :
  py_getitem s i = Ok r →
  ∃ c, r = String c EmptyString
       ∧ chars s !! Z.to_nat (norm_index (py_len s) i) = Some c
       ∧ 0 ≤ norm_index (py_len s) i < py_len s.
Proof.
  unfold py_getitem. set (j := norm_index _ _).
  destruct (Z.leb_spec 0 j), (Z.ltb_spec j (py_len s)); cbn; try done.
  rewrite <- chars_lookup. destruct (chars s !! Z.to_nat j) eqn:E; [|done].
  intros [= <-]. eauto.
Qed.

Lemma py_getitem_length s i r : py_getitem s i = Ok r → String.length r = 1%nat.
Proof. by intros (c & -> & _)%py_getitem_Ok. Qed.

(** The only exception of indexing is [IndexError]. *)
Lemma py_getitem_Raise s i e : py_getitem s i = Raise e → e = IndexError.
Proof.
  unfold py_getitem. repeat case_match; congruence.
Qed.

Lemma chars_py_slice s lo hi :
  chars (py_slice s lo hi)
  = take (Z.to_nat (slice_bound (py_len s) hi - slice_bound (py_len s) lo))
      (drop (Z.to_nat (slice_bound (py_len s) lo)) (chars s)).
Proof. unfold py_slice. by rewrite chars_take, chars_drop. Qed.

Lemma slice_bound_range len i : 0 ≤ len → 0 ≤ slice_bound len i ≤ len.
Proof. unfold slice_bound. destruct (Z.ltb_spec i 0); lia. Qed.

Lemma slice_bound_in len i : 0 ≤ i ≤ len → slice_bound len i = i.
Proof. unfold slice_bound. destruct (Z.ltb_spec i 0); lia. Qed.

Lemma slice_bound_neg len i : - len ≤ i < 0 → slice_bound len i = i + len.
Proof. unfold slice_bound. destruct (Z.ltb_spec i 0); lia. Qed.

(** A slice inside the string: [s[lo:hi]] for [0 <= lo <= hi <= len(s)]. *)
Lemma chars_py_slice_in s (lo hi : nat) :
  (lo ≤ hi ≤ length (chars s))%nat →
  chars (py_slice s (Z.of_nat lo) (Z.of_nat hi))
  = take (hi - lo) (drop lo (chars s)).
Proof.
  intros Hb. rewrite chars_py_slice, !slice_bound_in
    by (rewrite py_len_chars; lia).
  f_equal; [lia|]. f_equal; lia.
Qed.

Lemma py_slice_length s lo hi :
  py_len (py_slice s lo hi)
  = Z.max 0 (slice_bound (py_len s) hi - slice_bound (py_len s) lo).
Proof.
  pose proof (slice_bound_range (py_len s) lo (py_len_nonneg s)).
  pose proof (slice_bound_range (py_len s) hi (py_len_nonneg s)).
  rewrite py_len_chars, chars_py_slice, length_take, length_drop.
  rewrite py_len_chars in *. lia.
Qed.

(** An empty slice: the bounds meet or cross. *)
Lemma py_slice_empty s lo hi :
  slice_bound (py_len s) hi ≤ slice_bound (py_len s) lo →
  py_slice s lo hi = EmptyString.
Proof.
  intros Hb. pose proof (py_slice_length s lo hi) as Hl.
  unfold py_len in Hl at 1. by destruct (py_slice s lo hi); [|cbn in Hl; lia].
Qed.

(** ** The exceptions of [int()] and [list.index] *)

Lemma py_int_str_Raise s e : py_int_str s = Raise e → e = ValueError_int s.
Proof. unfold py_int_str. repeat case_match; congruence. Qed.

Lemma py_int_str_nonempty s n : py_int_str s = Ok n → s ≠ EmptyString.
Proof. by intros Hn ->. Qed.

Lemma py_list_index_Raise l x e :
  py_list_index l x = Raise e → e = ValueError_index x.
Proof. unfold py_list_index. repeat case_match; congruence. Qed.

(** ** Lemmas on [upper] *)

Lemma chars_py_upper s : chars (py_upper s) = upper_char <$> chars s.
Proof. apply chars_map. Qed.

Lemma py_upper_idem s : py_upper (py_upper s) = py_upper s.
Proof.
  apply chars_inj. rewrite !chars_py_upper, <- list_fmap_compose.
  apply list_fmap_ext; intros; cbn. apply upper_char_idem.
Qed.

Lemma py_len_upper s : py_len (py_upper s) = py_len s.
Proof. by rewrite !py_len_chars, chars_py_upper, length_fmap. Qed.

Lemma py_upper_fixed s :
  str_forall (λ c, negb (is_lower c)) s = true → py_upper s = s.
Proof.
  intros Hs%str_forall_Forall. apply chars_inj. rewrite chars_py_upper.
  rewrite <- (list_fmap_id (chars s)) at 2. apply Forall_fmap_ext_1.
  eapply Forall_impl; [exact Hs|]. intros c Hc; cbn in *.
  apply upper_char_fixed. by destruct (is_lower c).
Qed.

#[export] Hint Rewrite chars_cons chars_nil chars_app chars_map chars_take
  chars_drop chars_repeat chars_py_upper py_len_upper py_upper_idem : pyrw.

Lemma str_app_assoc s t u : (s +:+ t) +:+ u = s +:+ (t +:+ u).
Proof. apply chars_inj. by rewrite !chars_app, app_assoc. Qed.

Lemma str_app_length s t :
  String.length (s +:+ t) = (String.length s + String.length t)%nat.
Proof. by rewrite <- !chars_length, chars_app, length_app. Qed.

Lemma str_take_drop n s : str_take n s +:+ str_drop n s = s.
Proof.
  apply chars_inj. by rewrite chars_app, chars_take, chars_drop, take_drop.
Qed.

Lemma str_drop_length n s :
  String.length (str_drop n s) = (String.length s - n)%nat.
Proof. by rewrite <- !chars_length, chars_drop, length_drop. Qed.

Lemma str_take_length n s :
  String.length (str_take n s) = (n `min` String.length s)%nat.
Proof. by rewrite <- !chars_length, chars_take, length_take. Qed.

(** The character that follows a prefix [s] is at index [len(s)]. *)
Lemma py_getitem_app_cons s c t :
  py_getitem (s +:+ String c t) (py_len s) = Ok (String c EmptyString).
Proof.
  unfold py_len. apply py_getitem_lookup.
  rewrite chars_app, chars_cons, <- chars_length. by apply list_lookup_middle.
Qed.

(** Indexing inside a prefix does not depend on what follows. *)
Lemma py_getitem_app_l s t (i : Z) :
  0 ≤ i < py_len s → py_getitem (s +:+ t) i = py_getitem s i.
Proof.
  intros Hi. rewrite py_len_chars in Hi.
  destruct (lookup_lt_is_Some_2 (chars s) (Z.to_nat i)) as [c Hc]; [lia|].
  rewrite <- (Z2Nat.id i) by lia.
  rewrite (py_getitem_lookup s _ c Hc). apply py_getitem_lookup.
  by rewrite chars_app, lookup_app_l by lia.
Qed.

Lemma is_digit_upper_char c : is_digit (upper_char c) = is_digit c.
Proof. ascii_cases c. Qed.

(** Indexing away from a character does not depend on that character. *)
Lemma py_getitem_subst pre c c' post (i : nat) :
  i ≠ String.length pre →
  py_getitem (pre +:+ String c post) (Z.of_nat i)
  = py_getitem (pre +:+ String c' post) (Z.of_nat i).
Proof.
  intros Hi.
  destruct (decide (i < String.length (pre +:+ String c post))%nat) as [Hl|Hl].
  - destruct (lookup_lt_is_Some_2 (chars (pre +:+ String c post)) i)
      as [x Hx]; [by rewrite chars_length|].
    rewrite (py_getitem_lookup _ _ _ Hx). symmetry. apply py_getitem_lookup.
    rewrite chars_app, chars_cons in Hx |- *. rewrite <- chars_length in Hi.
    destruct (decide (i < length (chars pre))%nat).
    + by rewrite lookup_app_l in Hx |- * by done.
    + rewrite lookup_app_r in Hx |- * by lia.
      by destruct (i - length (chars pre))%nat eqn:E; [lia|].
  - rewrite str_app_length in Hl. cbn in Hl.
    rewrite !py_getitem_ge; [done|unfold py_len; rewrite str_app_length; cbn; lia..].
Qed.
