(* ===== verification/Django.v ===== *)
(** * The Django helpers that [util.py] imports

    [smart_text], from [django.utils.encoding], and [ugettext_lazy], from
    [django.utils.translation], imported as [_].  Neither is part of the
    sources under verification.  [smart_text] is modelled from its
    documentation.  [ugettext_lazy] marks a message for translation: what
    the message renders to depends on the translation that is active, which
    is a parameter of the development (class [Translation]); the theorems
    hold for every translation. *)

From S2P Require Import Prelude PyBuiltins.
From stdpp Require Import gmap.

(** The active translation: the text that a message renders to. *)
Class Translation : Type := {
  translate : string → string
}.

(** [from django.utils.translation import ugettext_lazy as _] *)
Definition ugettext_lazy {translation : Translation} (message : string) : string :=
  translate message.

(** No translation is active: every message renders to itself. *)
#[export] Instance untranslated : Translation := {| translate := id |}.

(** A catalogue of translated messages is active: a message renders to its
    entry, and to itself when the catalogue has none. *)
Definition catalogue_translation (catalogue : gmap string string)
    : Translation :=
  {| translate message := default message (catalogue !! message) |}.

(** A catalogue with one entry, for the examples. *)
Definition sample_catalogue : gmap string string :=
  {[ "Check digit does not match."%string
     := "La cifra di controllo non corrisponde."%string ]}.

(** [smart_text]: text is returned as it is, any other object is converted
    with [str]. *)
Definition smart_text (v : pyval) : string := py_str v.
