(* ===== verification/PyDecimal.v ===== *)
(** * Decimal text: [str(n)], [int(s)] and [zfill] as inverse operations

    The reference for decimal rendering is [zdigits w n], the [w] low-order
    decimal digits of [n], most significant first, defined by structural
    recursion on the width.  The executable [py_str_int] (which uses fuel) is
    shown to produce exactly the digits of its argument, [int()] to read them
    back, and [zfill] to extend the width without changing the value. *)

From S2P Require Import Prelude PyBuiltins.

#[local] Open Scope Z_scope.

(** ** Reference definitions *)

(** The [w] low-order digits of [n], most significant first. *)
Fixpoint zdigits (w : nat) (n : Z) : list Z :=
  match w with
  | O => []
  | S w' => zdigits w' (n `div` 10) ++ [n `mod` 10]
  end.

(** The text of a list of digits. *)
Fixpoint digits_str (ds : list Z) : string :=
  match ds with
  | [] => EmptyString
  | d :: ds' => String (digit_char d) (digits_str ds')
  end.

(** Horner evaluation of a list of digits in front of which [a] was read. *)
Definition zvalue (a : Z) (ds : list Z) : Z := foldl (λ a d, 10 * a + d) a ds.

(** [n] written with exactly [w] digits. *)
Definition zpad (w : nat) (n : Z) : string := digits_str (zdigits w n).

(** The number of digits that [digits_fuel] writes. *)
Fixpoint ndigits_fuel (fuel : nat) (n : Z) : nat :=
  match fuel with
  | O => O
  | S fuel' => if n <? 10 then 1%nat else S (ndigits_fuel fuel' (n `div` 10))
  end.

Definition ndigits (n : Z) : nat := ndigits_fuel (S (Z.to_nat (Z.log2 n))) n.

Abbreviation is_digit_list := (Forall (λ d : Z, 0 ≤ d ≤ 9)).

(** ** Digits *)

Lemma zdigits_length w n : length (zdigits w n) = w.
Proof.
  revert n; induction w as [|w IH]; intros n; cbn; [done|].
  rewrite length_app, IH. cbn. lia.
Qed.

Lemma zdigits_range w n : is_digit_list (zdigits w n).
Proof.
  revert n; induction w as [|w IH]; intros n; cbn; [constructor|].
  apply Forall_app; split; [apply IH|].
  repeat constructor; pose proof (Z.mod_pos_bound n 10); lia.
Qed.

Lemma zdigits_zero w : zdigits w 0 = replicate w 0.
Proof.
  induction w as [|w IH]; cbn; [done|].
  rewrite Z.div_0_l, Z.mod_0_l, IH by lia.
  by rewrite <- replicate_cons_app.
Qed.

Lemma zdigits_add (a b : nat) n :
  zdigits (a + b) n = zdigits a (n `div` 10 ^ Z.of_nat b) ++ zdigits b n.
Proof.
  revert n; induction b as [|b IH]; intros n.
  - rewrite Nat.add_0_r, Z.pow_0_r, Z.div_1_r. cbn. by rewrite app_nil_r.
  - replace (a + S b)%nat with (S (a + b)) by lia. cbn [zdigits].
    rewrite IH, Z.div_div, <- Z.pow_succ_r, <- Nat2Z.inj_succ by lia.
    by rewrite app_assoc.
Qed.

Lemma zdigits_small (a b : nat) n :
  0 ≤ n < 10 ^ Z.of_nat b →
  zdigits (a + b) n = replicate a 0 ++ zdigits b n.
Proof.
  intros Hn. by rewrite zdigits_add, Z.div_small, zdigits_zero.
Qed.

Lemma zvalue_app a ds es : zvalue a (ds ++ es) = zvalue (zvalue a ds) es.
Proof. apply foldl_app. Qed.

Lemma zvalue_zdigits a w n :
  0 ≤ n → zvalue a (zdigits w n) = a * 10 ^ Z.of_nat w + n `mod` 10 ^ Z.of_nat w.
Proof.
  revert n; induction w as [|w IH]; intros n Hn.
  - cbn. rewrite Z.mod_1_r. lia.
  - cbn [zdigits]. rewrite zvalue_app, IH by (apply Z.div_pos; lia).
    cbn. rewrite Nat2Z.inj_succ, Z.pow_succ_r by lia.
    rewrite (Z.rem_mul_r n 10 (10 ^ Z.of_nat w)) by lia. lia.
Qed.

Lemma zvalue_zdigits_small w n :
  0 ≤ n < 10 ^ Z.of_nat w → zvalue 0 (zdigits w n) = n.
Proof. intros Hn. rewrite zvalue_zdigits, Z.mod_small; lia. Qed.

Lemma zdigits_lookup w n (i : nat) :
  (i < w)%nat →
  zdigits w n !! i = Some ((n `div` 10 ^ Z.of_nat (w - 1 - i)) `mod` 10).
Proof.
  revert n i; induction w as [|w IH]; intros n i Hi; [lia|].
  cbn [zdigits]. destruct (decide (i = w)) as [->|Hne].
  - rewrite lookup_app_r, zdigits_length, Nat.sub_diag
      by (rewrite zdigits_length; lia).
    replace (S w - 1 - w)%nat with 0%nat by lia. by rewrite Z.div_1_r.
  - rewrite lookup_app_l, IH by (rewrite ?zdigits_length; lia).
    rewrite Z.div_div by lia. do 3 f_equal.
    replace (S w - 1 - i)%nat with (S (w - 1 - i)) by lia.
    by rewrite Nat2Z.inj_succ, Z.pow_succ_r by lia.
Qed.

(** ** Text of digits *)

Lemma chars_digits_str ds : chars (digits_str ds) = digit_char <$> ds.
Proof. induction ds as [|d ds IH]; cbn; [done|]. f_equal. apply IH. Qed.

Lemma digits_str_app ds es : digits_str (ds ++ es) = digits_str ds +:+ digits_str es.
Proof.
  apply chars_inj. by rewrite chars_app, !chars_digits_str, fmap_app.
Qed.

Lemma digits_str_length ds : String.length (digits_str ds) = length ds.
Proof. by rewrite <- chars_length, chars_digits_str, length_fmap. Qed.

Lemma digits_str_replicate (k : nat) :
  digits_str (replicate k 0) = str_repeat "0" k.
Proof.
  apply chars_inj. by rewrite chars_digits_str, chars_repeat, fmap_replicate.
Qed.

Lemma digits_str_forall ds :
  is_digit_list ds → str_forall is_digit (digits_str ds) = true.
Proof.
  intros Hds. apply str_forall_Forall. rewrite chars_digits_str.
  apply Forall_fmap. eapply Forall_impl; [exact Hds|].
  intros d Hd; cbn. by apply is_digit_digit_char.
Qed.

Lemma zpad_length w n : String.length (zpad w n) = w.
Proof. unfold zpad. by rewrite digits_str_length, zdigits_length. Qed.

Lemma py_len_zpad w n : py_len (zpad w n) = Z.of_nat w.
Proof. unfold py_len. by rewrite zpad_length. Qed.

Lemma zpad_lookup w n (i : nat) :
  (i < w)%nat →
  chars (zpad w n) !! i
  = Some (digit_char ((n `div` 10 ^ Z.of_nat (w - 1 - i)) `mod` 10)).
Proof.
  intros Hi. unfold zpad.
  by rewrite chars_digits_str, list_lookup_fmap, zdigits_lookup.
Qed.

(** ** [str] writes the digits of its argument *)

Lemma chars_digits_fuel fuel n acc :
  chars (digits_fuel fuel n acc)
  = (digit_char <$> zdigits (ndigits_fuel fuel n) n) ++ chars acc.
Proof.
  revert n acc; induction fuel as [|fuel IH]; intros n acc; [done|].
  cbn [digits_fuel ndigits_fuel]. destruct (n <? 10); [done|].
  rewrite IH. cbn [zdigits]. by rewrite fmap_app, <- app_assoc.
Qed.

(** The fuel [f] is enough for every number below [2 ^ f]: the digits
    written are all the digits of the number. *)
Lemma ndigits_fuel_bound (fuel : nat) n :
  (0 < fuel)%nat → 0 ≤ n < 2 ^ Z.of_nat fuel →
  n < 10 ^ Z.of_nat (ndigits_fuel fuel n)
  ∧ (0 < ndigits_fuel fuel n)%nat
  ∧ (10 ≤ n → 10 ^ Z.of_nat (ndigits_fuel fuel n - 1) ≤ n).
Proof.
  revert n; induction fuel as [|fuel IH]; intros n Hf Hn; [lia|].
  cbn [ndigits_fuel]. destruct (Z.ltb_spec n 10) as [Hlt|Hge].
  { repeat split; [cbn; lia|lia|lia]. }
  rewrite Nat2Z.inj_succ, Z.pow_succ_r in Hn by lia.
  assert (0 < fuel)%nat as Hf'.
  { destruct fuel; [|lia]. cbn in Hn. lia. }
  destruct (IH (n `div` 10) Hf') as (Hub & Hpos & Hlb).
  { split; [apply Z.div_pos; lia|]. apply Z.div_lt_upper_bound; lia. }
  rewrite Nat2Z.inj_succ, Z.pow_succ_r by lia. repeat split; [|lia|].
  - pose proof (Z.div_mod n 10). pose proof (Z.mod_pos_bound n 10). lia.
  - intros _. replace (S (ndigits_fuel fuel (n `div` 10)) - 1)%nat
      with (S (ndigits_fuel fuel (n `div` 10) - 1)) by lia.
    rewrite Nat2Z.inj_succ, Z.pow_succ_r by lia.
    pose proof (Z.div_mod n 10). pose proof (Z.mod_pos_bound n 10).
    destruct (Z.ltb_spec (n `div` 10) 10) as [Hsmall|Hbig]; [|lia].
    destruct fuel; [lia|]. cbn [ndigits_fuel].
    destruct (Z.ltb_spec (n `div` 10) 10); [|lia]. cbn. lia.
Qed.

Lemma ndigits_bound n :
  0 ≤ n →
  n < 10 ^ Z.of_nat (ndigits n)
  ∧ (0 < ndigits n)%nat
  ∧ (10 ≤ n → 10 ^ Z.of_nat (ndigits n - 1) ≤ n).
Proof.
  intros Hn. apply ndigits_fuel_bound; [lia|].
  rewrite Nat2Z.inj_succ, Z2Nat.id by apply Z.log2_nonneg.
  destruct (decide (n = 0)) as [->|]; [done|].
  pose proof (Z.log2_spec n). lia.
Qed.

Lemma py_str_nonneg_zpad n : py_str_nonneg n = zpad (ndigits n) n.
Proof.
  apply chars_inj. unfold py_str_nonneg, zpad, ndigits.
  by rewrite chars_digits_fuel, chars_digits_str, app_nil_r.
Qed.

(** For [n] known to fit in [w] digits, [str(n)] is the [ndigits n] last
    digits of its rendering on [w] digits. *)
Lemma ndigits_le w n : 0 ≤ n < 10 ^ Z.of_nat w → (0 < w)%nat → (ndigits n ≤ w)%nat.
Proof.
  intros Hn Hw. destruct (ndigits_bound n) as (_ & Hpos & Hlb); [lia|].
  destruct (Z.ltb_spec n 10) as [Hsmall|Hbig].
  - unfold ndigits. cbn [ndigits_fuel]. destruct (Z.ltb_spec n 10); lia.
  - specialize (Hlb Hbig). apply Nat.lt_succ_r, Nat2Z.inj_lt.
    apply (Z.pow_lt_mono_r_iff 10); [lia|lia|].
    replace (Z.of_nat (ndigits n)) with (Z.succ (Z.of_nat (ndigits n - 1))) by lia.
    rewrite Nat2Z.inj_succ, !Z.pow_succ_r by lia. lia.
Qed.

(** ** [int] reads digits back *)

Lemma parse_digits_app ds rest a prev :
  is_digit_list ds →
  parse_digits (digits_str ds +:+ rest) a prev
  = parse_digits rest (zvalue a ds) (prev || bool_decide (ds ≠ [])).
Proof.
  intros Hds; revert a prev; induction Hds as [|d ds Hd Hds IH]; intros a prev.
  - cbn. by rewrite orb_false_r.
  - cbn [digits_str]. rewrite str_app_cons. cbn [parse_digits].
    rewrite is_digit_digit_char, digit_val_digit_char, IH by done.
    cbn. by rewrite orb_true_r.
Qed.

Lemma parse_digits_digits ds :
  is_digit_list ds → ds ≠ [] →
  parse_digits (digits_str ds) 0 false = Some (zvalue 0 ds).
Proof.
  intros Hds Hne. rewrite <- (str_app_nil_r (digits_str ds)).
  rewrite parse_digits_app by done. cbn. by rewrite bool_decide_true.
Qed.

Lemma str_lstrip_nospace s :
  str_forall (λ c, negb (is_int_space c)) s = true → str_lstrip s = s.
Proof. destruct s as [|c s]; cbn; [done|]. by destruct (is_int_space c). Qed.

Lemma str_rstrip_nospace s :
  str_forall (λ c, negb (is_int_space c)) s = true → str_rstrip s = s.
Proof.
  induction s as [|c s IH]; cbn; [done|].
  intros [Hc Hs]%andb_true_iff. rewrite IH by done.
  destruct s; [|done]. by destruct (is_int_space c).
Qed.

Lemma digits_str_nospace ds :
  is_digit_list ds →
  str_forall (λ c, negb (is_int_space c)) (digits_str ds) = true.
Proof.
  intros Hds. induction Hds as [|d ds Hd Hds IH]; cbn; [done|].
  by rewrite is_digit_not_space, IH by by apply is_digit_digit_char.
Qed.

Lemma digit_char_neq d c : 0 ≤ d ≤ 9 → is_digit c = false → digit_char d ≠ c.
Proof. intros Hd Hc <-. by rewrite is_digit_digit_char in Hc. Qed.

Lemma digit_char_not_minus d :
  0 ≤ d ≤ 9 → bool_decide (digit_char d = "-"%char) = false.
Proof. intros. by apply bool_decide_eq_false, digit_char_neq. Qed.

Lemma digit_char_not_plus d :
  0 ≤ d ≤ 9 → bool_decide (digit_char d = "+"%char) = false.
Proof. intros. by apply bool_decide_eq_false, digit_char_neq. Qed.

(** ** The characters of a text that [int] reads *)

(** Digits, white space, a sign and the underscore. *)
Definition is_int_char (c : ascii) : bool :=
  is_digit c || is_int_space c || is_sign c || bool_decide (c = "_"%char).

Lemma str_forall_lookup p s (i : nat) c :
  str_forall p s = true → chars s !! i = Some c → p c = true.
Proof.
  rewrite str_forall_Forall, Forall_lookup. intros Hp Hc. by apply (Hp i).
Qed.

Lemma parse_digits_chars s a prev n :
  parse_digits s a prev = Some n → str_forall is_int_char s = true.
Proof.
  revert a prev; induction s as [|c s IH]; intros a prev; cbn; [done|].
  unfold is_int_char. destruct (is_digit c); cbn; [by apply IH|].
  case_bool_decide; cbn; [|done]. destruct prev; cbn; [|done].
  rewrite orb_true_r. by apply IH.
Qed.

Lemma str_lstrip_chars s :
  str_forall is_int_char (str_lstrip s) = true →
  str_forall is_int_char s = true.
Proof.
  induction s as [|c s IH]; cbn; [done|].
  destruct (is_int_space c) eqn:Hc; [|done].
  intros ->%IH. unfold is_int_char. by rewrite Hc, orb_true_r.
Qed.

Lemma str_rstrip_chars s :
  str_forall is_int_char (str_rstrip s) = true →
  str_forall is_int_char s = true.
Proof.
  induction s as [|c s IH]; cbn; [done|].
  destruct (str_rstrip s) as [|d r] eqn:Hr.
  - destruct (is_int_space c) eqn:Hc; cbn.
    + intros _. rewrite IH by done. unfold is_int_char.
      by rewrite Hc, orb_true_r.
    + rewrite andb_true_r. intros ->. by rewrite IH.
  - cbn. intros [-> Hs]%andb_true_iff. by rewrite IH.
Qed.

(** A text that [int()] reads has no other characters. *)
Lemma py_int_str_chars s n :
  py_int_str s = Ok n → str_forall is_int_char s = true.
Proof.
  unfold py_int_str. intros Hn. apply str_lstrip_chars, str_rstrip_chars.
  destruct (str_rstrip (str_lstrip s)) as [|c r] eqn:Ht; [done|].
  repeat case_bool_decide; subst;
    (destruct (parse_digits _ 0 false) as [k|] eqn:Hp; [|done]);
    apply parse_digits_chars in Hp; [| |done];
    cbn [str_forall]; by rewrite Hp.
Qed.

(** [int()] of a non-empty text of digits is their value. *)
Lemma py_int_str_digits ds :
  is_digit_list ds → ds ≠ [] →
  py_int_str (digits_str ds) = Ok (zvalue 0 ds).
Proof.
  intros Hds Hne. unfold py_int_str.
  rewrite str_lstrip_nospace, str_rstrip_nospace by by apply digits_str_nospace.
  destruct Hds as [|d ds Hd Hds]; [done|]. cbn [digits_str].
  rewrite digit_char_not_minus, digit_char_not_plus by done.
  change (String (digit_char d) (digits_str ds)) with (digits_str (d :: ds)).
  rewrite parse_digits_digits; [done|by constructor|done].
Qed.

(** [int()] of a minus sign followed by digits. *)
Lemma py_int_str_minus_digits ds :
  is_digit_list ds → ds ≠ [] →
  py_int_str (String "-" (digits_str ds)) = Ok (- zvalue 0 ds).
Proof.
  intros Hds Hne. unfold py_int_str.
  assert (str_forall (λ c, negb (is_int_space c)) (String "-" (digits_str ds))
          = true) as Hns by (cbn; by apply digits_str_nospace).
  rewrite str_lstrip_nospace, str_rstrip_nospace by done.
  rewrite bool_decide_true by done.
  by rewrite parse_digits_digits.
Qed.

(** [int()] of one character: its value if it is a digit, [ValueError]
    otherwise. *)
Lemma py_int_str_char c :
  py_int_str (String c EmptyString)
  = if is_digit c then Ok (digit_val c)
    else Raise (ValueError_int (String c EmptyString)).
Proof. ascii_cases c. Qed.

Lemma zdigits_nonempty w n : (0 < w)%nat → zdigits w n ≠ [].
Proof.
  intros Hw Hnil. apply (f_equal length) in Hnil.
  rewrite zdigits_length in Hnil. cbn in Hnil. lia.
Qed.

Lemma py_int_str_zpad w n :
  (0 < w)%nat → 0 ≤ n → py_int_str (zpad w n) = Ok (n `mod` 10 ^ Z.of_nat w).
Proof.
  intros Hw Hn. unfold zpad.
  rewrite py_int_str_digits by auto using zdigits_range, zdigits_nonempty.
  rewrite zvalue_zdigits by done. f_equal; lia.
Qed.

(** Round trip: [int(str(n)) == n] for every integer. *)
Lemma py_int_str_py_str_int n : py_int_str (py_str_int n) = Ok n.
Proof.
  unfold py_str_int. destruct (Z.ltb_spec n 0) as [Hneg|Hpos].
  - destruct (ndigits_bound (- n)) as (Hub & Hk & _); [lia|].
    rewrite py_str_nonneg_zpad. unfold zpad.
    rewrite py_int_str_minus_digits
      by auto using zdigits_range, zdigits_nonempty.
    rewrite zvalue_zdigits_small by lia. f_equal; lia.
  - destruct (ndigits_bound n) as (Hub & Hk & _); [lia|].
    rewrite py_str_nonneg_zpad, py_int_str_zpad by done.
    f_equal. apply Z.mod_small; lia.
Qed.

(** ** [zfill] *)

Lemma py_zfill_digits ds (w : Z) :
  is_digit_list ds →
  py_zfill (digits_str ds) w
  = digits_str (replicate (Z.to_nat (w - Z.of_nat (length ds))) 0 ++ ds).
Proof.
  intros Hds. unfold py_zfill, py_len. rewrite digits_str_length.
  rewrite digits_str_app, digits_str_replicate.
  destruct Hds as [|d ds Hd Hds]; [by rewrite str_app_nil_r|].
  cbn [digits_str].
  by rewrite is_digit_not_sign by by apply is_digit_digit_char.
Qed.

(** A number that fits in [w] digits is padded to exactly [w] digits. *)
Lemma py_zfill_str_fits (w : nat) n :
  (0 < w)%nat → 0 ≤ n < 10 ^ Z.of_nat w →
  py_zfill (py_str_int n) (Z.of_nat w) = zpad w n.
Proof.
  intros Hw Hn. unfold py_str_int.
  destruct (Z.ltb_spec n 0); [lia|].
  destruct (ndigits_bound n) as (Hub & Hk & _); [lia|].
  pose proof (ndigits_le w n Hn Hw) as Hle.
  rewrite py_str_nonneg_zpad. unfold zpad.
  rewrite py_zfill_digits by auto using zdigits_range, zdigits_nonempty.
  rewrite zdigits_length. f_equal.
  replace w with ((w - ndigits n) + ndigits n)%nat at 2 by lia.
  rewrite zdigits_small by lia. do 2 f_equal. lia.
Qed.

(** A number with more than [w] digits is not changed. *)
Lemma py_zfill_str_wide (w : nat) n :
  10 ^ Z.of_nat w ≤ n → py_zfill (py_str_int n) (Z.of_nat w) = py_str_int n.
Proof.
  intros Hn. assert (0 < n) by (pose proof (Z.pow_pos_nonneg 10 (Z.of_nat w)); lia).
  unfold py_str_int. destruct (Z.ltb_spec n 0); [lia|].
  destruct (ndigits_bound n) as (Hub & Hk & _); [lia|].
  assert (w < ndigits n)%nat as Hlt.
  { apply Nat2Z.inj_lt, (Z.pow_lt_mono_r_iff 10); lia. }
  rewrite py_str_nonneg_zpad. unfold zpad.
  rewrite py_zfill_digits by auto using zdigits_range, zdigits_nonempty.
  rewrite zdigits_length. by replace (Z.to_nat _) with 0%nat by lia.
Qed.

Lemma py_zfill_minus_digits ds (w : Z) :
  py_zfill (String "-" (digits_str ds)) w
  = String "-"
      (digits_str (replicate (Z.to_nat (w - 1 - Z.of_nat (length ds))) 0 ++ ds)).
Proof.
  unfold py_zfill, py_len. change (is_sign "-") with true. cbn [String.length].
  rewrite digits_str_length, digits_str_app, digits_str_replicate.
  do 3 f_equal. lia.
Qed.

Lemma zvalue_replicate_0 (k : nat) : zvalue 0 (replicate k 0) = 0.
Proof. induction k as [|k IH]; [done|]. cbn. apply IH. Qed.

(** Leading zeros do not change the value. *)
Lemma zvalue_pad (k : nat) ds : zvalue 0 (replicate k 0 ++ ds) = zvalue 0 ds.
Proof. by rewrite zvalue_app, zvalue_replicate_0. Qed.

Lemma is_digit_list_pad (k : nat) ds :
  is_digit_list ds → is_digit_list (replicate k 0 ++ ds).
Proof. intros. apply Forall_app; split; [apply Forall_replicate; lia|done]. Qed.

Lemma pad_nonempty (k : nat) (ds : list Z) : ds ≠ [] → replicate k 0 ++ ds ≠ [].
Proof. by intros Hne [_ ?]%app_eq_nil. Qed.

(** [zfill] never changes the value that [int] reads. *)
Lemma py_int_str_zfill n (w : Z) :
  py_int_str (py_zfill (py_str_int n) w) = Ok n.
Proof.
  unfold py_str_int. destruct (Z.ltb_spec n 0) as [Hneg|Hpos].
  - destruct (ndigits_bound (- n)) as (Hub & Hk & _); [lia|].
    rewrite py_str_nonneg_zpad. unfold zpad.
    rewrite py_zfill_minus_digits, py_int_str_minus_digits
      by auto using is_digit_list_pad, pad_nonempty, zdigits_range,
           zdigits_nonempty.
    rewrite zvalue_pad, zvalue_zdigits_small by lia. f_equal; lia.
  - destruct (ndigits_bound n) as (Hub & Hk & _); [lia|].
    rewrite py_str_nonneg_zpad. unfold zpad.
    rewrite py_zfill_digits, py_int_str_digits
      by auto using is_digit_list_pad, pad_nonempty, zdigits_range,
           zdigits_nonempty.
    by rewrite zvalue_pad, zvalue_zdigits_small by lia.
Qed.

#[export] Hint Resolve zdigits_range zdigits_nonempty is_digit_list_pad
  pad_nonempty : py.
#[export] Hint Rewrite zdigits_length zpad_length py_len_zpad
  digits_str_length : pyrw.

(** [str] of a single digit. *)
Lemma py_str_int_digit d : 0 ≤ d ≤ 9 → py_str_int d = digits_str [d].
Proof.
  intros Hd. unfold py_str_int, py_str_nonneg.
  destruct (Z.ltb_spec d 0); [lia|]. cbn [digits_fuel digits_str].
  destruct (Z.ltb_spec d 10); [|lia]. by rewrite Z.mod_small by lia.
Qed.

(** ** From digits to numbers and back *)

Lemma zvalue_snoc a ds d : zvalue a (ds ++ [d]) = 10 * zvalue a ds + d.
Proof. by rewrite zvalue_app. Qed.

Lemma zvalue_bound ds :
  is_digit_list ds → 0 ≤ zvalue 0 ds < 10 ^ Z.of_nat (length ds).
Proof.
  induction ds as [|d ds IH] using rev_ind; intros Hds; [cbn; lia|].
  apply Forall_app in Hds as [Hds Hd%Forall_inv].
  rewrite zvalue_snoc, length_app, Nat.add_1_r, Nat2Z.inj_succ, Z.pow_succ_r by lia.
  specialize (IH Hds). lia.
Qed.

Lemma zdigits_zvalue ds :
  is_digit_list ds → zdigits (length ds) (zvalue 0 ds) = ds.
Proof.
  induction ds as [|d ds IH] using rev_ind; intros Hds; [done|].
  apply Forall_app in Hds as [Hds Hd%Forall_inv].
  rewrite zvalue_snoc, length_app, Nat.add_1_r. cbn [zdigits].
  replace ((10 * zvalue 0 ds + d) `div` 10) with (zvalue 0 ds)
    by (Z.div_mod_to_equations; lia).
  replace ((10 * zvalue 0 ds + d) `mod` 10) with d
    by (Z.div_mod_to_equations; lia).
  by rewrite IH.
Qed.

