(* ===== verification/Regex.v ===== *)
(** * The fragment of Python's [re] module that [PATTERN] needs

    [util.py] calls [re.match(PATTERN, code)] and tests the result against
    [None].  This file models the regular expressions of that fragment
    (anchors, bracket classes with ranges, groups, alternation, [{n}]
    repetition): their abstract syntax, a parser from the pattern text, a
    backtracking matcher written in continuation-passing style, and the
    denotation the matcher is proved against. *)

From S2P Require Import Prelude PyBuiltins.

#[local] Open Scope Z_scope.

(** ** Syntax *)

(** An item of a bracket class: one character or a range [lo-hi]. *)
Inductive class_item : Type :=
| CChar (c : ascii)
| CRange (lo hi : ascii).

Inductive regex : Type :=
| RBol                               (* ^ *)
| REol                               (* $ *)
| RClass (items : list class_item)   (* [...] or a literal character *)
| RSeq (r1 r2 : regex)               (* r1 r2 *)
| RAlt (r1 r2 : regex)               (* r1|r2 *)
| RGroup (r : regex)                 (* (r) *)
| RRepeat (n : nat) (r : regex)      (* r{n} *)
| REps.                              (* the empty expression *)

#[export] Instance class_item_eq_dec : EqDecision class_item.
Proof. solve_decision. Defined.

#[export] Instance regex_eq_dec : EqDecision regex.
Proof. solve_decision. Defined.

Definition newline : ascii := ascii_of_code 10.

(** ** Matching *)

Definition class_item_mem (c : ascii) (it : class_item) : bool :=
  match it with
  | CChar d => bool_decide (c = d)
  | CRange lo hi => in_range (ascii_code lo) (ascii_code hi) c
  end.

Definition class_mem (c : ascii) (items : list class_item) : bool :=
  existsb (class_item_mem c) items.

(** [$] without [re.MULTILINE]: at the end of the text, or just before a
    newline that ends the text. *)
Definition at_eol (s : string) : bool :=
  bool_decide (s = EmptyString) || bool_decide (s = String newline EmptyString).

(** [rmatch r pos s k]: some way of matching [r] at offset [pos], where [s]
    is the text from [pos] on, leaves an offset and a rest that the
    continuation [k] accepts. *)
Fixpoint rmatch (r : regex) (pos : nat) (s : string)
    (k : nat → string → bool) {struct r} : bool :=
  match r with
  | RBol => Nat.eqb pos 0 && k pos s
  | REol => at_eol s && k pos s
  | RClass items =>
      match s with
      | String c s' => class_mem c items && k (S pos) s'
      | EmptyString => false
      end
  | RSeq r1 r2 => rmatch r1 pos s (λ p t, rmatch r2 p t k)
  | RAlt r1 r2 => rmatch r1 pos s k || rmatch r2 pos s k
  | RGroup r1 => rmatch r1 pos s k
  | RRepeat n r1 =>
      (fix rep (n : nat) (pos : nat) (s : string)
           (k : nat → string → bool) {struct n} : bool :=
         match n with
         | O => k pos s
         | S n' => rmatch r1 pos s (λ p t, rep n' p t k)
         end) n pos s k
  | REps => k pos s
  end.

(** [re.match(r, s) is not None] for a compiled expression: a match must
    start at offset 0 and may end anywhere. *)
Definition regex_match (r : regex) (s : string) : bool :=
  rmatch r 0 s (λ _ _, true).

(** ** Parsing the pattern text *)

Definition is_meta (c : ascii) : bool :=
  bool_decide (c ∈ ["."; "*"; "+"; "?"; "{"; "}"; "["; "]"; "("; ")";
                    "|"; "\"; "^"; "$"]%char).

(** The inside of a bracket class, after the opening bracket: items up to
    the closing bracket.  Negation and escapes are outside the fragment. *)
Fixpoint parse_class (s : string) (acc : list class_item)
    : option (list class_item * string) :=
  match s with
  | EmptyString => None
  | String c r =>
      if bool_decide (c = "]"%char) then
        match acc with [] => None | _ => Some (rev acc, r) end
      else if bool_decide (c = "\"%char) then None
      else if bool_decide (c = "^"%char) && bool_decide (acc = []) then None
      else
        match r with
        | String d (String hi r') =>
            if bool_decide (d = "-"%char) && negb (bool_decide (hi = "]"%char))
            then
              if ascii_code c <=? ascii_code hi
              then parse_class r' (CRange c hi :: acc)
              else None
            else parse_class r (CChar c :: acc)
        | _ => parse_class r (CChar c :: acc)
        end
  end.

(** The count of a [{n}] quantifier, after the opening brace. *)
Fixpoint parse_count (s : string) (acc : nat) (seen : bool)
    : option (nat * string) :=
  match s with
  | EmptyString => None
  | String c r =>
      if is_digit c then
        parse_count r (10 * acc + Z.to_nat (digit_val c))%nat true
      else if bool_decide (c = "}"%char) && seen then Some (acc, r)
      else None
  end.

(** An optional quantifier after the atom [a]. *)
Definition parse_quant (a : regex) (s : string) : option (regex * string) :=
  match s with
  | String c r =>
      if bool_decide (c = "{"%char) then
        match a with
        | RBol | REol => None
        | _ => '(n, r') ← parse_count r 0%nat false; Some (RRepeat n a, r')
        end
      else if bool_decide (c ∈ ["*"; "+"; "?"]%char) then None
      else Some (a, s)
  | EmptyString => Some (a, s)
  end.

(** Recursive descent: alternatives, sequences, atoms.  The fuel bounds the
    depth of the calls; [re_compile] gives four units per character. *)
Fixpoint parse_alt (fuel : nat) (s : string) : option (regex * string) :=
  match fuel with
  | O => None
  | S f =>
      '(r1, rest) ← parse_seq f s;
      match rest with
      | String c rest' =>
          if bool_decide (c = "|"%char) then
            '(r2, rest'') ← parse_alt f rest'; Some (RAlt r1 r2, rest'')
          else Some (r1, rest)
      | EmptyString => Some (r1, rest)
      end
  end
with parse_seq (fuel : nat) (s : string) : option (regex * string) :=
  match fuel with
  | O => None
  | S f =>
      match s with
      | EmptyString => Some (REps, s)
      | String c _ =>
          if bool_decide (c = "|"%char) || bool_decide (c = ")"%char)
          then Some (REps, s)
          else
            '(a, rest) ← parse_atom f s;
            '(a', rest') ← parse_quant a rest;
            '(r, rest'') ← parse_seq f rest';
            Some (RSeq a' r, rest'')
      end
  end
with parse_atom (fuel : nat) (s : string) : option (regex * string) :=
  match fuel with
  | O => None
  | S f =>
      match s with
      | EmptyString => None
      | String c r =>
          if bool_decide (c = "("%char) then
            '(e, r') ← parse_alt f r;
            match r' with
            | String d r'' =>
                if bool_decide (d = ")"%char) then Some (RGroup e, r'')
                else None
            | EmptyString => None
            end
          else if bool_decide (c = "["%char) then
            '(items, r') ← parse_class r []; Some (RClass items, r')
          else if bool_decide (c = "^"%char) then Some (RBol, r)
          else if bool_decide (c = "$"%char) then Some (REol, r)
          else if is_meta c then None
          else Some (RClass [CChar c], r)
      end
  end.

(** [re.compile(pattern)] on the fragment; [None] for a pattern that is
    malformed or outside the fragment. *)
Definition re_compile (pattern : string) : option regex :=
  match parse_alt (4 * S (String.length pattern)) pattern with
  | Some (r, EmptyString) => Some r
  | _ => None
  end.

(** [re.match(pattern, s) is not None] *)
Definition re_match (pattern s : string) : result bool :=
  match re_compile pattern with
  | Some r => Ok (regex_match r s)
  | None => Raise (ReError pattern)
  end.

(** ** Denotation *)

(** [re_den r pos s1 s2]: [r] matches the text [s1] at offset [pos] when the
    text that follows is [s2]. *)
Inductive re_den : regex → nat → string → string → Prop :=
| den_bol s2 : re_den RBol 0 EmptyString s2
| den_eol pos s2 :
    at_eol s2 = true → re_den REol pos EmptyString s2
| den_class items pos c s2 :
    class_mem c items = true →
    re_den (RClass items) pos (String c EmptyString) s2
| den_seq r1 r2 pos s1 s1' s2 :
    re_den r1 pos s1 (s1' +:+ s2) →
    re_den r2 (pos + String.length s1) s1' s2 →
    re_den (RSeq r1 r2) pos (s1 +:+ s1') s2
| den_alt_l r1 r2 pos s1 s2 :
    re_den r1 pos s1 s2 → re_den (RAlt r1 r2) pos s1 s2
| den_alt_r r1 r2 pos s1 s2 :
    re_den r2 pos s1 s2 → re_den (RAlt r1 r2) pos s1 s2
| den_group r pos s1 s2 :
    re_den r pos s1 s2 → re_den (RGroup r) pos s1 s2
| den_repeat_O r pos s2 : re_den (RRepeat 0 r) pos EmptyString s2
| den_repeat_S n r pos s1 s1' s2 :
    re_den r pos s1 (s1' +:+ s2) →
    re_den (RRepeat n r) (pos + String.length s1) s1' s2 →
    re_den (RRepeat (S n) r) pos (s1 +:+ s1') s2
| den_eps pos s2 : re_den REps pos EmptyString s2.

(** ** The matcher decides the denotation *)

Lemma rmatch_repeat_S n r pos s k :
  rmatch (RRepeat (S n) r) pos s k
  = rmatch r pos s (λ p t, rmatch (RRepeat n r) p t k).
Proof. done. Qed.

(** What it means for the matcher to be correct on [r], for every offset,
    text and continuation. *)
Definition rmatch_correct (r : regex) : Prop :=
  ∀ pos s k,
    rmatch r pos s k = true
    ↔ ∃ s1 s2, s = s1 +:+ s2 ∧ re_den r pos s1 s2
               ∧ k (pos + String.length s1)%nat s2 = true.

Lemma rmatch_correct_seq_like (r1 r2 r : regex) :
  rmatch_correct r1 → rmatch_correct r2 →
  (∀ pos s k, rmatch r pos s k = rmatch r1 pos s (λ p t, rmatch r2 p t k)) →
  (∀ pos s1 s2,
     re_den r pos s1 s2
     ↔ ∃ t1 t2, s1 = t1 +:+ t2 ∧ re_den r1 pos t1 (t2 +:+ s2)
                ∧ re_den r2 (pos + String.length t1) t2 s2) →
  rmatch_correct r.
Proof.
  intros H1 H2 Hm Hd pos s k. rewrite Hm, (H1 _ _ _). split.
  - intros (t1 & u & -> & Hr1 & (t2 & s2 & -> & Hr2 & Hk)%H2).
    exists (t1 +:+ t2), s2. rewrite str_app_assoc, str_app_length, Nat.add_assoc.
    split_and!; [done| |done]. apply Hd; eauto.
  - intros (s1 & s2 & -> & (t1 & t2 & -> & Hr1 & Hr2)%Hd & Hk).
    exists t1, (t2 +:+ s2). rewrite str_app_assoc. split_and!; [done..|].
    apply H2. exists t2, s2. by rewrite str_app_length, Nat.add_assoc in Hk.
Qed.

Lemma re_den_seq_inv r1 r2 pos s1 s2 :
  re_den (RSeq r1 r2) pos s1 s2
  ↔ ∃ t1 t2, s1 = t1 +:+ t2 ∧ re_den r1 pos t1 (t2 +:+ s2)
             ∧ re_den r2 (pos + String.length t1) t2 s2.
Proof.
  split; [inversion 1; subst; eauto|].
  intros (t1 & t2 & -> & ? & ?). by constructor.
Qed.

Lemma re_den_repeat_S_inv n r pos s1 s2 :
  re_den (RRepeat (S n) r) pos s1 s2
  ↔ ∃ t1 t2, s1 = t1 +:+ t2 ∧ re_den r pos t1 (t2 +:+ s2)
             ∧ re_den (RRepeat n r) (pos + String.length t1) t2 s2.
Proof.
  split; [inversion 1; subst; eauto|].
  intros (t1 & t2 & -> & ? & ?). by constructor.
Qed.

(** A regular expression that consumes nothing and holds exactly when the
    test [b] does. *)
Lemma rmatch_correct_test (r : regex) (b : nat → string → bool) :
  (∀ pos s k, rmatch r pos s k = b pos s && k pos s) →
  (∀ pos s1 s2, re_den r pos s1 s2 ↔ s1 = EmptyString ∧ b pos s2 = true) →
  rmatch_correct r.
Proof.
  intros Hm Hd pos s k. rewrite Hm, andb_true_iff. split.
  - intros [Hb Hk]. exists EmptyString, s. rewrite Nat.add_0_r.
    split_and!; [done| |done]. by apply Hd.
  - intros (s1 & s2 & -> & [-> Hb]%Hd & Hk). by rewrite Nat.add_0_r in Hk.
Qed.

Lemma rmatch_correct_repeat n r : rmatch_correct r → rmatch_correct (RRepeat n r).
Proof.
  intros Hr. induction n as [|n IH].
  - apply (rmatch_correct_test _ (λ _ _, true)); [done|].
    intros pos s1 s2; split; [by inversion 1|]. intros [-> _]; constructor.
  - apply (rmatch_correct_seq_like r (RRepeat n r)); auto.
    apply re_den_repeat_S_inv.
Qed.

(** Soundness and completeness of the matcher for the denotation. *)
Theorem rmatch_spec r : rmatch_correct r.
Proof.
  induction r as [| |items|r1 IH1 r2 IH2|r1 IH1 r2 IH2|r IH|n r IH|].
  - apply (rmatch_correct_test _ (λ pos _, Nat.eqb pos 0)); [done|].
    intros pos s1 s2; split.
    + inversion 1; by subst.
    + intros [-> ->%Nat.eqb_eq]. constructor.
  - apply (rmatch_correct_test _ (λ _ s, at_eol s)); [done|].
    intros pos s1 s2; split; [by inversion 1|]. intros [-> ?]; by constructor.
  - intros pos s k; split.
    + destruct s as [|c s]; cbn; [done|]. intros [Hc Hk]%andb_true_iff.
      exists (String c EmptyString), s. cbn. rewrite Nat.add_1_r.
      split_and!; [done| |done]. by constructor.
    + intros (s1 & s2 & -> & Hd & Hk). inversion Hd; subst. cbn.
      rewrite Nat.add_1_r in Hk. by apply andb_true_iff.
  - apply (rmatch_correct_seq_like r1 r2); auto. apply re_den_seq_inv.
  - intros pos s k. cbn. rewrite orb_true_iff, (IH1 _ _ _), (IH2 _ _ _). split.
    + intros [(s1 & s2 & ? & ? & ?)|(s1 & s2 & ? & ? & ?)];
        exists s1, s2; split_and!; auto; by constructor.
    + intros (s1 & s2 & ? & Hd & ?). inversion Hd; subst; eauto 10.
  - intros pos s k. cbn. rewrite (IH _ _ _). split.
    + intros (s1 & s2 & ? & ? & ?). exists s1, s2. split_and!; auto.
      by constructor.
    + intros (s1 & s2 & ? & Hd & ?). inversion Hd; subst; eauto 10.
  - by apply rmatch_correct_repeat.
  - apply (rmatch_correct_test _ (λ _ _, true)); [done|].
    intros pos s1 s2; split; [by inversion 1|]. intros [-> _]; constructor.
Qed.

(** [re.match] finds a match exactly when a prefix of the text is in the
    denotation of the expression at offset 0. *)
Corollary regex_match_spec r s :
  regex_match r s = true ↔ ∃ s1 s2, s = s1 +:+ s2 ∧ re_den r 0 s1 s2.
Proof.
  unfold regex_match. rewrite (rmatch_spec r _ _ _). split.
  - intros (s1 & s2 & ? & ? & _). eauto.
  - intros (s1 & s2 & ? & ?). eauto 6.
Qed.

(** ** Rewriting rules for character classes *)

Lemma class_mem_upper c : class_mem c [CRange "A" "Z"] = is_upper c.
Proof. unfold class_mem; cbn [existsb]. apply orb_false_r. Qed.

Lemma class_mem_digit c : class_mem c [CRange "0" "9"] = is_digit c.
Proof. unfold class_mem; cbn [existsb]. apply orb_false_r. Qed.

Lemma class_mem_app c xs ys :
  class_mem c (xs ++ ys) = class_mem c xs || class_mem c ys.
Proof. apply existsb_app. Qed.

Lemma class_mem_chars c (cs : list ascii) :
  class_mem c (CChar <$> cs) = bool_decide (c ∈ cs).
Proof.
  induction cs as [|d cs IH]; [done|]. cbn. fold (class_mem c (CChar <$> cs)).
  rewrite IH. apply eq_true_iff_eq.
  rewrite orb_true_iff, !bool_decide_eq_true, elem_of_cons. done.
Qed.

#[export] Hint Rewrite class_mem_upper class_mem_digit : pyrw.
