(* ===== verification/RegexPrint.v ===== *)
(** * Printing regular expressions: the parser is a left inverse

    [re_print] writes an expression of the fragment as pattern text.  On the
    expressions that the parser produces ([wf_alt]: alternatives of
    sequences of atoms, each with an optional [{n}]; classes of letters,
    digits and ranges of them), [re_compile] reads the printed text back to
    the expression it came from, so the fuel of the parser, four units per
    character, is enough for every pattern of that form.  [PATTERN] is the
    printed form of the expression it compiles to. *)

From S2P Require Import Prelude PyBuiltins PyDecimal Regex.

#[local] Open Scope Z_scope.

(** ** Printing *)

Definition print_item (it : class_item) : string :=
  match it with
  | CChar c => String c EmptyString
  | CRange lo hi => String lo (String "-" (String hi EmptyString))
  end.

Fixpoint print_items (items : list class_item) : string :=
  match items with
  | [] => EmptyString
  | it :: items' => print_item it +:+ print_items items'
  end.

Fixpoint re_print (r : regex) : string :=
  match r with
  | RBol => "^"
  | REol => "$"
  | RClass items => "[" +:+ print_items items +:+ "]"
  | RSeq r1 r2 => re_print r1 +:+ re_print r2
  | RAlt r1 r2 => re_print r1 +:+ "|" +:+ re_print r2
  | RGroup r1 => "(" +:+ re_print r1 +:+ ")"
  | RRepeat n r1 =>
      re_print r1 +:+ "{" +:+ py_str_nonneg (Z.of_nat n) +:+ "}"
  | REps => EmptyString
  end.

(** ** The expressions that the parser produces *)

(** The items of a class: letters and digits, and ranges of them in
    order. *)
Definition wf_class_item (it : class_item) : bool :=
  match it with
  | CChar c => is_alnum c
  | CRange lo hi =>
      is_alnum lo && is_alnum hi && (ascii_code lo <=? ascii_code hi)
  end.

Definition wf_class (items : list class_item) : bool :=
  negb (bool_decide (items = [])) && forallb wf_class_item items.

(** Alternatives of sequences; sequences of items ending in [REps]; items,
    atoms with an optional count; atoms. *)
Fixpoint wf_alt (r : regex) : bool :=
  match r with
  | RAlt r1 r2 => wf_seq r1 && wf_alt r2
  | RSeq a r' => wf_item a && wf_seq r'
  | REps => true
  | _ => false
  end
with wf_seq (r : regex) : bool :=
  match r with
  | RSeq a r' => wf_item a && wf_seq r'
  | REps => true
  | _ => false
  end
with wf_item (r : regex) : bool :=
  match r with
  | RRepeat _ a =>
      match a with RClass _ | RGroup _ => wf_atom a | _ => false end
  | RBol | REol => true
  | RClass items => wf_class items
  | RGroup r' => wf_alt r'
  | _ => false
  end
with wf_atom (r : regex) : bool :=
  match r with
  | RBol | REol => true
  | RClass items => wf_class items
  | RGroup r' => wf_alt r'
  | _ => false
  end.

(** The depth of the calls of the parser on the printed expression. *)
Fixpoint re_depth (r : regex) : nat :=
  match r with
  | RSeq r1 r2 | RAlt r1 r2 => S (Nat.max (re_depth r1) (re_depth r2))
  | RGroup r1 => S (S (re_depth r1))
  | RRepeat _ r1 => re_depth r1
  | _ => 0
  end.

(** What may follow a sequence, an alternative and an atom without a
    count. *)
Definition stop_seq (rest : string) : bool :=
  match rest with
  | EmptyString => true
  | String c _ => bool_decide (c = "|"%char) || bool_decide (c = ")"%char)
  end.

Definition stop_alt (rest : string) : bool :=
  match rest with
  | EmptyString => true
  | String c _ => bool_decide (c = ")"%char)
  end.

Definition no_quant (rest : string) : bool :=
  match rest with
  | EmptyString => true
  | String c _ => negb (bool_decide (c ∈ ["{"; "*"; "+"; "?"]%char))
  end.

(** ** Classes *)

Lemma is_alnum_plain c :
  is_alnum c = true →
  c ≠ "]"%char ∧ c ≠ "\"%char ∧ c ≠ "^"%char ∧ c ≠ "-"%char.
Proof. revert c. intros [[] [] [] [] [] [] [] []]; by vm_compute. Qed.

Lemma parse_class_item it s acc :
  wf_class_item it = true →
  (match s with String c _ => c ≠ "-"%char | EmptyString => True end) →
  parse_class (print_item it +:+ s) acc = parse_class s (it :: acc).
Proof.
  destruct it as [c|lo hi]; cbn [wf_class_item print_item].
  - intros (H1 & H2 & H3 & _)%is_alnum_plain Hs.
    rewrite str_app_cons, str_app_nil_l. cbn [parse_class].
    rewrite !bool_decide_false by done. cbn [andb].
    destruct s as [|d [|e s]]; [done..|].
    by rewrite (bool_decide_false (d = "-"%char)) by done.
  - intros [[Hlo Hhi]%andb_true_iff Hle]%andb_true_iff _.
    apply is_alnum_plain in Hlo as (H1 & H2 & H3 & _).
    apply is_alnum_plain in Hhi as (H4 & _).
    rewrite !str_app_cons, str_app_nil_l. cbn [parse_class].
    rewrite !bool_decide_false by done. cbn [andb].
    rewrite bool_decide_true, bool_decide_false by done. cbn [andb negb].
    by rewrite Hle.
Qed.

Lemma print_item_first it :
  wf_class_item it = true →
  ∃ c s, print_item it = String c s ∧ c ≠ "-"%char ∧ c ≠ "]"%char.
Proof.
  destruct it as [c|lo hi]; cbn.
  - intros (? & _ & _ & ?)%is_alnum_plain. eauto.
  - intros [[(? & _ & _ & ?)%is_alnum_plain _]%andb_true_iff _]%andb_true_iff.
    eauto.
Qed.

Lemma parse_class_items items acc rest :
  forallb wf_class_item items = true → acc ++ items ≠ [] →
  parse_class (print_items items +:+ String "]" rest) acc
  = Some (rev acc ++ items, rest).
Proof.
  revert acc; induction items as [|it items IH]; intros acc Hwf Hne.
  - rewrite app_nil_r in *. rewrite str_app_nil_l. cbn [print_items parse_class].
    rewrite bool_decide_true by done. by destruct acc.
  - cbn in Hwf. apply andb_true_iff in Hwf as [Hit Hwf].
    cbn [print_items]. rewrite str_app_assoc, parse_class_item; [|done|].
    + rewrite IH; [|done|by destruct items]. cbn [rev].
      by rewrite <- app_assoc.
    + destruct items as [|it' items]; [done|]. cbn in Hwf.
      apply andb_true_iff in Hwf as [Hit' _].
      destruct (print_item_first _ Hit') as (c & s & E & Hc & _).
      cbn [print_items]. by rewrite E.
Qed.

(** ** Counts *)

Lemma parse_count_digits ds (acc : nat) seen rest :
  is_digit_list ds → seen = true ∨ ds ≠ [] →
  parse_count (digits_str ds +:+ String "}" rest) acc seen
  = Some (Z.to_nat (zvalue (Z.of_nat acc) ds), rest).
Proof.
  revert acc seen; induction ds as [|d ds IH]; intros acc seen Hds Hs.
  - destruct Hs as [->|?]; [|done]. cbn. by rewrite Nat2Z.id.
  - apply Forall_cons in Hds as [Hd Hds].
    cbn [digits_str]. rewrite str_app_cons. cbn [parse_count].
    rewrite is_digit_digit_char, digit_val_digit_char by done.
    rewrite IH by auto.
    by replace (Z.of_nat (10 * acc + Z.to_nat d)) with (10 * Z.of_nat acc + d)
      by lia.
Qed.

Lemma parse_count_print (n : nat) rest :
  parse_count (py_str_nonneg (Z.of_nat n) +:+ String "}" rest) 0 false
  = Some (n, rest).
Proof.
  destruct (ndigits_bound (Z.of_nat n)) as (Hub & Hpos & _); [lia|].
  rewrite py_str_nonneg_zpad. unfold zpad.
  rewrite parse_count_digits;
    [|apply zdigits_range|right; apply zdigits_nonempty; lia].
  rewrite zvalue_zdigits_small by lia. by rewrite Nat2Z.id.
Qed.

(** ** The parser, one call at a time *)

(** An atom with its optional count. *)
Definition parse_item (fuel : nat) (s : string) : option (regex * string) :=
  '(a, rest) ← parse_atom fuel s; parse_quant a rest.

(** The characters that begin an atom of the printed form. *)
Definition starts_atom (s : string) : bool :=
  match s with
  | String c _ => bool_decide (c ∈ ["("; "["; "^"; "$"]%char)
  | EmptyString => false
  end.

Lemma starts_atom_cases s :
  starts_atom s = true →
  ∃ c r, s = String c r ∧ (c = "(" ∨ c = "[" ∨ c = "^" ∨ c = "$")%char.
Proof.
  destruct s as [|c r]; [done|]. cbn. intros Hc%bool_decide_eq_true.
  exists c, r. split; [done|]. rewrite !elem_of_cons, elem_of_nil in Hc. tauto.
Qed.

Lemma starts_atom_no_quant s : starts_atom s = true → no_quant s = true.
Proof.
  intros (c & r & -> & [-> | [-> | [-> | ->]]])%starts_atom_cases; by vm_compute.
Qed.

Lemma stop_seq_no_quant s : stop_seq s = true → no_quant s = true.
Proof.
  destruct s as [|c r]; [done|]. cbn.
  intros [->%bool_decide_eq_true| ->%bool_decide_eq_true]%orb_true_iff;
    by vm_compute.
Qed.

Lemma stop_alt_seq s : stop_alt s = true → stop_seq s = true.
Proof. destruct s as [|c r]; [done|]. cbn. intros ->. apply orb_true_r. Qed.

Lemma parse_seq_stop f s :
  stop_seq s = true → parse_seq (S f) s = Some (REps, s).
Proof. destruct s as [|c r]; [done|]. cbn. by intros ->. Qed.

Lemma parse_seq_item f s :
  starts_atom s = true →
  parse_seq (S f) s
  = '(a, rest) ← parse_item f s;
    '(r, rest') ← parse_seq f rest; Some (RSeq a r, rest').
Proof.
  intros (c & r & -> & Hc)%starts_atom_cases. cbn [parse_seq].
  replace (bool_decide (c = "|"%char) || bool_decide (c = ")"%char))
    with false by (by destruct Hc as [-> | [-> | [-> | ->]]]).
  unfold parse_item. destruct (parse_atom f _) as [[a rest]|]; [|done].
  cbn. by destruct (parse_quant a rest) as [[a' rest']|].
Qed.

Lemma parse_alt_single f s r rest :
  parse_seq f s = Some (r, rest) → stop_alt rest = true →
  parse_alt (S f) s = Some (r, rest).
Proof.
  intros Hs Hr. cbn [parse_alt]. rewrite Hs. cbn.
  destruct rest as [|c rest]; [done|]. cbn in Hr.
  apply bool_decide_eq_true in Hr as ->. done.
Qed.

Lemma parse_alt_bar f s r1 r2 rest1 rest :
  parse_seq f s = Some (r1, String "|" rest1) →
  parse_alt f rest1 = Some (r2, rest) →
  parse_alt (S f) s = Some (RAlt r1 r2, rest).
Proof. intros Hs Hr. cbn [parse_alt]. rewrite Hs. cbn. by rewrite Hr. Qed.

Lemma parse_quant_none a rest :
  no_quant rest = true → parse_quant a rest = Some (a, rest).
Proof.
  destruct rest as [|c rest]; [done|]. cbn [no_quant parse_quant].
  intros Hc%negb_true_iff%bool_decide_eq_false.
  apply not_elem_of_cons in Hc as [Hb Hc].
  by rewrite (bool_decide_false (c = "{"%char)), (bool_decide_false (c ∈ _)).
Qed.

Lemma parse_quant_count a (n : nat) rest :
  a ≠ RBol → a ≠ REol →
  parse_quant a (String "{" (py_str_nonneg (Z.of_nat n) +:+ String "}" rest))
  = Some (RRepeat n a, rest).
Proof.
  intros Hb He. cbn [parse_quant]. rewrite bool_decide_true by done.
  rewrite parse_count_print. by destruct a.
Qed.

(** The first character of a printed item begins an atom. *)
Lemma print_atom_starts a rest :
  wf_atom a = true → starts_atom (re_print a +:+ rest) = true.
Proof. by destruct a. Qed.

Lemma print_item_starts a rest :
  wf_item a = true → starts_atom (re_print a +:+ rest) = true.
Proof.
  destruct a as [| |items|? ?|? ?|r'|n a|]; try done.
  cbn [wf_item re_print]. rewrite !str_app_assoc.
  destruct a; try done; apply print_atom_starts.
Qed.

Lemma print_seq_no_quant r rest :
  wf_seq r = true → stop_seq rest = true →
  no_quant (re_print r +:+ rest) = true.
Proof.
  destruct r as [| |items|a r'|? ?|r'|n a|]; try done.
  - cbn [wf_seq re_print]. intros [Ha _]%andb_true_iff _.
    rewrite str_app_assoc. by apply starts_atom_no_quant, print_item_starts.
  - intros _. apply stop_seq_no_quant.
Qed.

(** ** The round trip, level by level *)

(** What the parser does on the printed form of an atom, of an item, of a
    sequence and of an alternative, followed by [rest], with fuel above the
    depth of the expression. *)
Definition atom_ok (a : regex) : Prop :=
  ∀ f rest, (re_depth a < f)%nat →
    parse_atom f (re_print a +:+ rest) = Some (a, rest).

Definition item_ok (a : regex) : Prop :=
  ∀ f rest, (re_depth a < f)%nat → no_quant rest = true →
    parse_item f (re_print a +:+ rest) = Some (a, rest).

Definition seq_ok (r : regex) : Prop :=
  ∀ f rest, (re_depth r < f)%nat → stop_seq rest = true →
    parse_seq f (re_print r +:+ rest) = Some (r, rest).

Definition alt_ok (r : regex) : Prop :=
  ∀ f rest, (S (re_depth r) < f)%nat → stop_alt rest = true →
    parse_alt f (re_print r +:+ rest) = Some (r, rest).

Lemma atom_ok_anchor a : a = RBol ∨ a = REol → atom_ok a.
Proof. intros [-> | ->] [|f] rest Hf; (lia || done). Qed.

Lemma atom_ok_class items : wf_class items = true → atom_ok (RClass items).
Proof.
  intros [Hne%negb_true_iff%bool_decide_eq_false Hwf]%andb_true_iff.
  intros [|f] rest Hf; [lia|]. cbn [re_print].
  rewrite !str_app_cons, str_app_nil_l, str_app_assoc, str_app_cons, str_app_nil_l.
  cbn [parse_atom]. rewrite bool_decide_false, bool_decide_true by done.
  by rewrite parse_class_items.
Qed.

Lemma atom_ok_group r : alt_ok r → atom_ok (RGroup r).
Proof.
  intros Hr [|f] rest Hf; [lia|]. cbn [re_print re_depth] in *.
  rewrite !str_app_cons, str_app_nil_l, str_app_assoc, str_app_cons, str_app_nil_l.
  cbn [parse_atom]. rewrite bool_decide_true by done.
  by rewrite Hr by (done || lia).
Qed.

Lemma item_ok_atom a : atom_ok a → item_ok a.
Proof.
  intros Ha f rest Hf Hq. unfold parse_item. rewrite Ha by done. cbn.
  by apply parse_quant_none.
Qed.

Lemma item_ok_repeat n a :
  atom_ok a → a ≠ RBol → a ≠ REol → item_ok (RRepeat n a).
Proof.
  intros Ha Hb He f rest Hf _. unfold parse_item. cbn [re_print].
  rewrite !str_app_assoc, str_app_cons, str_app_nil_l, Ha by done. cbn.
  by apply parse_quant_count.
Qed.

Lemma seq_ok_eps : seq_ok REps.
Proof. intros [|f] rest Hf Hr; [lia|]. by apply parse_seq_stop. Qed.

Lemma seq_ok_cons a r :
  wf_item a = true → wf_seq r = true →
  item_ok a → seq_ok r → seq_ok (RSeq a r).
Proof.
  intros Wa Wr Ha Hr [|f] rest Hf Hs; [lia|]. cbn [re_print re_depth] in *.
  rewrite str_app_assoc, parse_seq_item by by apply print_item_starts.
  rewrite Ha by (lia || by apply print_seq_no_quant). cbn.
  by rewrite Hr by (lia || done).
Qed.

Lemma alt_ok_seq r : seq_ok r → alt_ok r.
Proof.
  intros Hr [|f] rest Hf Hs; [lia|].
  apply parse_alt_single; [|done]. apply Hr; [lia|by apply stop_alt_seq].
Qed.

Lemma alt_ok_alt r1 r2 : seq_ok r1 → alt_ok r2 → alt_ok (RAlt r1 r2).
Proof.
  intros H1 H2 [|f] rest Hf Hs; [lia|]. cbn [re_print re_depth] in *.
  rewrite !str_app_assoc, str_app_cons, str_app_nil_l.
  eapply parse_alt_bar; [apply H1; [lia|done]|apply H2; [lia|done]].
Qed.

Lemma parse_print_levels r :
  (wf_atom r = true → atom_ok r) ∧ (wf_item r = true → item_ok r)
  ∧ (wf_seq r = true → seq_ok r) ∧ (wf_alt r = true → alt_ok r).
Proof.
  induction r as [| |items|a (_ & IHa & _) r (_ & _ & IHr & _)
                 |r1 (_ & _ & IH1 & _) r2 (_ & _ & _ & IH2)
                 |r (_ & _ & _ & IHr)|n a (IHa & _)|];
    split_and!; cbn [wf_atom wf_item wf_seq wf_alt]; try done.
  - intros _. apply atom_ok_anchor; auto.
  - intros _. apply item_ok_atom, atom_ok_anchor; auto.
  - intros _. apply atom_ok_anchor; auto.
  - intros _. apply item_ok_atom, atom_ok_anchor; auto.
  - apply atom_ok_class.
  - intros Hw. by apply item_ok_atom, atom_ok_class.
  - intros [Wa Wr]%andb_true_iff. apply seq_ok_cons; auto.
  - intros [Wa Wr]%andb_true_iff. apply alt_ok_seq, seq_ok_cons; auto.
  - intros [W1 W2]%andb_true_iff. apply alt_ok_alt; auto.
  - intros Hw. by apply atom_ok_group, IHr.
  - intros Hw. by apply item_ok_atom, atom_ok_group, IHr.
  - intros Hw. destruct a; try done; by apply item_ok_repeat; [apply IHa|..].
  - intros _. apply seq_ok_eps.
  - intros _. apply alt_ok_seq, seq_ok_eps.
Qed.

(** ** The fuel of [re_compile] is enough *)

(** The depth of an expression is at most three times the length of its
    printed form; for an item, less than that. *)
Lemma re_depth_bound r :
  (wf_atom r = true ∨ wf_item r = true →
   (re_depth r < 3 * String.length (re_print r))%nat)
  ∧ (wf_seq r = true ∨ wf_alt r = true →
     (re_depth r ≤ 3 * String.length (re_print r))%nat).
Proof.
  induction r as [| |items|a [IHa _] r [_ IHr]|r1 [_ IH1] r2 [_ IH2]
                 |r [_ IHr]|n a [IHa _]|];
    (split; intros [Hw|Hw]); cbn [wf_atom wf_item wf_seq wf_alt] in Hw;
    try done; cbn [re_depth re_print];
    rewrite ?str_app_length; cbn [String.length]; try lia.
  - apply andb_true_iff in Hw as [Wa Wr]. specialize (IHa (or_intror Wa)).
    specialize (IHr (or_introl Wr)). lia.
  - apply andb_true_iff in Hw as [Wa Wr]. specialize (IHa (or_intror Wa)).
    specialize (IHr (or_introl Wr)). lia.
  - apply andb_true_iff in Hw as [W1 W2]. specialize (IH1 (or_introl W1)).
    specialize (IH2 (or_intror W2)). lia.
  - specialize (IHr (or_intror Hw)). lia.
  - specialize (IHr (or_intror Hw)). lia.
  - assert (wf_atom a = true) as Wa by (by destruct a).
    specialize (IHa (or_introl Wa)). lia.
Qed.

(** The parser reads the printed form of an expression back, with any fuel
    above the depth of the expression. *)
Theorem parse_alt_print (r : regex) (fuel : nat) :
  wf_alt r = true → (S (re_depth r) < fuel)%nat →
  parse_alt fuel (re_print r) = Some (r, EmptyString).
Proof.
  intros Hw Hf. destruct (parse_print_levels r) as (_ & _ & _ & Hr).
  rewrite <- (str_app_nil_r (re_print r)) at 1. by apply Hr.
Qed.

(** Round trip: [re_compile] is a left inverse of [re_print] on the
    expressions of the parser's form; its fuel, four units per character of
    the pattern, is never exhausted on a printed expression. *)
Theorem re_compile_print (r : regex) :
  wf_alt r = true → re_compile (re_print r) = Some r.
Proof.
  intros Hw. unfold re_compile. rewrite parse_alt_print; [done..|].
  destruct (re_depth_bound r) as [_ Hd]. specialize (Hd (or_intror Hw)). lia.
Qed.

Lemma re_compile_print_witness :
  re_compile (re_print (RAlt (RSeq (RRepeat 12 (RClass [CRange "a" "f"])) REps)
                             (RSeq RBol (RSeq (RGroup REps) REps))))
  = Some (RAlt (RSeq (RRepeat 12 (RClass [CRange "a" "f"])) REps)
               (RSeq RBol (RSeq (RGroup REps) REps))).
Proof. by apply re_compile_print. Defined.
