(* ===== verification/Codici.v ===== *)
(** * The municipality table [CODICI_CHOICES]

    [util.py] imports [CODICI_CHOICES] from [it_codici.py], a dictionary from
    cadastral codes to place names that is reference data and not part of the
    sources under verification.  The fiscal-code functions are therefore
    verified against an interface: any table whose keys are four characters
    long, as the specification states.  [sample_table] is a small instance
    used by the examples. *)

From S2P Require Import Prelude PyBuiltins.
From stdpp Require Import gmap.

(** What the rest of the development may assume of the table. *)
Class CodiciTable : Type := {
  codici_table : gmap string string;
  codici_key_length :
    ∀ k v, codici_table !! k = Some v → String.length k = 4%nat
}.

(** [from .it_codici import CODICI_CHOICES]: the name that [util.py] binds
    to the table. *)
Definition CODICI_CHOICES `{CodiciTable} : gmap string string := codici_table.

(** A cadastral code proper: a capital letter followed by three digits. *)
Definition cadastral_shape (k : string) : bool :=
  match k with
  | String a (String b (String c (String d EmptyString))) =>
      is_upper a && is_digit b && is_digit c && is_digit d
  | _ => false
  end.

(** Tables all of whose keys are cadastral codes proper. *)
Class CadastralTable `{CodiciTable} : Prop :=
  codici_key_shape :
    ∀ k v, CODICI_CHOICES !! k = Some v → cadastral_shape k = true.

Definition sample_entries : list (string * string) :=
  [("D969", "Genova"); ("F205", "Milano"); ("H501", "Roma");
   ("L219", "Torino"); ("F839", "Napoli"); ("Z404", "Stati Uniti")].

Definition sample_map : gmap string string := list_to_map sample_entries.

Lemma sample_key_shape k v :
  sample_map !! k = Some v → cadastral_shape k = true.
Proof.
  intros Hk%elem_of_list_to_map_2. unfold sample_entries in Hk.
  repeat (apply elem_of_cons in Hk as [[= -> ->]|Hk]; [done|]).
  by apply elem_of_nil in Hk.
Qed.

Lemma cadastral_shape_length k : cadastral_shape k = true → String.length k = 4%nat.
Proof. by destruct k as [|a [|b [|c [|d [|e k]]]]]. Qed.

#[export] Instance sample_table : CodiciTable :=
  {| codici_table := sample_map;
     codici_key_length k v H := cadastral_shape_length k (sample_key_shape k v H) |}.

#[export] Instance sample_table_cadastral : CadastralTable.
Proof. exact sample_key_shape. Qed.
