(* ===== verification/Ssn.v ===== *)
(** * The fiscal-code functions of [util.py]

    [PATTERN], [MONTHSCODE], [ssn_isvalid], [ssn_get_birthday],
    [ssn_get_municipality], [ssn_get_sex], [ssn_check_digit] (with its two
    weight dictionaries and the list of control letters) and
    [ssn_validation], each translated statement by statement. *)

From S2P Require Import Prelude PyBuiltins Regex Codici Django.
From stdpp Require Import gmap.

#[local] Open Scope Z_scope.

(** ** Definitions *)

Definition PATTERN : string :=
  "^[A-Z]{6}[0-9]{2}([ABCDEHLMPRST])[0-9]{2}[A-Z][0-9]([A-Z]|[0-9])[0-9][A-Z]$".

Definition MONTHSCODE : list string :=
  ["A"; "B"; "C"; "D"; "E"; "H"; "L"; "M"; "P"; "R"; "S"; "T"].

(** [re.match(pattern, v)]: only text can be matched. *)
Definition re_match_val (pattern : string) (v : pyval) : result bool :=
  match v with
  | PyStr s => re_match pattern s
  | _ => Raise TypeError
  end.

(** [isinstance(code, str) and re.match(PATTERN, code) is not None] *)
Definition ssn_isvalid (code : pyval) : result bool :=
  if isinstance_str code then re_match_val PATTERN code else Ok false.

Definition ssn_get_birthday {interp : Interpreter} (code : pyval)
    : result string :=
  _ ← py_assert_stmt (ssn_isvalid code);
  dd ← py_slice_val code 9 11;
  day ← py_int (PyStr dd);
  let day := py_and_or truthy_int (day <? 32) day (day - 40) in
  m ← py_getitem_val code 8;
  idx ← py_list_index MONTHSCODE m;
  let month := idx + 1 in
  yy ← py_slice_val code 6 8;
  year ← py_int (PyStr yy);
  Ok (py_format_02d day +:+ "/" +:+ py_format_02d month +:+ "/"
      +:+ py_format_02d year).

Section municipality.
Context `{CodiciTable}.

Definition ssn_get_municipality {interp : Interpreter} (code : pyval)
    : result string :=
  _ ← py_assert_stmt (ssn_isvalid code);
  key ← py_slice_val code (-5) (-1);
  Ok (py_dict_get CODICI_CHOICES key "Altro").

End municipality.

Definition ssn_get_sex {interp : Interpreter} (code : pyval)
    : result string :=
  _ ← py_assert_stmt (ssn_isvalid code);
  dd ← py_slice_val code 9 11;
  day ← py_int (PyStr dd);
  Ok (py_and_or truthy_str (day <? 32) "M" "F").

Definition ssn_even_chars : gmap string Z :=
  list_to_map
    [("0", 0); ("1", 1); ("2", 2); ("3", 3); ("4", 4); ("5", 5); ("6", 6);
     ("7", 7); ("8", 8); ("9", 9); ("A", 0); ("B", 1); ("C", 2); ("D", 3);
     ("E", 4); ("F", 5); ("G", 6); ("H", 7); ("I", 8); ("J", 9); ("K", 10);
     ("L", 11); ("M", 12); ("N", 13); ("O", 14); ("P", 15); ("Q", 16);
     ("R", 17); ("S", 18); ("T", 19); ("U", 20); ("V", 21); ("W", 22);
     ("X", 23); ("Y", 24); ("Z", 25)].

Definition ssn_odd_chars : gmap string Z :=
  list_to_map
    [("0", 1); ("1", 0); ("2", 5); ("3", 7); ("4", 9); ("5", 13); ("6", 15);
     ("7", 17); ("8", 19); ("9", 21); ("A", 1); ("B", 0); ("C", 5); ("D", 7);
     ("E", 9); ("F", 13); ("G", 15); ("H", 17); ("I", 19); ("J", 21);
     ("K", 2); ("L", 4); ("M", 18); ("N", 20); ("O", 11); ("P", 3); ("Q", 6);
     ("R", 8); ("S", 12); ("T", 14); ("U", 16); ("V", 10); ("W", 22);
     ("X", 25); ("Y", 24); ("Z", 23)].

(** [[chr(x) for x in range(65, 91)]] *)
Definition ssn_check_digits : list string := py_chr <$> py_range 65 91 1.

(** ["Character '%(char)s' is not allowed." % {'char': c}] *)
Definition not_allowed_msg (c : string) : string :=
  "Character '" +:+ c +:+ "' is not allowed.".

(** One iteration of the loop of [ssn_check_digit]: the [try] block and its
    [except KeyError] handler. *)
Definition ssn_check_digit_step (ssn : string) (total i : Z) : result Z :=
  try_except
    (if i `mod` 2 =? 0 then
       c ← py_getitem ssn i;
       w ← py_dict_getitem ssn_odd_chars c;
       Ok (total + w)
     else
       c ← py_getitem ssn i;
       w ← py_dict_getitem ssn_even_chars c;
       Ok (total + w))
    is_KeyError
    (λ _, c ← py_getitem ssn i; Raise (ValueError (not_allowed_msg c))).

Definition ssn_check_digit (value : pyval) : result string :=
  ssn ← py_upper_val value;
  total ← for_loop (py_range 0 15 1) (ssn_check_digit_step ssn) 0;
  py_list_getitem ssn_check_digits (total `mod` 26).

(** [_('Check digit does not match.')] *)
Definition ssn_check_digit_msg {translation : Translation} : string :=
  ugettext_lazy "Check digit does not match.".

Definition ssn_validation {translation : Translation} (ssn_value : pyval) : result pyval :=
  check_digit ← ssn_check_digit ssn_value;
  c ← py_getitem_val ssn_value 15;
  if bool_decide (c ≠ check_digit) then Raise (ValueError ssn_check_digit_msg)
  else Ok ssn_value.
