(* ===== verification/SsnSyntax.v ===== *)
(** * The syntax check [ssn_isvalid]

    [PATTERN] compiles to [PATTERN_regex], the expression of a fiscal code
    written out constructor by constructor; matching it is the same as the
    direct test [fiscal_shape]: sixteen characters of the prescribed classes
    followed by the end of the text or by one final newline.  The lemmas
    [shape_match_lookup] and [shape_match_rest] give the decoders the
    character classes of a code that passed the check.  [PATTERN] is the
    printed form of [PATTERN_regex], and is parsed to it whatever the fuel
    above the depth of the expression. *)

From S2P Require Import Prelude PyBuiltins Regex RegexPrint Codici Django Ssn.

#[local] Open Scope Z_scope.

(** ** Reference definitions *)

(** The letters that encode the month of birth. *)
Definition month_letters : list ascii :=
  ["A"; "B"; "C"; "D"; "E"; "H"; "L"; "M"; "P"; "R"; "S"; "T"]%char.

(** The expression of a fiscal code, written out: the start of the text,
    six capital letters, two digits, the group of the month letters, two
    digits, a capital letter, a digit, the group of a capital letter or a
    digit, a digit, a capital letter, the end of the text.  It is what
    [re.compile] makes of [PATTERN] ([PATTERN_compiles]). *)
Definition re_upper : regex := RClass [CRange "A" "Z"].
Definition re_digit : regex := RClass [CRange "0" "9"].
Definition re_month : regex := RClass (CChar <$> month_letters).
Definition re_seq (rs : list regex) : regex := foldr RSeq REps rs.

Definition PATTERN_regex : regex :=
  re_seq [RBol; RRepeat 6 re_upper; RRepeat 2 re_digit;
          RGroup (re_seq [re_month]); RRepeat 2 re_digit; re_upper; re_digit;
          RGroup (RAlt (re_seq [re_upper]) (re_seq [re_digit]));
          re_digit; re_upper; REol].

Definition is_month (c : ascii) : bool := class_mem c (CChar <$> month_letters).

(** The character class of each of the sixteen positions. *)
Definition shape_classes : list (ascii → bool) :=
  replicate 6 is_upper ++ replicate 2 is_digit ++ [is_month]
  ++ replicate 2 is_digit
  ++ [is_upper; is_digit; is_upper_alnum; is_digit; is_upper].

(** [shape_match ps s k]: the first characters of [s] are in the classes
    [ps], in order, and the rest satisfies [k]. *)
Fixpoint shape_match (ps : list (ascii → bool)) (s : string)
    (k : string → bool) : bool :=
  match ps with
  | [] => k s
  | p :: ps' =>
      match s with
      | String c r => p c && shape_match ps' r k
      | EmptyString => false
      end
  end.

Definition fiscal_shape (s : string) : bool :=
  shape_match shape_classes s at_eol.

(** ** Lemmas *)

Lemma PATTERN_compiles : re_compile PATTERN = Some PATTERN_regex.
Proof. by vm_compute. Qed.

Ltac shape_step :=
  repeat (progress (
    cbn [rmatch regex_match shape_match fiscal_shape shape_classes replicate
         app Nat.eqb andb];
    rewrite ?class_mem_upper, ?class_mem_digit, ?andb_true_r, ?andb_false_r)).

Lemma regex_match_PATTERN s : regex_match PATTERN_regex s = fiscal_shape s.
Proof.
  unfold PATTERN_regex, re_seq, re_upper, re_digit, re_month.
  cbn [foldr].
  do 16 (destruct s as [|? s]; [by shape_step|]).
  shape_step. unfold is_upper_alnum, is_month.
  repeat (f_equal; []).
  match goal with
  | |- context [is_upper ?c && _ || _] =>
      destruct (is_upper c), (is_digit c); cbn;
      by rewrite ?orb_diag, ?orb_false_r
  end.
Qed.

Lemma shape_match_lookup ps s k (i : nat) p :
  shape_match ps s k = true → ps !! i = Some p →
  ∃ c, chars s !! i = Some c ∧ p c = true.
Proof.
  revert s i; induction ps as [|q ps IH]; intros s i Hm Hi; [done|].
  destruct s as [|c s]; [done|]. cbn in Hm.
  apply andb_true_iff in Hm as [Hq Hm]. destruct i as [|i]; cbn in *.
  - exists c. by simplify_eq.
  - by apply (IH s i).
Qed.

Lemma shape_match_rest ps s k :
  shape_match ps s k = true →
  (length ps ≤ String.length s)%nat ∧ k (str_drop (length ps) s) = true.
Proof.
  revert s; induction ps as [|q ps IH]; intros s Hm; cbn in *.
  - split; [lia|]. by destruct s.
  - destruct s as [|c s]; [done|]. apply andb_true_iff in Hm as [_ Hm].
    destruct (IH s Hm). cbn. split; [lia|done].
Qed.

Lemma shape_match_intro ps s k :
  Forall2 (λ p c, p c = true) ps (take (length ps) (chars s)) →
  k (str_drop (length ps) s) = true →
  shape_match ps s k = true.
Proof.
  revert s; induction ps as [|q ps IH]; intros s Hps Hk; cbn in *.
  - by destruct s.
  - destruct s as [|c s]; [by inversion Hps|]. cbn in Hps.
    apply Forall2_cons in Hps as [Hq Hps]. rewrite Hq. cbn. by apply IH.
Qed.

Lemma at_eol_spec s :
  at_eol s = true ↔ s = EmptyString ∨ s = String newline EmptyString.
Proof.
  unfold at_eol. by rewrite orb_true_iff, !bool_decide_eq_true.
Qed.

(** A string of the fiscal shape has sixteen characters, or seventeen of
    which the last is a newline. *)
Lemma fiscal_shape_length s :
  fiscal_shape s = true →
  String.length s = 16%nat
  ∨ (String.length s = 17%nat ∧ chars s !! 16%nat = Some newline).
Proof.
  intros [Hlen Heol]%shape_match_rest.
  change (length shape_classes) with 16%nat in *.
  pose proof (str_drop_length 16 s) as Hd.
  apply at_eol_spec in Heol as [Heol|Heol]; rewrite Heol in Hd; cbn in Hd.
  - left; lia.
  - right. split; [lia|].
    apply (f_equal chars) in Heol. rewrite chars_drop in Heol.
    by rewrite <- (Nat.add_0_r 16), <- lookup_drop, Heol.
Qed.

(** ** Theorems *)

(** On text, [ssn_isvalid] is the shape test. *)
Lemma ssn_isvalid_str (s : string) : ssn_isvalid (PyStr s) = Ok (fiscal_shape s).
Proof.
  unfold ssn_isvalid, re_match_val, re_match. cbn [isinstance_str].
  by rewrite PATTERN_compiles, regex_match_PATTERN.
Qed.

(** C4. [ssn_isvalid] never raises: on text it returns exactly the shape test
    [fiscal_shape] (sixteen characters of the classes of [PATTERN], then the
    end of the text or one final newline), and on any other value it returns
    [False]. *)
Theorem ssn_isvalid_spec (v : pyval) :
  ssn_isvalid v
  = Ok (match v with PyStr s => fiscal_shape s | _ => false end).
Proof.
  destruct v as [s| | |]; [apply ssn_isvalid_str|done..].
Qed.

(** C39. [ssn_isvalid] accepts a text exactly when a prefix of it belongs to
    the denotation of [PATTERN_regex], the expression of a fiscal code
    written out above (the start of the text, six capital letters, two
    digits, a month letter, two digits, a capital letter, a digit, a
    capital letter or a digit, a digit, a capital letter, the end of the
    text), which is what [re.compile] makes of [PATTERN]: the check is
    [re.match] of that expression and nothing else. *)
Theorem ssn_isvalid_denotation (s : string) :
  ssn_isvalid (PyStr s) = Ok true
  ↔ ∃ s1 s2, s = s1 +:+ s2 ∧ re_den PATTERN_regex 0 s1 s2.
Proof.
  rewrite <- regex_match_spec, ssn_isvalid_str, regex_match_PATTERN.
  split; [by intros [= ->]|by intros ->].
Qed.

(** An accepted text has sixteen characters, or seventeen of which the
    last is a newline: [$] also matches before a final newline, so the
    check does not imply a length of sixteen. *)
Theorem ssn_isvalid_length (s : string) :
  ssn_isvalid (PyStr s) = Ok true →
  String.length s = 16%nat
  ∨ (String.length s = 17%nat ∧ chars s !! 16%nat = Some newline).
Proof.
  rewrite ssn_isvalid_str. intros [= Hs]. by apply fiscal_shape_length.
Qed.

Lemma ssn_isvalid_length_witness :
  String.length "RCCMNL83S18D969H" = 16%nat
  ∨ (String.length "RCCMNL83S18D969H" = 17%nat
     ∧ chars "RCCMNL83S18D969H" !! 16%nat = Some newline).
Proof. apply ssn_isvalid_length. by vm_compute. Defined.

Lemma shape_match_app ps s t k :
  String.length s = length ps →
  shape_match ps (s +:+ t) k = shape_match ps s (λ _, k t).
Proof.
  revert s; induction ps as [|p ps IH]; intros [|c s] Hlen; try done.
  rewrite str_app_cons. cbn. rewrite IH; [done|]. cbn in Hlen; lia.
Qed.

(** Appending a newline to a sixteen-character text does not change the
    verdict: every valid code followed by a newline is accepted as well. *)
Theorem ssn_isvalid_trailing_newline (s : string) :
  String.length s = 16%nat →
  ssn_isvalid (PyStr (s +:+ String newline EmptyString))
  = ssn_isvalid (PyStr s).
Proof.
  intros Hlen. rewrite !ssn_isvalid_str. unfold fiscal_shape. f_equal.
  rewrite <- (str_app_nil_r s) at 2. by rewrite !shape_match_app.
Qed.

Lemma ssn_isvalid_trailing_newline_witness :
  ssn_isvalid (PyStr ("RCCMNL83S18D969H" +:+ String newline EmptyString))
  = ssn_isvalid (PyStr "RCCMNL83S18D969H").
Proof. by apply ssn_isvalid_trailing_newline. Defined.

(** ** Position by position *)

Lemma shape_match_iff ps s k :
  shape_match ps s k = true
  ↔ Forall2 (λ p c, p c = true) ps (take (length ps) (chars s))
    ∧ k (str_drop (length ps) s) = true.
Proof.
  split; [|intros [? ?]; by apply shape_match_intro].
  revert s; induction ps as [|q ps IH]; intros s Hm; cbn in *.
  - rewrite take_0. split; [constructor|by destruct s].
  - destruct s as [|c s]; [done|]. apply andb_true_iff in Hm as [Hq Hm].
    destruct (IH s Hm). split; [by constructor|done].
Qed.

(** [ssn_isvalid] accepts a text exactly when each of its first sixteen
    characters is in the class of its position (six letters, two digits, a
    month letter, two digits, a letter, a digit, a letter or a digit, a
    digit, a letter) and nothing follows them but, possibly, one newline. *)
Theorem ssn_isvalid_positions (s : string) :
  ssn_isvalid (PyStr s) = Ok true
  ↔ Forall2 (λ p c, p c = true) shape_classes (take 16 (chars s))
    ∧ (drop 16 (chars s) = [] ∨ drop 16 (chars s) = [newline]).
Proof.
  rewrite ssn_isvalid_str.
  trans (fiscal_shape s = true); [split; [by intros [=]|by intros ->]|].
  unfold fiscal_shape. rewrite shape_match_iff, at_eol_spec, <- chars_drop.
  change (length shape_classes) with 16%nat.
  split; (intros [Hs Hr]; split; [done|]);
    (destruct Hr as [Hr|Hr]; [left|right]);
    first [by rewrite Hr | by apply chars_inj].
Qed.

(** ** The pattern text *)

(** [PATTERN] and the expression it compiles to determine one another:
    [re.compile] reads [PATTERN] as [PATTERN_regex], with any fuel above
    the depth of the expression and so with the fuel of [re_compile], and
    [PATTERN_regex] prints back as the text of [PATTERN]. *)
Theorem PATTERN_roundtrip :
  re_print PATTERN_regex = PATTERN
  ∧ re_compile (re_print PATTERN_regex) = Some PATTERN_regex
  ∧ ∀ fuel, (S (re_depth PATTERN_regex) < fuel)%nat →
            parse_alt fuel PATTERN = Some (PATTERN_regex, EmptyString).
Proof.
  assert (re_print PATTERN_regex = PATTERN) as Hp by by vm_compute.
  assert (wf_alt PATTERN_regex = true) as Hw by by vm_compute.
  split_and!; [done|by apply re_compile_print|].
  intros fuel Hf. rewrite <- Hp. by apply parse_alt_print.
Qed.

(** A character outside the class of its position makes [ssn_isvalid]
    return [False]: in particular a letter in place of one of the digits at
    the positions 6, 7, 9, 10, 12 and 14, as in the codes issued to
    homonyms. *)
Theorem ssn_isvalid_rejects (s : string) (i : nat) p c :
  shape_classes !! i = Some p → chars s !! i = Some c → p c = false →
  ssn_isvalid (PyStr s) = Ok false.
Proof.
  intros Hp Hc Hpc. rewrite ssn_isvalid_str. f_equal.
  destruct (fiscal_shape s) eqn:Hs; [|done].
  destruct (shape_match_lookup _ _ _ _ _ Hs Hp) as (c' & Hc' & Hpc').
  congruence.
Qed.

Lemma ssn_isvalid_rejects_witness :
  ssn_isvalid (PyStr "RCCMNL83S18D96VH") = Ok false.
Proof. by apply (ssn_isvalid_rejects _ 14 is_digit "V"). Defined.
