(* ===== verification/SsnCheck.v ===== *)
(** * The control letter: [ssn_check_digit] and [ssn_validation]

    The reference for the control letter is computed from two arrays indexed
    by character code (the tables of the standard), by structural recursion
    on the characters: [ssn_scan].  The loop of [ssn_check_digit], with its
    dictionaries and its [try]/[except], is shown to compute [ssn_scan]; the
    properties of the control letter are proved on the reference and carried
    over. *)

From S2P Require Import Prelude ParitySum PyBuiltins Regex Codici Django Ssn.
From stdpp Require Import gmap.

#[local] Open Scope Z_scope.

(** ** Reference definitions *)

(** Weights of the characters in odd positions (first, third, ...): the
    digits, then the letters. *)
Definition odd_digit_weights : list Z := [1; 0; 5; 7; 9; 13; 15; 17; 19; 21].
Definition odd_letter_weights : list Z :=
  [1; 0; 5; 7; 9; 13; 15; 17; 19; 21; 2; 4; 18; 20; 11; 3; 6; 8; 12; 14; 16;
   10; 22; 25; 24; 23].

(** The weight of character [c]; [odd] tells whether its position, counted
    from one, is odd.  [None] for a character that is not a digit or a
    capital letter. *)
Definition char_weight (odd : bool) (c : ascii) : option Z :=
  if is_digit c then
    if odd then odd_digit_weights !! Z.to_nat (ascii_code c - 48)
    else Some (ascii_code c - 48)
  else if is_upper c then
    if odd then odd_letter_weights !! Z.to_nat (ascii_code c - 65)
    else Some (ascii_code c - 65)
  else None.

(** The weighted sum of the first [n] characters of [cs], added to [total];
    the first character is in an odd position iff [odd]. *)
Fixpoint ssn_scan (n : nat) (odd : bool) (cs : list ascii) (total : Z)
    : result Z :=
  match n with
  | O => Ok total
  | S n' =>
      match cs with
      | [] => Raise IndexError
      | c :: cs' =>
          match char_weight odd c with
          | Some w => ssn_scan n' (negb odd) cs' (total + w)
          | None =>
              Raise (ValueError (not_allowed_msg (String c EmptyString)))
          end
      end
  end.

(** The control letter of a weighted sum. *)
Definition check_letter (total : Z) : string := py_chr (65 + total `mod` 26).

(** The reference for [ssn_check_digit] on text. *)
Definition ssn_check_digit_ref (s : string) : result string :=
  total ← ssn_scan 15 true (chars (py_upper s)) 0; Ok (check_letter total).

(** Sum of the weights, when every character has one. *)
Fixpoint weight_sum (odd : bool) (cs : list ascii) : Z :=
  match cs with
  | [] => 0
  | c :: cs' => default 0 (char_weight odd c) + weight_sum (negb odd) cs'
  end.

(** ** The dictionaries are the arrays *)

Lemma long_key_not_in {V} (l : list (string * V)) a b r :
  Forall (λ kv, String.length kv.1 = 1%nat) l →
  (list_to_map l : gmap string V) !! String a (String b r) = None.
Proof.
  intros Hl. apply not_elem_of_list_to_map_1. intros Hin.
  apply list_elem_of_fmap in Hin as ([k v] & Hk & Hin). cbn in Hk.
  rewrite Forall_forall in Hl. specialize (Hl _ Hin). cbn in Hl. by subst k.
Qed.

(** The dictionary of odd positions holds exactly the weights of the array,
    under keys of one character. *)
Lemma ssn_odd_chars_lookup (k : string) :
  ssn_odd_chars !! k
  = match k with
    | String c EmptyString => char_weight true c
    | _ => None
    end.
Proof.
  destruct k as [|c [|b r]]; [done| |].
  - destruct c as [[] [] [] [] [] [] [] []]; by vm_compute.
  - apply long_key_not_in. by repeat constructor.
Qed.

Lemma ssn_even_chars_lookup (k : string) :
  ssn_even_chars !! k
  = match k with
    | String c EmptyString => char_weight false c
    | _ => None
    end.
Proof.
  destruct k as [|c [|b r]]; [done| |].
  - destruct c as [[] [] [] [] [] [] [] []]; by vm_compute.
  - apply long_key_not_in. by repeat constructor.
Qed.

Lemma char_weight_Some odd c :
  is_Some (char_weight odd c) ↔ is_upper_alnum c = true.
Proof.
  destruct odd; destruct c as [[] [] [] [] [] [] [] []]; vm_compute;
    split; (by intros [? [=]]) || (by intros [=]) || eauto.
Qed.

Lemma char_weight_range odd c w :
  char_weight odd c = Some w → 0 ≤ w < 26.
Proof.
  destruct odd; destruct c as [[] [] [] [] [] [] [] []]; vm_compute;
    intros [=]; subst; done.
Qed.

(** ** The loop computes the reference *)

Lemma even_index (i : nat) : (Z.of_nat i `mod` 2 =? 0) = Nat.even i.
Proof.
  destruct (Nat.even i) eqn:E.
  - apply Nat.even_spec in E as [k ->]. apply Z.eqb_eq.
    rewrite Nat2Z.inj_mul, Z.mul_comm. apply Z.mod_mul; lia.
  - apply Z.eqb_neq. intros Hm.
    assert (Nat.even i = true); [|congruence].
    apply Nat.even_spec. exists (Z.to_nat (Z.of_nat i `div` 2)).
    pose proof (Z.div_mod (Z.of_nat i) 2). lia.
Qed.

(** One iteration at an index inside the text. *)
Lemma ssn_step_inside ssn (i : nat) c total :
  chars ssn !! i = Some c →
  ssn_check_digit_step ssn total (Z.of_nat i)
  = match char_weight (Nat.even i) c with
    | Some w => Ok (total + w)
    | None => Raise (ValueError (not_allowed_msg (String c EmptyString)))
    end.
Proof.
  intros Hc. unfold ssn_check_digit_step, py_dict_getitem.
  rewrite even_index, (py_getitem_lookup _ _ _ Hc).
  destruct (Nat.even i); cbn;
    rewrite ?ssn_odd_chars_lookup, ?ssn_even_chars_lookup;
    by destruct (char_weight _ c).
Qed.

(** One iteration at an index past the end: the [IndexError] of [ssn[i]] is
    not a [KeyError] and leaves the [try]. *)
Lemma ssn_step_outside ssn (i : Z) total :
  py_len ssn ≤ i → ssn_check_digit_step ssn total i = Raise IndexError.
Proof.
  intros Hi. unfold ssn_check_digit_step. rewrite (py_getitem_ge _ _ Hi).
  by destruct (i `mod` 2 =? 0).
Qed.

Lemma ssn_loop_scan ssn (n i : nat) total :
  for_loop (seqZ (Z.of_nat i) (Z.of_nat n)) (ssn_check_digit_step ssn) total
  = ssn_scan n (Nat.even i) (drop i (chars ssn)) total.
Proof.
  revert i total; induction n as [|n IH]; intros i total; [done|].
  rewrite seqZ_cons by lia. cbn [for_loop ssn_scan].
  replace (Z.succ (Z.of_nat i)) with (Z.of_nat (S i)) by lia.
  replace (Z.pred (Z.of_nat (S n))) with (Z.of_nat n) by lia.
  destruct (drop i (chars ssn)) as [|c cs] eqn:Hd.
  - apply drop_nil_inv in Hd. rewrite ssn_step_outside; [done|].
    rewrite py_len_chars. lia.
  - assert (chars ssn !! i = Some c) as Hc.
    { by rewrite <- (Nat.add_0_r i), <- lookup_drop, Hd. }
    rewrite (ssn_step_inside _ _ _ _ Hc).
    destruct (char_weight (Nat.even i) c) as [w|]; [|done]. cbn.
    rewrite IH, Nat.even_succ, <- Nat.negb_even. do 2 f_equal.
    by rewrite <- Nat.add_1_r, <- drop_drop, Hd.
Qed.

Lemma ssn_check_digits_lookup (t : Z) :
  py_list_getitem ssn_check_digits (t `mod` 26) = Ok (check_letter t).
Proof.
  pose proof (Z.mod_pos_bound t 26) as Hr. unfold py_list_getitem, norm_index.
  change (Z.of_nat (length ssn_check_digits)) with 26.
  destruct (Z.ltb_spec (t `mod` 26) 0); [lia|].
  destruct (Z.leb_spec 0 (t `mod` 26)); [|lia].
  destruct (Z.ltb_spec (t `mod` 26) 26); [|lia]. cbn [andb].
  unfold ssn_check_digits. rewrite py_range_unit, list_lookup_fmap.
  rewrite lookup_seqZ_lt by lia. cbn. by rewrite Z2Nat.id by lia.
Qed.

(** ** Properties of the reference *)

Lemma ssn_scan_Ok n odd cs total :
  (n ≤ length cs)%nat →
  Forall (λ c, is_upper_alnum c = true) (take n cs) →
  ssn_scan n odd cs total = Ok (total + weight_sum odd (take n cs)).
Proof.
  revert odd cs total; induction n as [|n IH]; intros odd cs total Hn Hcs.
  - rewrite take_0. cbn. f_equal; lia.
  - destruct cs as [|c cs]; [cbn in Hn; lia|]. cbn in *.
    apply Forall_cons in Hcs as [Hc Hcs].
    apply (char_weight_Some odd) in Hc as [w Hw]. rewrite Hw.
    rewrite IH by (done || lia). cbn. f_equal; lia.
Qed.

Lemma ssn_scan_short n odd cs total :
  (length cs < n)%nat →
  Forall (λ c, is_upper_alnum c = true) cs →
  ssn_scan n odd cs total = Raise IndexError.
Proof.
  revert odd cs total; induction n as [|n IH]; intros odd cs total Hn Hcs;
    [lia|].
  destruct cs as [|c cs]; [done|]. cbn in *.
  apply Forall_cons in Hcs as [Hc Hcs].
  apply (char_weight_Some odd) in Hc as [w Hw]. rewrite Hw. apply IH; [lia|done].
Qed.

Lemma char_weight_None odd c :
  is_upper_alnum c = false → char_weight odd c = None.
Proof.
  intros Hc. destruct (char_weight odd c) eqn:E; [|done].
  assert (is_upper_alnum c = true) by (apply (char_weight_Some odd); eauto).
  congruence.
Qed.

Lemma ssn_scan_bad n odd pre c post total :
  (length pre < n)%nat →
  Forall (λ c, is_upper_alnum c = true) pre →
  is_upper_alnum c = false →
  ssn_scan n odd (pre ++ c :: post) total
  = Raise (ValueError (not_allowed_msg (String c EmptyString))).
Proof.
  revert odd pre total; induction n as [|n IH]; intros odd pre total Hn Hpre Hc;
    [lia|].
  destruct pre as [|p pre]; cbn in *.
  - by rewrite char_weight_None.
  - apply Forall_cons in Hpre as [Hp Hpre].
    apply (char_weight_Some odd) in Hp as [w Hw]. rewrite Hw. apply IH; [lia|done..].
Qed.

(** Only the first [n] characters are read. *)
Lemma ssn_scan_take n odd cs total :
  (n ≤ length cs)%nat →
  ssn_scan n odd cs total = ssn_scan n odd (take n cs) total.
Proof.
  revert odd cs total; induction n as [|n IH]; intros odd cs total Hn; [done|].
  destruct cs as [|c cs]; [cbn in Hn; lia|]. cbn in *.
  destruct (char_weight odd c); [|done]. apply IH; lia.
Qed.

Lemma ssn_scan_inv n odd cs total t :
  ssn_scan n odd cs total = Ok t →
  (n ≤ length cs)%nat ∧ Forall (λ c, is_upper_alnum c = true) (take n cs).
Proof.
  revert odd cs total; induction n as [|n IH]; intros odd cs total Hs.
  - split; [lia|]. by rewrite take_0.
  - destruct cs as [|c cs]; [done|]. cbn in *.
    destruct (char_weight odd c) as [w|] eqn:Hw; [|done].
    apply IH in Hs as [Hn Hcs]. split; [lia|]. constructor; [|done].
    apply (char_weight_Some odd). eauto.
Qed.

(** The weight of a character in the sum: 0 for a character without one. *)
Definition ssn_weight (odd : bool) (c : ascii) : Z :=
  default 0 (char_weight odd c).

(** The weighted sum is a sum of alternating weights. *)
Lemma weight_sum_psum odd cs : weight_sum odd cs = psum ssn_weight odd cs.
Proof.
  revert odd; induction cs as [|c cs IH]; intros odd; [done|].
  cbn [weight_sum psum]. by rewrite IH.
Qed.

Lemma weight_sum_app odd cs ds :
  weight_sum odd (cs ++ ds)
  = weight_sum odd cs + weight_sum (xorb odd (Nat.odd (length cs))) ds.
Proof. rewrite !weight_sum_psum. apply psum_app. Qed.

Lemma check_letter_upper t :
  ∃ c, check_letter t = String c EmptyString ∧ is_upper c = true.
Proof.
  pose proof (Z.mod_pos_bound t 26). eexists; split; [done|].
  apply is_upper_spec. rewrite ascii_code_of_code; lia.
Qed.

Lemma check_letter_inj t t' :
  check_letter t = check_letter t' → t `mod` 26 = t' `mod` 26.
Proof.
  pose proof (Z.mod_pos_bound t 26). pose proof (Z.mod_pos_bound t' 26).
  intros [= Heq]. apply (f_equal ascii_code) in Heq.
  rewrite !ascii_code_of_code in Heq; lia.
Qed.

(** Within the digits, and within the letters, different characters have
    different weights. *)
Lemma char_weight_inj odd c c' w :
  char_weight odd c = Some w → char_weight odd c' = Some w →
  is_digit c = is_digit c' → c = c'.
Proof.
  assert (NoDup odd_digit_weights ∧ NoDup odd_letter_weights) as [Hd Hl]
    by (split; apply (bool_decide_unpack _); by vm_compute).
  unfold char_weight. intros Hc Hc' Hcls. rewrite <- Hcls in Hc'.
  pose proof (ascii_code_range c). pose proof (ascii_code_range c').
  destruct (is_digit c) eqn:Edig; [|destruct (is_upper c) eqn:Eup;
    [destruct (is_upper c') eqn:Eup'; [|done]|done]];
    apply ascii_code_inj;
    try apply is_digit_spec in Edig; try apply is_digit_spec in Hcls;
    try apply is_upper_spec in Eup; try apply is_upper_spec in Eup';
    destruct odd; simplify_eq; try lia.
  - symmetry in Hcls. apply is_digit_spec in Hcls.
    pose proof (NoDup_lookup _ _ _ _ Hd Hc Hc'). lia.
  - pose proof (NoDup_lookup _ _ _ _ Hl Hc Hc'). lia.
Qed.

(** ** Theorems on [ssn_check_digit] *)

(** On text, the loop of [ssn_check_digit] is the scan of the first fifteen
    characters of the upper-cased text. *)
Lemma ssn_check_digit_str (s : string) :
  ssn_check_digit (PyStr s) = ssn_check_digit_ref s.
Proof.
  unfold ssn_check_digit, ssn_check_digit_ref. cbn [py_upper_val mbind result_bind].
  rewrite py_range_unit.
  change (seqZ 0 (15 - 0)) with (seqZ (Z.of_nat 0) (Z.of_nat 15)).
  rewrite ssn_loop_scan, drop_0. change (Nat.even 0) with true.
  destruct (ssn_scan 15 true (chars (py_upper s)) 0);
    cbn [mbind result_bind]; [|done].
  apply ssn_check_digits_lookup.
Qed.

(** C1. [ssn_check_digit] computes the reference: on text, the weighted sum
    of the first fifteen characters of the upper-cased text, read with the
    two arrays of the standard, mapped to a letter; with [IndexError] when
    the text is shorter and [ValueError] at the first character that is not
    a digit or a letter.  On any other value it raises [AttributeError]. *)
Theorem ssn_check_digit_refines (v : pyval) :
  ssn_check_digit v
  = match v with
    | PyStr s => ssn_check_digit_ref s
    | _ => Raise AttributeError
    end.
Proof. destruct v as [s| | |]; [apply ssn_check_digit_str|done..]. Qed.

Lemma take_upper_alnum n s :
  Forall (λ c, is_upper_alnum c = true) (take n (chars (py_upper s)))
  ↔ str_forall is_alnum (str_take n s) = true.
Proof.
  rewrite str_forall_Forall, chars_take, chars_py_upper, <- fmap_take, Forall_fmap.
  apply Forall_proper; [|done]. intros c; cbn. by rewrite upper_char_upper_alnum.
Qed.

Lemma length_chars_upper s : length (chars (py_upper s)) = String.length s.
Proof. by rewrite chars_py_upper, length_fmap, chars_length. Qed.

(** A result means fifteen characters at least, digits or letters. *)
Lemma ssn_check_digit_Ok_inv (s d : string) :
  ssn_check_digit (PyStr s) = Ok d →
  (15 ≤ String.length s)%nat ∧ str_forall is_alnum (str_take 15 s) = true.
Proof.
  rewrite ssn_check_digit_str, <- take_upper_alnum, <- (length_chars_upper s).
  by intros (t & Ht%ssn_scan_inv & _)%bind_Ok.
Qed.

(** On fifteen digits or letters the control letter is the letter of the
    weighted sum modulo 26. *)
Lemma ssn_check_digit_value (s : string) :
  (15 ≤ String.length s)%nat →
  str_forall is_alnum (str_take 15 s) = true →
  ssn_check_digit (PyStr s)
  = Ok (check_letter (weight_sum true (take 15 (chars (py_upper s))))).
Proof.
  intros Hlen Hcs%take_upper_alnum. rewrite ssn_check_digit_str.
  unfold ssn_check_digit_ref.
  rewrite ssn_scan_Ok; [done|by rewrite length_chars_upper|done].
Qed.

(** The control letter is one capital letter. *)
Lemma ssn_check_digit_letter (v : pyval) (r : string) :
  ssn_check_digit v = Ok r → ∃ c, r = String c EmptyString ∧ is_upper c = true.
Proof.
  destruct v as [s| | |]; [rewrite ssn_check_digit_str|done..].
  intros (t & _ & [= <-])%bind_Ok. apply check_letter_upper.
Qed.

(** C8. [ssn_check_digit] returns a result exactly for the texts of at least
    fifteen characters whose first fifteen are digits or letters (of either
    case), and the result is then one capital letter: the letter of the
    weighted sum modulo 26. *)
Theorem ssn_check_digit_total (s : string) :
  (15 ≤ String.length s)%nat ∧ str_forall is_alnum (str_take 15 s) = true
  ↔ ∃ c, is_upper c = true
         ∧ ssn_check_digit (PyStr s) = Ok (String c EmptyString)
         ∧ String c EmptyString
           = check_letter (weight_sum true (take 15 (chars (py_upper s)))).
Proof.
  split; [|by intros (c & _ & Hd%ssn_check_digit_Ok_inv & _)].
  intros [Hlen Hcs]. pose proof (ssn_check_digit_value s Hlen Hcs) as Hv.
  destruct (ssn_check_digit_letter _ _ Hv) as (c & Hc & Hup).
  exists c. by rewrite Hv, Hc.
Qed.

(** The first of the fifteen characters that is not a digit or a letter
    makes [ssn_check_digit] raise [ValueError] with the message that names
    it (as upper-cased), whatever follows it. *)
Lemma ssn_check_digit_bad_char (pre post : string) (c : ascii) :
  (String.length pre < 15)%nat →
  str_forall is_alnum pre = true →
  is_alnum c = false →
  ssn_check_digit (PyStr (pre +:+ String c post))
  = Raise (ValueError (not_allowed_msg (String (upper_char c) EmptyString))).
Proof.
  intros Hlen Hpre Hc. rewrite ssn_check_digit_str.
  unfold ssn_check_digit_ref.
  rewrite chars_py_upper, chars_app, fmap_app, chars_cons, fmap_cons.
  rewrite ssn_scan_bad; [done| | |by rewrite upper_char_upper_alnum].
  - by rewrite length_fmap, chars_length.
  - apply Forall_fmap. apply str_forall_Forall in Hpre.
    eapply Forall_impl; [exact Hpre|]. intros d Hd; cbn.
    by rewrite upper_char_upper_alnum.
Qed.

(** A text of fewer than fifteen characters, all digits or letters,
    makes [ssn_check_digit] raise [IndexError]: the [except KeyError] clause
    does not catch the failure of [ssn[i]]. *)
Lemma ssn_check_digit_short (s : string) :
  (String.length s < 15)%nat →
  str_forall is_alnum s = true →
  ssn_check_digit (PyStr s) = Raise IndexError.
Proof.
  intros Hlen Hs. rewrite ssn_check_digit_str. unfold ssn_check_digit_ref.
  rewrite ssn_scan_short; [done|by rewrite length_chars_upper|].
  rewrite chars_py_upper. apply Forall_fmap. apply str_forall_Forall in Hs.
  eapply Forall_impl; [exact Hs|]. intros d Hd; cbn.
  by rewrite upper_char_upper_alnum.
Qed.

(** C31. The error paths of [ssn_check_digit].  The first of the fifteen
    indices at which the text has ended, or has a character that is not a
    digit or a letter, decides the exception: there [ssn[i]] raises
    [IndexError], which the [except KeyError] clause does not catch, or the
    dictionary raises [KeyError], which the clause turns into the
    [ValueError] naming the upper-cased character; what follows is not
    read. *)
Theorem ssn_check_digit_first_error (pre rest : string) :
  (String.length pre < 15)%nat →
  str_forall is_alnum pre = true →
  match rest with String c _ => is_alnum c = false | EmptyString => True end →
  ssn_check_digit (PyStr (pre +:+ rest))
  = Raise match rest with
          | EmptyString => IndexError
          | String c _ =>
              ValueError (not_allowed_msg (String (upper_char c) EmptyString))
          end.
Proof.
  intros Hlen Hpre Hrest. destruct rest as [|c rest].
  - rewrite str_app_nil_r. by apply ssn_check_digit_short.
  - by apply ssn_check_digit_bad_char.
Qed.

Lemma ssn_check_digit_first_error_witness :
  ssn_check_digit (PyStr ("RCCMNL83S18D9" +:+ "-9H"))
  = Raise (ValueError (not_allowed_msg (String (upper_char "-") EmptyString))).
Proof.
  apply (ssn_check_digit_first_error "RCCMNL83S18D9" "-9H");
    [cbn; lia|done|done].
Defined.

Lemma ssn_scan_Raise n odd cs total e :
  ssn_scan n odd cs total = Raise e →
  e = IndexError
  ∨ ∃ c, e = ValueError (not_allowed_msg (String c EmptyString))
         ∧ is_upper_alnum c = false.
Proof.
  revert odd cs total; induction n as [|n IH]; intros odd cs total; [done|].
  destruct cs as [|c cs]; cbn; [intros [= <-]; by left|].
  destruct (char_weight odd c) as [w|] eqn:Hw; [apply IH|].
  intros [= <-]. right. exists c. split; [done|].
  destruct (is_upper_alnum c) eqn:Hc; [|done].
  apply (char_weight_Some odd) in Hc as [? ?]. congruence.
Qed.

(** An [IndexError] of the scan means fewer characters than it reads. *)
Lemma ssn_scan_IndexError n odd cs total :
  ssn_scan n odd cs total = Raise IndexError → (length cs < n)%nat.
Proof.
  revert odd cs total; induction n as [|n IH]; intros odd cs total; [done|].
  destruct cs as [|c cs]; cbn; [lia|].
  destruct (char_weight odd c) as [w|]; [|done].
  intros Hs%IH. lia.
Qed.

(** The exceptions of [ssn_check_digit] on text. *)
Lemma ssn_check_digit_Raise s e :
  ssn_check_digit (PyStr s) = Raise e →
  (e = IndexError ∧ (String.length s < 15)%nat)
  ∨ ∃ c, e = ValueError (not_allowed_msg (String c EmptyString))
         ∧ is_upper_alnum c = false.
Proof.
  rewrite ssn_check_digit_str. intros [He|(t & _ & [=])]%bind_Raise.
  destruct (ssn_scan_Raise _ _ _ _ _ He) as [->|?]; [left|by right].
  split; [done|]. apply ssn_scan_IndexError in He.
  by rewrite length_chars_upper in He.
Qed.

(** The exceptions of [ssn_check_digit] are [AttributeError] (the
    argument is not text), [IndexError] (fewer than fifteen characters) and
    the [ValueError] naming a character that is not a digit or a capital
    letter; the [KeyError] of the dictionaries never escapes. *)
Theorem ssn_check_digit_exceptions (v : pyval) (e : pyexc) :
  ssn_check_digit v = Raise e →
  (isinstance_str v = false ∧ e = AttributeError)
  ∨ e = IndexError
  ∨ ∃ c, e = ValueError (not_allowed_msg (String c EmptyString))
         ∧ is_upper_alnum c = false.
Proof.
  destruct v as [s| | |]; [rewrite ssn_check_digit_str|intros [= <-]; by left..].
  intros [He|(t & _ & [=])]%bind_Raise. right. by eapply ssn_scan_Raise.
Qed.

Lemma ssn_check_digit_exceptions_witness :
  (isinstance_str (PyInt 5) = false ∧ AttributeError = AttributeError)
  ∨ AttributeError = IndexError
  ∨ ∃ c, AttributeError = ValueError (not_allowed_msg (String c EmptyString))
         ∧ is_upper_alnum c = false.
Proof. by apply (ssn_check_digit_exceptions (PyInt 5)). Defined.

(** ** Case and suffix *)

(** Two texts are equal up to case. *)
Definition eq_upper (s t : string) : Prop := py_upper s = py_upper t.

#[export] Instance eq_upper_equiv : Equivalence eq_upper.
Proof.
  unfold eq_upper. split; [by intros ?|by intros ??|].
  intros ??? -> ->. done.
Qed.

Lemma eq_upper_upper s : eq_upper (py_upper s) s.
Proof. apply py_upper_idem. Qed.

(** The reference depends on its argument up to case only. *)
#[export] Instance ssn_check_digit_ref_proper :
  Proper (eq_upper ==> eq) ssn_check_digit_ref.
Proof. intros s t Hst. unfold ssn_check_digit_ref. by rewrite Hst. Qed.

(** The control letter does not depend on the case of the letters:
    texts that are equal once upper-cased have the same result. *)
Theorem ssn_check_digit_case (s t : string) :
  eq_upper s t → ssn_check_digit (PyStr s) = ssn_check_digit (PyStr t).
Proof. intros Hst. rewrite !ssn_check_digit_str. by rewrite Hst. Qed.

Lemma ssn_check_digit_case_witness :
  ssn_check_digit (PyStr "rccmnl83s18d969h")
  = ssn_check_digit (PyStr "RCCMNL83S18D969H").
Proof. by apply ssn_check_digit_case. Defined.

(** Only the first fifteen characters are read: what follows them does
    not change the result. *)
Lemma ssn_check_digit_prefix (s t : string) :
  String.length s = 15%nat →
  ssn_check_digit (PyStr (s +:+ t)) = ssn_check_digit (PyStr s).
Proof.
  intros Hlen. rewrite !ssn_check_digit_str. unfold ssn_check_digit_ref.
  rewrite ssn_scan_take
    by (rewrite length_chars_upper, str_app_length; lia).
  rewrite chars_py_upper, chars_app, fmap_app, take_app_length'
    by by rewrite length_fmap, chars_length.
  rewrite (ssn_scan_take _ _ (chars (py_upper s)))
    by (rewrite length_chars_upper; lia).
  by rewrite firstn_all2 by (rewrite length_chars_upper; lia);
     rewrite chars_py_upper.
Qed.

Section validation.
Context {translation : Translation}.

(** ** Theorems on [ssn_validation] *)

Lemma ssn_validation_inv (v r : pyval) :
  ssn_validation v = Ok r →
  r = v ∧ ∃ s d, v = PyStr s ∧ ssn_check_digit v = Ok d ∧ py_getitem s 15 = Ok d.
Proof.
  unfold ssn_validation.
  intros (d & Hd & (c & Hc & Hr)%bind_Ok)%bind_Ok.
  case_bool_decide as Hcd; [done|]. injection Hr as <-.
  subst c. split; [done|]. destruct v as [s| | |]; [eauto|done..].
Qed.

Lemma ssn_validation_intro (s d : string) :
  ssn_check_digit (PyStr s) = Ok d → py_getitem s 15 = Ok d →
  ssn_validation (PyStr s) = Ok (PyStr s).
Proof.
  intros Hd Hc. unfold ssn_validation. rewrite Hd. cbn. rewrite Hc. cbn.
  by rewrite bool_decide_false by (intros ?; done).
Qed.

(** C3. [ssn_validation] returns exactly when its argument is a text whose
    sixteenth character is the control letter of its first fifteen, and
    then it returns the argument unchanged. *)
Theorem ssn_validation_spec (v r : pyval) :
  ssn_validation v = Ok r
  ↔ r = v ∧ ∃ s d, v = PyStr s ∧ ssn_check_digit v = Ok d
                   ∧ py_getitem s 15 = Ok d.
Proof.
  split; [apply ssn_validation_inv|].
  intros (-> & s & d & -> & Hd & Hc). by eapply ssn_validation_intro.
Qed.

(** Round trip: a text of fifteen characters followed by its control
    letter passes [ssn_validation], which returns it unchanged. *)
Theorem ssn_validation_roundtrip (body d : string) :
  String.length body = 15%nat →
  ssn_check_digit (PyStr body) = Ok d →
  ssn_validation (PyStr (body +:+ d)) = Ok (PyStr (body +:+ d)).
Proof.
  intros Hlen Hd. apply (ssn_validation_intro _ d);
    [by rewrite ssn_check_digit_prefix|].
  destruct (ssn_check_digit_letter _ _ Hd) as (c & -> & _).
  replace 15 with (py_len body) by (unfold py_len; lia).
  apply py_getitem_app_cons.
Qed.

(** A text whose sixteenth character differs from the control letter
    of its first fifteen is rejected with the [ValueError] "Check digit does
    not match.", whatever follows. *)
Theorem ssn_validation_rejects (body d rest : string) (c : ascii) :
  String.length body = 15%nat →
  ssn_check_digit (PyStr body) = Ok d →
  String c EmptyString ≠ d →
  ssn_validation (PyStr (body +:+ String c rest))
  = Raise (ValueError ssn_check_digit_msg).
Proof.
  intros Hlen Hd Hne. unfold ssn_validation.
  rewrite ssn_check_digit_prefix, Hd by done. cbn.
  replace 15 with (py_len body) by (unfold py_len; lia).
  rewrite py_getitem_app_cons. cbn. by rewrite bool_decide_true.
Qed.

(** C38. [ssn_validation] reads sixteen characters only: a text that passes
    still passes with anything appended, so the length is not checked. *)
Theorem ssn_validation_suffix (s t : string) :
  ssn_validation (PyStr s) = Ok (PyStr s) →
  ssn_validation (PyStr (s +:+ t)) = Ok (PyStr (s +:+ t)).
Proof.
  intros (_ & s' & d & [= <-] & Hd & Hc)%ssn_validation_inv.
  destruct (py_getitem_Ok _ _ _ Hc) as (c & _ & _ & Hr).
  unfold norm_index in Hr. cbn in Hr.
  apply (ssn_validation_intro _ d); [|by rewrite py_getitem_app_l by lia].
  rewrite <- (str_take_drop 15 s), str_app_assoc.
  rewrite <- (str_take_drop 15 s) in Hd at 1.
  assert (String.length (str_take 15 s) = 15%nat) as Hl.
  { rewrite str_take_length. unfold py_len in Hr. lia. }
  by rewrite ssn_check_digit_prefix in Hd |- * by done.
Qed.

(** C30. The exceptions of [ssn_validation]: [AttributeError] for an
    argument that is not text; [IndexError] for a text of fewer than
    sixteen characters; the [ValueError] that names a character among the
    first fifteen that is not a digit or a letter; and the [ValueError] of
    a sixteenth character that is not the control letter. *)
Theorem ssn_validation_exceptions (v : pyval) (e : pyexc) :
  ssn_validation v = Raise e →
  (isinstance_str v = false ∧ e = AttributeError)
  ∨ (∃ s, v = PyStr s ∧ (String.length s < 16)%nat ∧ e = IndexError)
  ∨ (∃ c, e = ValueError (not_allowed_msg (String c EmptyString))
          ∧ is_upper_alnum c = false)
  ∨ (∃ s d, v = PyStr s ∧ ssn_check_digit v = Ok d ∧ py_getitem s 15 ≠ Ok d
            ∧ e = ValueError ssn_check_digit_msg).
Proof.
  destruct v as [s| | |]; [|intros [= <-]; by left..].
  unfold ssn_validation. cbn [py_getitem_val].
  intros [[[-> Hl]|Hc]%ssn_check_digit_Raise
         |(d & Hd & [Hc|(c & Hc & Hr)]%bind_Raise)]%bind_Raise.
  - right; left. exists s. split_and!; [done|lia|done].
  - by right; right; left.
  - right; left. exists s. rewrite (py_getitem_Raise _ _ _ Hc).
    split_and!; [done| |done].
    destruct (decide (String.length s < 16)%nat) as [|Hn]; [done|].
    destruct (lookup_lt_is_Some_2 (chars s) 15) as [c Hs];
      [rewrite chars_length; lia|].
    change 15 with (Z.of_nat 15) in Hc.
    by rewrite (py_getitem_lookup _ 15 _ Hs) in Hc.
  - do 3 right. case_bool_decide as Hne; [|done]. injection Hr as <-.
    exists s, d. split_and!; [done..| |done]. rewrite Hc. congruence.
Qed.

End validation.

(** ** Instances of the theorems *)

Lemma ssn_validation_exceptions_witness :
  (isinstance_str (PyStr "RCCMNL83S18D969") = false ∧ IndexError = AttributeError)
  ∨ (∃ s, PyStr "RCCMNL83S18D969" = PyStr s ∧ (String.length s < 16)%nat
          ∧ IndexError = IndexError)
  ∨ (∃ c, IndexError = ValueError (not_allowed_msg (String c EmptyString))
          ∧ is_upper_alnum c = false)
  ∨ (∃ s d, PyStr "RCCMNL83S18D969" = PyStr s
            ∧ ssn_check_digit (PyStr "RCCMNL83S18D969") = Ok d
            ∧ py_getitem s 15 ≠ Ok d
            ∧ IndexError = ValueError ssn_check_digit_msg).
Proof. by apply (ssn_validation_exceptions (PyStr "RCCMNL83S18D969")). Defined.


Lemma ssn_validation_roundtrip_witness :
  ssn_validation (PyStr ("RCCMNL83S18D969" +:+ "H"))
  = Ok (PyStr ("RCCMNL83S18D969" +:+ "H")).
Proof. apply ssn_validation_roundtrip; [done|by vm_compute]. Defined.

Lemma ssn_validation_rejects_witness :
  ssn_validation (PyStr ("RCCMNL83S18D969" +:+ String "X" "tail"))
  = Raise (ValueError ssn_check_digit_msg).
Proof.
  apply (ssn_validation_rejects _ "H"); [done|by vm_compute|done].
Defined.

Lemma ssn_validation_suffix_witness :
  ssn_validation (PyStr ("RCCMNL83S18D969H" +:+ "anything"))
  = Ok (PyStr ("RCCMNL83S18D969H" +:+ "anything")).
Proof. apply ssn_validation_suffix. by vm_compute. Defined.
