(* ===== verification/SsnLoop.v ===== *)
(** * The loop of [ssn_check_digit] as a machine

    The configurations that the loop over [range(0, 15)] reaches on the
    upper-cased text are characterised: after [i] iterations the characters
    read are digits or capital letters and [total] is their weighted sum,
    which is at most [25 * i]; the run from the start has one step for each
    character up to the first that is missing or is no digit nor capital
    letter, and one more when there is none ([ssn_loop_steps]), and it ends
    with the reference scan [SsnCheck.ssn_scan], which [ssn_check_digit]
    maps to the control letter. *)

From S2P Require Import Prelude Loop PyBuiltins Regex Codici Django Ssn SsnCheck.
From stdpp Require Import relations.

#[local] Open Scope Z_scope.

(** ** Definitions *)

(** The configuration in which the loop is entered: [total = 0], before
    [for i in range(0, 15)]. *)
Definition ssn_loop_start : loop_config Z Z := Iter (py_range 0 15 1) 0.

(** The invariant of the loop on the upper-cased text [ssn]: inside the
    loop, [i] characters have been read, all of them digits or capital
    letters, and [total] is their weighted sum; at the end, the result is
    the scan of fifteen characters. *)
Definition ssn_loop_inv (ssn : string) (c : loop_config Z Z) : Prop :=
  match c with
  | Iter xs total =>
      ∃ i : nat,
        (i ≤ 15)%nat ∧ (i ≤ String.length ssn)%nat
        ∧ xs = seqZ (Z.of_nat i) (15 - Z.of_nat i)
        ∧ Forall (λ c, is_upper_alnum c = true) (take i (chars ssn))
        ∧ total = weight_sum true (take i (chars ssn))
  | Done r => r = ssn_scan 15 true (chars ssn) 0
  end.

(** Whether the iteration at index [i] returns: the text has a character
    there, and it is a digit or a capital letter. *)
Definition ssn_readable (ssn : string) (i : Z) : bool :=
  match chars ssn !! Z.to_nat i with
  | Some c => is_upper_alnum c
  | None => false
  end.

(** What the iteration at index [i] adds to [total] when it returns, and
    what it raises when it does not. *)
Definition ssn_term (ssn : string) (i : Z) : Z :=
  default 0 (chars ssn !! Z.to_nat i ≫= char_weight (Nat.even (Z.to_nat i))).

Definition ssn_step_error (ssn : string) (i : Z) : pyexc :=
  match chars ssn !! Z.to_nat i with
  | Some c => ValueError (not_allowed_msg (String c EmptyString))
  | None => IndexError
  end.

(** The length of the run of the loop: one step for each index up to the
    first at which the iteration raises, that one included; sixteen when
    there is none, fifteen iterations and the step that leaves the loop. *)
Definition ssn_loop_steps (ssn : string) : nat :=
  match list_find (λ i, ssn_readable ssn i = false) (py_range 0 15 1) with
  | Some (k, _) => S k
  | None => 16
  end.

(** ** Lemmas *)

(** A split of [seqZ m n] is a split into two ranges. *)
Lemma seqZ_split (m n : Z) (zs ys : list Z) :
  0 ≤ n → seqZ m n = zs ++ ys →
  (length zs ≤ Z.to_nat n)%nat
  ∧ zs = seqZ m (Z.of_nat (length zs))
  ∧ ys = seqZ (m + Z.of_nat (length zs)) (n - Z.of_nat (length zs)).
Proof.
  intros Hn E.
  assert (length zs ≤ Z.to_nat n)%nat as Hl.
  { apply (f_equal length) in E. rewrite length_seqZ, length_app in E. lia. }
  split; [done|].
  destruct (app_inj_1 (seqZ m (Z.of_nat (length zs))) zs
              (seqZ (m + Z.of_nat (length zs)) (n - Z.of_nat (length zs))) ys)
    as [E1 E2]; [rewrite length_seqZ; lia| |done].
  rewrite <- seqZ_app, <- E by lia. f_equal; lia.
Qed.

Lemma weight_sum_range odd cs :
  0 ≤ weight_sum odd cs ≤ 25 * Z.of_nat (length cs).
Proof.
  revert odd; induction cs as [|c cs IH]; intros odd;
    cbn [weight_sum length]; [lia|].
  specialize (IH (negb odd)).
  destruct (char_weight odd c) as [w|] eqn:E; cbn;
    [apply char_weight_range in E|]; lia.
Qed.

(** The loop on the first [i] indices. *)
Lemma ssn_loop_prefix ssn (i : nat) :
  for_loop (seqZ 0 (Z.of_nat i)) (ssn_check_digit_step ssn) 0
  = ssn_scan i true (chars ssn) 0.
Proof.
  change 0 with (Z.of_nat 0) at 1. by rewrite ssn_loop_scan, drop_0.
Qed.

Lemma ssn_loop_start_fuel : loop_fuel ssn_loop_start = 16%nat.
Proof. by vm_compute. Qed.

(** The configurations that the loop reaches are those of the invariant. *)
Lemma ssn_loop_inv_iff (ssn : string) (c : loop_config Z Z) :
  rtc (loop_step (ssn_check_digit_step ssn)) ssn_loop_start c
  ↔ ssn_loop_inv ssn c.
Proof.
  unfold ssn_loop_start. rewrite py_range_unit.
  destruct c as [xs total|r]; cbn [ssn_loop_inv].
  - rewrite loop_reach_iter. split.
    + intros (zs & (Hl & Ez & ->)%seqZ_split & Hz); [|lia].
      rewrite Ez, ssn_loop_prefix in Hz.
      pose proof (ssn_scan_inv _ _ _ _ _ Hz) as [Hn Hcs].
      rewrite ssn_scan_Ok in Hz by done. injection Hz as <-.
      rewrite chars_length in Hn.
      exists (length zs). split_and!; [lia|done|f_equal; lia|done|lia].
    + intros (i & Hi & Hn & -> & Hcs & ->). exists (seqZ 0 (Z.of_nat i)).
      rewrite ssn_loop_prefix, ssn_scan_Ok by (by rewrite ?chars_length).
      split; [|f_equal; lia].
      rewrite <- seqZ_app by lia. f_equal; lia.
  - rewrite loop_reach_done. change 15 with (Z.of_nat 15) at 1.
    by rewrite Z.sub_0_r, ssn_loop_prefix.
Qed.

(** ** The length of the run *)

(** The body of the loop raises exactly at the indices that are not
    readable. *)
Lemma ssn_step_guarded ssn total (i : Z) :
  i ∈ py_range 0 15 1 →
  ssn_check_digit_step ssn total i
  = if ssn_readable ssn i then Ok (total + ssn_term ssn i)
    else Raise (ssn_step_error ssn i).
Proof.
  intros [Hi _]%elem_of_py_range; [|lia].
  unfold ssn_readable, ssn_term, ssn_step_error.
  rewrite <- (Z2Nat.id i) at 1 by lia.
  destruct (chars ssn !! Z.to_nat i) as [c|] eqn:Hc.
  - rewrite (ssn_step_inside _ _ _ _ Hc). cbn.
    destruct (is_upper_alnum c) eqn:Hu.
    + by apply (char_weight_Some (Nat.even (Z.to_nat i))) in Hu as [w ->].
    + by rewrite char_weight_None.
  - apply ssn_step_outside. apply lookup_ge_None in Hc.
    rewrite py_len_chars. lia.
Qed.

Lemma ssn_loop_steps_bound ssn : (ssn_loop_steps ssn ≤ 16)%nat.
Proof.
  unfold ssn_loop_steps.
  destruct (list_find _ _) as [[k i]|] eqn:E; [|done].
  apply list_find_Some in E as (Hk%lookup_lt_Some & _).
  change (length (py_range 0 15 1)) with 15%nat in Hk. lia.
Qed.

(** The run from the start: [ssn_loop_steps] steps to the reference scan. *)
Lemma ssn_loop_nsteps ssn :
  nsteps (loop_step (ssn_check_digit_step ssn)) (ssn_loop_steps ssn)
    ssn_loop_start (Done (ssn_scan 15 true (chars ssn) 0)).
Proof.
  pose proof (loop_nsteps_for_loop (ssn_check_digit_step ssn)
                (py_range 0 15 1) 0) as Hr.
  rewrite (loop_steps_guarded _ _ _ _ _ _ (ssn_step_guarded ssn)) in Hr.
  replace (for_loop _ _ 0) with (ssn_scan 15 true (chars ssn) 0) in Hr; [done|].
  rewrite py_range_unit. symmetry. apply (ssn_loop_prefix ssn 15).
Qed.

(** ** Theorems *)

(** C15. The configurations that the loop of [ssn_check_digit] reaches on
    the upper-cased text [ssn] are exactly those of the invariant: after [i]
    iterations the items left are [range(i, 15)], the [i] characters read
    are digits or capital letters and [total] is their weighted sum; the
    loop ends with the scan of fifteen characters. *)
Theorem ssn_loop_reachable (ssn : string) (c : loop_config Z Z) :
  rtc (loop_step (ssn_check_digit_step ssn)) ssn_loop_start c
  ↔ ssn_loop_inv ssn c.
Proof. apply ssn_loop_inv_iff. Qed.

(** Inside the loop [total] stays between 0 and 25 for each character
    read: at most 375 when the loop ends. *)
Theorem ssn_loop_total_bound (ssn : string) (xs : list Z) (total : Z) :
  rtc (loop_step (ssn_check_digit_step ssn)) ssn_loop_start (Iter xs total) →
  0 ≤ total ≤ 25 * (15 - Z.of_nat (length xs)) ∧ total ≤ 375.
Proof.
  intros (i & Hi & Hn & -> & _ & ->)%ssn_loop_inv_iff.
  pose proof (weight_sum_range true (take i (chars ssn))) as Hw.
  rewrite length_take, chars_length, length_seqZ in *. lia.
Qed.

(** C17. The loop of [ssn_check_digit] ends, and when: on the text [ssn]
    (the argument in upper case) the run from the start has
    [ssn_loop_steps ssn] steps, sixteen at most, one for each of the first
    fifteen characters up to the first that is missing or is no digit nor
    capital letter; it ends with the reference scan of the fifteen
    characters (their weighted sum, [IndexError] or the [ValueError] of the
    character), and from every configuration on the way the same end is
    reached in at most as many steps. *)
Theorem ssn_loop_live (ssn : string) (c : loop_config Z Z) :
  rtc (loop_step (ssn_check_digit_step ssn)) ssn_loop_start c →
  (ssn_loop_steps ssn ≤ 16)%nat
  ∧ nsteps (loop_step (ssn_check_digit_step ssn)) (ssn_loop_steps ssn)
      ssn_loop_start (Done (ssn_scan 15 true (chars ssn) 0))
  ∧ ∃ n : nat,
      (n ≤ ssn_loop_steps ssn)%nat
      ∧ nsteps (loop_step (ssn_check_digit_step ssn)) n c
          (Done (ssn_scan 15 true (chars ssn) 0)).
Proof.
  intros Hc. split_and!;
    [apply ssn_loop_steps_bound|apply ssn_loop_nsteps|].
  eapply nsteps_det_rest;
    [apply loop_step_det|apply ssn_loop_nsteps| |done].
  apply loop_nf_final. by eexists.
Qed.

(** ** Instances of the theorems *)

Lemma ssn_loop_total_bound_witness :
  0 ≤ 15 ≤ 25 * (15 - Z.of_nat (length (seqZ 3 12))) ∧ 15 ≤ 375.
Proof.
  apply (ssn_loop_total_bound "RCCMNL83S18D969H" (seqZ 3 12) 15).
  apply ssn_loop_inv_iff. exists 3%nat.
  split_and!; [lia|cbn; lia|done|by repeat constructor|by vm_compute].
Defined.

Lemma ssn_loop_live_witness :
  (ssn_loop_steps "RCCMNL83S18D96?H" ≤ 16)%nat
  ∧ nsteps (loop_step (ssn_check_digit_step "RCCMNL83S18D96?H"))
      (ssn_loop_steps "RCCMNL83S18D96?H") ssn_loop_start
      (Done (ssn_scan 15 true (chars "RCCMNL83S18D96?H") 0))
  ∧ ∃ n : nat,
      (n ≤ ssn_loop_steps "RCCMNL83S18D96?H")%nat
      ∧ nsteps (loop_step (ssn_check_digit_step "RCCMNL83S18D96?H")) n
          (loop_run (ssn_check_digit_step "RCCMNL83S18D96?H") 3 ssn_loop_start)
          (Done (ssn_scan 15 true (chars "RCCMNL83S18D96?H") 0)).
Proof. apply ssn_loop_live, loop_run_steps. Defined.

(** The run on a code with a character that is not allowed at index 14
    stops at the fifteenth step; on a code of sixteen characters it has
    sixteen steps, on a text of three it stops at the fourth. *)
Example ssn_loop_steps_ex :
  ssn_loop_steps "RCCMNL83S18D96?H" = 15%nat
  ∧ ssn_scan 15 true (chars "RCCMNL83S18D96?H") 0
    = Raise (ValueError "Character '?' is not allowed.")
  ∧ ssn_loop_steps "RCCMNL83S18D969H" = 16%nat
  ∧ ssn_scan 15 true (chars "RCCMNL83S18D969H") 0 = Ok 163
  ∧ ssn_loop_steps "RCC" = 4%nat
  ∧ ssn_scan 15 true (chars "RCC") 0 = Raise IndexError.
Proof. by vm_compute. Qed.
