(* ===== verification/SsnDetect.v ===== *)
(** * Which errors the control letter detects

    The control letter of [ssn_check_digit] is a sum of weights modulo 26.
    This file determines which single errors change it: the substitution of
    one character, and the exchange of two neighbours.  A digit and the
    letter of the same rank have the same two weights, so they are never
    told apart; within the digits and within the letters every substitution
    is detected, and every exchange of neighbours but that of W and Y. *)

From S2P Require Import Prelude ParitySum PyBuiltins Regex Codici Django Ssn SsnCheck.

#[local] Open Scope Z_scope.

(** ** The characters that the loop reads *)

Lemma take_app_mid {A} (n : nat) (l1 mid l2 : list A) :
  (length l1 + length mid ≤ n)%nat →
  take n (l1 ++ mid ++ l2)
  = l1 ++ mid ++ take (n - length l1 - length mid) l2.
Proof.
  intros Hn. rewrite take_app_ge by lia. f_equal. by rewrite take_app_ge by lia.
Qed.

(** The window of fifteen upper-cased characters around one character, and
    around two neighbours. *)
Section window.
Context (pre post : string).
Let pre' := upper_char <$> chars pre.
Let post' := upper_char <$> chars post.

Lemma upper1 c :
  chars (py_upper (pre +:+ String c post)) = pre' ++ upper_char c :: post'.
Proof. by rewrite chars_py_upper, chars_app, fmap_app, chars_cons, fmap_cons. Qed.

Lemma upper2 a b :
  chars (py_upper (pre +:+ String a (String b post)))
  = pre' ++ upper_char a :: upper_char b :: post'.
Proof.
  by rewrite chars_py_upper, chars_app, fmap_app, !chars_cons, !fmap_cons.
Qed.

Lemma length_pre' : length pre' = String.length pre.
Proof. unfold pre'. by rewrite length_fmap, chars_length. Qed.

Lemma window1 c :
  (String.length pre < 15)%nat →
  take 15 (chars (py_upper (pre +:+ String c post)))
  = pre' ++ [upper_char c] ++ take (15 - length pre' - 1) post'.
Proof.
  intros Hlen. rewrite upper1. apply (take_app_mid 15 pre' [_]).
  rewrite length_pre'. cbn. lia.
Qed.

Lemma window2 a b :
  (String.length pre + 2 ≤ 15)%nat →
  take 15 (chars (py_upper (pre +:+ String a (String b post))))
  = pre' ++ [upper_char a; upper_char b] ++ take (15 - length pre' - 2) post'.
Proof.
  intros Hlen. rewrite upper2. apply (take_app_mid 15 pre' [_; _]).
  rewrite length_pre'. cbn. lia.
Qed.

End window.

(** A result is the letter of the sum over the window, all of whose
    characters have a weight. *)
Lemma ssn_check_digit_window (s d : string) :
  ssn_check_digit (PyStr s) = Ok d →
  d = check_letter (weight_sum true (take 15 (chars (py_upper s))))
  ∧ Forall (λ c, is_upper_alnum c = true) (take 15 (chars (py_upper s))).
Proof.
  intros Hd. destruct (ssn_check_digit_Ok_inv _ _ Hd) as [Hl Ha].
  rewrite ssn_check_digit_value in Hd by done.
  split; [congruence|by apply take_upper_alnum].
Qed.

Lemma check_letter_eq t t' :
  check_letter t = check_letter t' ↔ t `mod` 26 = t' `mod` 26.
Proof.
  split; [apply check_letter_inj|]. unfold check_letter. by intros ->.
Qed.

(** ** Substitution of one character *)

Lemma weight_sum_subst odd pre c c' post :
  is_upper_alnum c = true → is_upper_alnum c' = true →
  is_digit c = is_digit c' → c ≠ c' →
  weight_sum odd (pre ++ c :: post) `mod` 26
  ≠ weight_sum odd (pre ++ c' :: post) `mod` 26.
Proof.
  intros Hc Hc' Hcls Hne. rewrite !weight_sum_psum, psum_subst.
  set (o := pflip odd _). unfold ssn_weight.
  apply (char_weight_Some o) in Hc as [w Hw].
  apply (char_weight_Some o) in Hc' as [w' Hw'].
  rewrite Hw, Hw'. cbn [default from_option id].
  rewrite !Z.mod_small by by eapply char_weight_range.
  intros ->. by apply Hne, (char_weight_inj o c c' w').
Qed.

(** C10. Replacing one of the first fifteen characters by a different
    character of the same kind (a digit by a digit, a letter by a letter of
    another value) always changes the control letter. *)
Theorem ssn_check_digit_detects_substitution
    (pre post : string) (c c' : ascii) (d d' : string) :
  (String.length pre < 15)%nat →
  is_digit c = is_digit c' →
  upper_char c ≠ upper_char c' →
  ssn_check_digit (PyStr (pre +:+ String c post)) = Ok d →
  ssn_check_digit (PyStr (pre +:+ String c' post)) = Ok d' →
  d ≠ d'.
Proof.
  intros Hlen Hcls Hne [-> Ha]%ssn_check_digit_window
    [-> Ha']%ssn_check_digit_window.
  rewrite window1 in Ha, Ha' by done. rewrite !window1 by done.
  apply Forall_app in Ha as [_ [Hc _]%Forall_cons].
  apply Forall_app in Ha' as [_ [Hc' _]%Forall_cons].
  rewrite check_letter_eq. cbn [app].
  apply weight_sum_subst; [done..|by rewrite !is_digit_upper_char|done].
Qed.

Lemma ssn_check_digit_detects_substitution_witness : "H" ≠ "F".
Proof.
  apply (ssn_check_digit_detects_substitution "RCCMNL83S18D96" "" "9" "8");
    [cbn; lia|done|vm_compute; discriminate|by vm_compute..].
Defined.

(** ** Characters of equal weights *)

(** The letter of the same rank as a digit: A for 0, ..., J for 9. *)
Definition digit_letter (c : ascii) : ascii := ascii_of_code (ascii_code c + 17).

(** A digit and its letter have the same weight in both tables. *)
Lemma char_weight_digit_letter odd c :
  is_digit c = true → char_weight odd (digit_letter c) = char_weight odd c.
Proof. destruct odd; revert c; intros [[] [] [] [] [] [] [] []]; by vm_compute. Qed.

(** Replacing a character by one of the same weights changes neither the
    sum nor the exception. *)
Lemma ssn_scan_same_weight n odd pre c c' post total :
  (∀ o, char_weight o c' = char_weight o c) → is_upper_alnum c = true →
  ssn_scan n odd (pre ++ c' :: post) total
  = ssn_scan n odd (pre ++ c :: post) total.
Proof.
  intros Hw Hc. revert n odd total.
  induction pre as [|x pre IH]; intros [|n] odd total; cbn; try done.
  - rewrite Hw. by destruct (char_weight_Some odd c) as [_ [w ->]].
  - destruct (char_weight odd x); [apply IH|done].
Qed.

(** ** Exchange of two neighbours *)

(** The difference of the two weights of a character, modulo 26. *)
Definition swap_delta (c : ascii) : Z :=
  (default 0 (char_weight true c) - default 0 (char_weight false c)) `mod` 26.

Definition upper_letters : list ascii := ascii_of_code <$> seqZ 65 26.
Definition digit_chars : list ascii := ascii_of_code <$> seqZ 48 10.

Lemma elem_of_upper_letters c : is_upper c = true → c ∈ upper_letters.
Proof.
  intros Hc%is_upper_spec. apply list_elem_of_fmap. exists (ascii_code c).
  split; [by rewrite ascii_of_code_code|apply elem_of_seqZ; lia].
Qed.

Lemma elem_of_digit_chars c : is_digit c = true → c ∈ digit_chars.
Proof.
  intros Hc%is_digit_spec. apply list_elem_of_fmap. exists (ascii_code c).
  split; [by rewrite ascii_of_code_code|apply elem_of_seqZ; lia].
Qed.

(** Exchanging [a] and [b] is invisible to the sum. *)
Definition swap_blind (a b : ascii) : Prop := swap_delta a = swap_delta b.

#[export] Instance swap_blind_dec a b : Decision (swap_blind a b).
Proof. unfold swap_blind. apply _. Defined.

(** Among the letters only W and Y, among the digits none. *)
Lemma swap_blind_letters a b :
  is_upper a = true → is_upper b = true → swap_blind a b →
  a = b ∨ (a = "W" ∧ b = "Y")%char ∨ (a = "Y" ∧ b = "W")%char.
Proof.
  intros Ha%elem_of_upper_letters Hb%elem_of_upper_letters.
  revert b Hb. refine (proj1 (Forall_forall _ _) _).
  revert a Ha. refine (proj1 (Forall_forall _ _) _).
  apply (bool_decide_unpack _). by vm_compute.
Qed.

Lemma swap_blind_digits a b :
  is_digit a = true → is_digit b = true → swap_blind a b → a = b.
Proof.
  intros Ha%elem_of_digit_chars Hb%elem_of_digit_chars.
  revert b Hb. refine (proj1 (Forall_forall _ _) _).
  revert a Ha. refine (proj1 (Forall_forall _ _) _).
  apply (bool_decide_unpack _). by vm_compute.
Qed.

Lemma weight_sum_swap odd pre a b post :
  is_upper_alnum a = true → is_upper_alnum b = true →
  weight_sum odd (pre ++ a :: b :: post) `mod` 26
  = weight_sum odd (pre ++ b :: a :: post) `mod` 26
  ↔ swap_blind a b.
Proof.
  intros _ _. rewrite !weight_sum_psum, psum_swap.
  unfold swap_blind, swap_delta, ssn_weight.
  destruct (pflip odd _); cbn [negb]; [done|].
  generalize (default 0 (char_weight true a)), (default 0 (char_weight false a)),
    (default 0 (char_weight true b)), (default 0 (char_weight false b)).
  intros. split; intros H; Z.div_mod_to_equations; lia.
Qed.

(** The same, for a pair whose weights are equal as numbers: the scan
    itself, exceptions included, does not see the exchange. *)
Lemma ssn_scan_swap n odd pre a b post total :
  (length pre + 2 ≤ n)%nat →
  is_upper_alnum a = true → is_upper_alnum b = true →
  (∀ o, char_weight o a = char_weight (negb o) a) →
  (∀ o, char_weight o b = char_weight (negb o) b) →
  ssn_scan n odd (pre ++ a :: b :: post) total
  = ssn_scan n odd (pre ++ b :: a :: post) total.
Proof.
  intros Hn Ua Ub Ha Hb. revert n odd total Hn.
  induction pre as [|x pre IH]; intros n odd total Hn.
  - destruct n as [|[|n]]; [cbn in Hn; lia..|]. cbn.
    rewrite (Ha odd), (Hb odd).
    destruct (proj2 (char_weight_Some (negb odd) a) Ua) as [wa ->].
    destruct (proj2 (char_weight_Some (negb odd) b) Ub) as [wb ->].
    f_equal. lia.
  - destruct n as [|n]; [cbn in Hn; lia|]. cbn.
    destruct (char_weight odd x); [|done]. apply IH. cbn in Hn. lia.
Qed.

(** ** Theorems on the exchange of neighbours *)

(** Two neighbours among the first fifteen characters can be exchanged
    without changing the control letter exactly when the differences of
    their two weights agree modulo 26. *)
Lemma ssn_check_digit_swap_blind
    (pre post : string) (a b : ascii) (d d' : string) :
  (String.length pre + 2 ≤ 15)%nat →
  ssn_check_digit (PyStr (pre +:+ String a (String b post))) = Ok d →
  ssn_check_digit (PyStr (pre +:+ String b (String a post))) = Ok d' →
  d = d' ↔ swap_blind (upper_char a) (upper_char b).
Proof.
  intros Hlen [-> Ha]%ssn_check_digit_window [-> _]%ssn_check_digit_window.
  rewrite window2 in Ha by done. rewrite !window2 by done.
  apply Forall_app in Ha as [_ [Ua [Ub _]%Forall_cons]%Forall_cons].
  rewrite check_letter_eq. cbn [app]. by apply weight_sum_swap.
Qed.

(** Among characters of the same kind, only equal ones and the letters W
    and Y can be exchanged. *)
Lemma swap_blind_same_kind a b :
  is_upper_alnum a = true → is_upper_alnum b = true →
  is_digit a = is_digit b →
  swap_blind a b
  ↔ a = b ∨ (a = "W" ∧ b = "Y")%char ∨ (a = "Y" ∧ b = "W")%char.
Proof.
  intros Ua Ub Hk. split.
  - unfold is_upper_alnum in Ua, Ub.
    destruct (is_digit a) eqn:Da; rewrite <- Hk in Ub; cbn in Ua, Ub;
      [left; by apply swap_blind_digits|by apply swap_blind_letters].
  - intros [->|[[-> ->]|[-> ->]]]; [done|by vm_compute..].
Qed.

(** C35. Error detection: exchanging two neighbours of the same kind (two
    digits, or two letters) among the first fifteen characters leaves the
    control letter as it is exactly when the two are equal or are the
    letters W and Y: every other such exchange is detected, and the
    exchange of a neighbouring W and Y never is. *)
Theorem ssn_check_digit_transposition
    (pre post : string) (a b : ascii) (d d' : string) :
  (String.length pre + 2 ≤ 15)%nat →
  is_digit a = is_digit b →
  ssn_check_digit (PyStr (pre +:+ String a (String b post))) = Ok d →
  ssn_check_digit (PyStr (pre +:+ String b (String a post))) = Ok d' →
  d = d'
  ↔ upper_char a = upper_char b
    ∨ (upper_char a = "W" ∧ upper_char b = "Y")%char
    ∨ (upper_char a = "Y" ∧ upper_char b = "W")%char.
Proof.
  intros Hlen Hk Hd Hd'.
  rewrite (ssn_check_digit_swap_blind pre post a b d d') by done.
  apply ssn_check_digit_window in Hd as [_ Ha].
  rewrite window2 in Ha by done.
  apply Forall_app in Ha as [_ [Ua [Ub _]%Forall_cons]%Forall_cons].
  apply swap_blind_same_kind; [done..|by rewrite !is_digit_upper_char].
Qed.

Lemma ssn_check_digit_transposition_witness :
  "H"%string = "E"%string
  ↔ upper_char "9" = upper_char "6"
    ∨ (upper_char "9" = "W" ∧ upper_char "6" = "Y")%char
    ∨ (upper_char "9" = "Y" ∧ upper_char "6" = "W")%char.
Proof.
  apply (ssn_check_digit_transposition "RCCMNL83S18D" "9H" "9" "6");
    [cbn; lia|by vm_compute..].
Defined.

(** The exchange of a neighbouring W and Y among the first fifteen
    characters is not detected: result and exception are the same. *)
Theorem ssn_check_digit_misses_WY (pre post : string) :
  (String.length pre + 2 ≤ 15)%nat →
  ssn_check_digit (PyStr (pre +:+ String "W" (String "Y" post)))
  = ssn_check_digit (PyStr (pre +:+ String "Y" (String "W" post))).
Proof.
  intros Hlen. rewrite !ssn_check_digit_str. unfold ssn_check_digit_ref.
  rewrite !upper2. change (upper_char "W") with "W"%char.
  change (upper_char "Y") with "Y"%char.
  rewrite (ssn_scan_swap 15 true _ "W" "Y");
    [done|rewrite length_pre'; lia|done..|by intros []|by intros []].
Qed.

Lemma ssn_check_digit_misses_WY_witness :
  ssn_check_digit (PyStr ("BNC" +:+ String "W" (String "Y" "N80A01H501")))
  = ssn_check_digit (PyStr ("BNC" +:+ String "Y" (String "W" "N80A01H501"))).
Proof. apply ssn_check_digit_misses_WY. cbn. lia. Defined.

(** A digit and the letter of the same rank (0 and A, ..., 9 and J) have
    the same weights: replacing one by the other anywhere changes neither
    the control letter nor the exception. *)
Lemma ssn_check_digit_digit_letter (pre post : string) (c : ascii) :
  is_digit c = true →
  ssn_check_digit (PyStr (pre +:+ String (digit_letter c) post))
  = ssn_check_digit (PyStr (pre +:+ String c post)).
Proof.
  intros Hc. rewrite !ssn_check_digit_str. unfold ssn_check_digit_ref.
  rewrite !upper1.
  assert (upper_char (digit_letter c) = digit_letter c ∧ upper_char c = c)
    as [-> ->] by (revert c Hc; intros [[] [] [] [] [] [] [] []]; by vm_compute).
  rewrite (ssn_scan_same_weight 15 true _ c (digit_letter c)); [done| |].
  - intros o. by apply char_weight_digit_letter.
  - unfold is_upper_alnum. by rewrite Hc.
Qed.

Lemma ssn_check_digit_digit_letter_witness :
  ssn_check_digit (PyStr ("RCCMNL" +:+ String (digit_letter "8") "3S18D969H"))
  = ssn_check_digit (PyStr ("RCCMNL" +:+ String "8" "3S18D969H")).
Proof. by apply ssn_check_digit_digit_letter. Defined.
