(* ===== verification/SsnValid.v ===== *)
(** * Syntax and control letter together

    [ssn_isvalid] and [ssn_validation] are independent checks in [util.py].
    This file relates them: on a text that passes the syntax check the
    control letter is always computed, so [ssn_validation] either returns the
    code or raises the check-digit error, and every fifteen-character body of
    the fiscal shape has exactly one control letter.  The two checks
    together do not tell apart two codes that differ in the character at 13,
    where [PATTERN] admits a digit and the letter of the same weights. *)

From S2P Require Import Prelude PyBuiltins Regex Codici Django Ssn SsnSyntax SsnCheck SsnDetect.

#[local] Open Scope Z_scope.

(** ** The characters of a code of the fiscal shape *)

Lemma is_month_upper c : is_month c = true → is_upper c = true.
Proof.
  destruct c as [[] [] [] [] [] [] [] []]; intros Hc; vm_compute in Hc;
    try discriminate Hc; by vm_compute.
Qed.

Lemma is_upper_alnum_alnum c : is_upper_alnum c = true → is_alnum c = true.
Proof. unfold is_alnum. by intros ->. Qed.

Lemma shape_class_alnum p c :
  p ∈ shape_classes → p c = true → is_upper_alnum c = true.
Proof.
  unfold shape_classes, is_upper_alnum. cbn [replicate app]. intros Hp Hc.
  repeat (apply elem_of_cons in Hp as [->|Hp]);
    rewrite ?(is_month_upper c Hc), ?Hc, ?orb_true_r; try done.
  by apply elem_of_nil in Hp.
Qed.

(** Every character matched by a shape is in one of its classes. *)
Lemma shape_match_forall ps s k (Q : ascii → bool) :
  (∀ p c, p ∈ ps → p c = true → Q c = true) →
  shape_match ps s k = true →
  Forall (λ c, Q c = true) (take (length ps) (chars s)).
Proof.
  revert s; induction ps as [|p ps IH]; intros s HQ Hm; [by rewrite take_0|].
  destruct s as [|c s]; [done|]. cbn in Hm |- *.
  apply andb_true_iff in Hm as [Hp Hm]. constructor.
  - apply (HQ p); [by left|done].
  - apply IH; [|done]. intros q d Hq. apply HQ. by right.
Qed.

Section valid.
Context (s : string) (Hs : fiscal_shape s = true).

Lemma shape_upper_alnum :
  Forall (λ c, is_upper_alnum c = true) (take 16 (chars s)).
Proof. apply (shape_match_forall shape_classes s at_eol), Hs. apply shape_class_alnum. Qed.

Lemma shape_check_digit_args :
  (15 ≤ String.length s)%nat ∧ str_forall is_alnum (str_take 15 s) = true.
Proof.
  split; [destruct (fiscal_shape_length s Hs) as [?|[? _]]; lia|].
  apply str_forall_Forall. rewrite chars_take.
  replace 15%nat with (15 `min` 16)%nat by done. rewrite <- take_take.
  apply Forall_take. eapply Forall_impl; [apply shape_upper_alnum|].
  intros c. apply is_upper_alnum_alnum.
Qed.

End valid.

(** ** Shapes and concatenation *)

Lemma shape_match_app_classes ps qs s t k :
  String.length s = length ps →
  shape_match (ps ++ qs) (s +:+ t) k = shape_match ps s (λ _, shape_match qs t k).
Proof.
  revert s; induction ps as [|p ps IH]; intros [|c s] Hlen; try done.
  rewrite str_app_cons. cbn. rewrite IH; [done|]. cbn in Hlen; lia.
Qed.

Lemma shape_match_const ps s (b b' : bool) :
  shape_match ps s (λ _, b) = true → b' = true →
  shape_match ps s (λ _, b') = true.
Proof.
  revert s; induction ps as [|p ps IH]; intros s Hm Hb; [done|].
  destruct s as [|c s]; [done|]. cbn in *.
  apply andb_true_iff in Hm as [-> Hm]. by apply IH.
Qed.

(** The shape of fifteen characters followed by one more. *)
Lemma fiscal_shape_snoc body x :
  String.length body = 15%nat →
  fiscal_shape (body +:+ String x EmptyString)
  = shape_match (take 15 shape_classes) body (λ _, is_upper x && true).
Proof.
  intros Hlen. unfold fiscal_shape.
  change shape_classes with (take 15 shape_classes ++ [is_upper]) at 1.
  by rewrite shape_match_app_classes.
Qed.

(** The character at 13 is a digit or a letter: the shape of a code does
    not change when one is put for the other. *)
Lemma fiscal_shape_subst_13 pre c c' post :
  String.length pre = 13%nat →
  is_upper_alnum c = true → is_upper_alnum c' = true →
  fiscal_shape (pre +:+ String c' post) = fiscal_shape (pre +:+ String c post).
Proof.
  intros Hl Hc Hc'. unfold fiscal_shape.
  change shape_classes
    with (take 13 shape_classes ++ [is_upper_alnum; is_digit; is_upper]).
  rewrite !shape_match_app_classes by done. cbn [shape_match].
  by rewrite Hc, Hc'.
Qed.

Lemma digit_letter_upper c :
  is_digit c = true → is_upper (digit_letter c) = true ∧ digit_letter c ≠ c.
Proof. revert c; intros [[] [] [] [] [] [] [] []]; by vm_compute. Qed.

Section theorems.
Context {translation : Translation}.

(** ** Theorems *)

(** C12. On a value that passes the syntax check, [ssn_validation] raises
    neither [IndexError] nor the [ValueError] of a character that is not
    allowed: it returns the code, or raises the check-digit error. *)
Theorem ssn_validation_on_valid (v : pyval) :
  ssn_isvalid v = Ok true →
  ssn_validation v = Ok v
  ∨ ssn_validation v = Raise (ValueError ssn_check_digit_msg).
Proof.
  destruct v as [s| | |]; [rewrite ssn_isvalid_str; intros [= Hs]|done..].
  destruct (shape_check_digit_args s Hs) as [Hlen Hal].
  destruct (shape_match_lookup _ _ _ 15 is_upper Hs) as (c & Hc & _); [done|].
  unfold ssn_validation. rewrite ssn_check_digit_value by done.
  cbn [mbind result_bind py_getitem_val].
  change 15 with (Z.of_nat 15).
  rewrite (py_getitem_lookup s 15 c Hc). simpl_result.
  case_bool_decide; auto.
Qed.

(** C23. Completion: for fifteen characters that begin a code of the fiscal
    shape, [ssn_check_digit] returns a letter, and the fifteen characters
    followed by that letter pass both [ssn_isvalid] and [ssn_validation]. *)
Theorem ssn_valid_completion (body : string) (x : ascii) :
  String.length body = 15%nat →
  ssn_isvalid (PyStr (body +:+ String x EmptyString)) = Ok true →
  ∃ d, ssn_check_digit (PyStr body) = Ok (String d EmptyString)
       ∧ ssn_isvalid (PyStr (body +:+ String d EmptyString)) = Ok true
       ∧ ssn_validation (PyStr (body +:+ String d EmptyString))
         = Ok (PyStr (body +:+ String d EmptyString)).
Proof.
  intros Hlen. rewrite ssn_isvalid_str. intros [= Hs].
  destruct (shape_check_digit_args _ Hs) as [Hl Hal].
  pose proof (ssn_check_digit_value _ Hl Hal) as Hd.
  rewrite ssn_check_digit_prefix in Hd by done.
  destruct (ssn_check_digit_letter _ _ Hd) as (d & Heq & Hup).
  rewrite Heq in Hd. exists d. split; [done|]. split.
  - rewrite ssn_isvalid_str, fiscal_shape_snoc by done. f_equal.
    rewrite fiscal_shape_snoc in Hs by done.
    apply (shape_match_const _ _ _ _ Hs). by rewrite Hup.
  - apply (ssn_validation_intro _ (String d EmptyString));
      [by rewrite ssn_check_digit_prefix|].
    replace 15 with (py_len body) by (unfold py_len; lia).
    apply py_getitem_app_cons.
Qed.

(** C24. Two accepted codes one character apart.  In a code that passes both
    checks with a digit at 13, the letter of the same rank (A for 0, ..., J
    for 9) can be put for the digit: the code still passes both checks,
    because [PATTERN] admits a letter there and the two characters have
    the same weights. *)
Theorem ssn_valid_digit_letter (pre post : string) (c : ascii) :
  String.length pre = 13%nat → is_digit c = true →
  ssn_isvalid (PyStr (pre +:+ String c post)) = Ok true →
  ssn_validation (PyStr (pre +:+ String c post))
  = Ok (PyStr (pre +:+ String c post)) →
  digit_letter c ≠ c
  ∧ ssn_isvalid (PyStr (pre +:+ String (digit_letter c) post)) = Ok true
  ∧ ssn_validation (PyStr (pre +:+ String (digit_letter c) post))
    = Ok (PyStr (pre +:+ String (digit_letter c) post)).
Proof.
  intros Hl Hc Hs (_ & s & d & [= <-] & Hd & Hg)%ssn_validation_inv.
  destruct (digit_letter_upper c Hc) as [Hu Hne].
  split_and!; [done| |].
  - rewrite ssn_isvalid_str, <- Hs, ssn_isvalid_str. f_equal.
    apply fiscal_shape_subst_13; [done|unfold is_upper_alnum..];
      by rewrite ?Hc, ?Hu, ?orb_true_r.
  - apply (ssn_validation_intro _ d);
      [by rewrite ssn_check_digit_digit_letter|].
    rewrite <- Hg. change 15 with (Z.of_nat 15).
    apply py_getitem_subst. lia.
Qed.

End theorems.

(** ** Instances of the theorems *)

Lemma ssn_validation_on_valid_witness :
  ssn_validation (PyStr "RCCMNL83S18D969X") = Ok (PyStr "RCCMNL83S18D969X")
  ∨ ssn_validation (PyStr "RCCMNL83S18D969X")
    = Raise (ValueError ssn_check_digit_msg).
Proof. by apply ssn_validation_on_valid. Defined.

Lemma ssn_valid_digit_letter_witness :
  digit_letter "6" ≠ "6"%char
  ∧ ssn_isvalid (PyStr "RCCMNL83S18D9G9H") = Ok true
  ∧ ssn_validation (PyStr "RCCMNL83S18D9G9H") = Ok (PyStr "RCCMNL83S18D9G9H").
Proof. by apply (ssn_valid_digit_letter "RCCMNL83S18D9" "9H" "6"). Defined.

Lemma ssn_valid_completion_witness :
  ∃ d, ssn_check_digit (PyStr "RCCMNL83S18D969") = Ok (String d EmptyString)
       ∧ ssn_isvalid (PyStr ("RCCMNL83S18D969" +:+ String d EmptyString)) = Ok true
       ∧ ssn_validation (PyStr ("RCCMNL83S18D969" +:+ String d EmptyString))
         = Ok (PyStr ("RCCMNL83S18D969" +:+ String d EmptyString)).
Proof. by apply (ssn_valid_completion "RCCMNL83S18D969" "X"). Defined.
