(* ===== verification/SsnDecode.v ===== *)
(** * The decoders of the fiscal code: [ssn_get_birthday],
    [ssn_get_municipality] and [ssn_get_sex]

    The fields of a code of the fiscal shape are defined on its characters
    ([year_field], [month_field], [day_field], [cadastral_field], and
    [municipality_key], the four characters that are looked up in the
    table).  Each decoder is first shown to read its own field and nothing
    else, once its assertion has been passed or skipped ([day_readable],
    [date_readable]).  A call is [checked] when the [assert] statements are
    executed or the argument is one that [ssn_isvalid] accepts: on a checked
    call the decoders raise [AssertionError] outside the fiscal shape, and
    return the text built from the fields inside it.  What they do on calls
    that are not checked is in [SsnUnchecked]. *)

From S2P Require Import Prelude PyBuiltins PyDecimal Regex Codici Django Ssn SsnSyntax.
From stdpp Require Import gmap.

#[local] Open Scope Z_scope.

(** ** The fields *)

(** The character at index [i], for indices inside the text. *)
Definition char_at (s : string) (i : nat) : ascii :=
  default "0"%char (chars s !! i).

(** The number written by the two characters at [i] and [i + 1]. *)
Definition two_digits (s : string) (i : nat) : Z :=
  10 * digit_val (char_at s i) + digit_val (char_at s (S i)).

Definition year_field (s : string) : Z := two_digits s 6.
Definition day_field (s : string) : Z := two_digits s 9.

(** The month of a month letter, from 1; 0 for any other character. *)
Definition month_of (c : ascii) : Z :=
  match list_find (λ y, y = c) month_letters with
  | Some (i, _) => Z.of_nat i + 1
  | None => 0
  end.

Definition month_field (s : string) : Z := month_of (char_at s 8).

(** The four characters that name the place of birth. *)
Definition cadastral_field (s : string) : string := py_slice s 11 15.

(** The day as [ssn_get_birthday] prints it. *)
Definition printed_day (day : Z) : Z :=
  if (day <? 32) && negb (day =? 0) then day else day - 40.

(** ** Reading two digits of a text *)

Lemma char_at_lookup s (i : nat) :
  (i < String.length s)%nat → chars s !! i = Some (char_at s i).
Proof.
  intros Hi. unfold char_at.
  destruct (lookup_lt_is_Some_2 (chars s) i) as [c ->]; [|done].
  by rewrite chars_length.
Qed.

(** A slice of two characters inside the text. *)
Lemma py_slice_two s (i : nat) :
  (i + 2 ≤ String.length s)%nat →
  py_slice s (Z.of_nat i) (Z.of_nat (i + 2))
  = String (char_at s i) (String (char_at s (S i)) EmptyString).
Proof.
  intros Hi. apply chars_inj.
  rewrite chars_py_slice_in by (rewrite chars_length; lia).
  replace (i + 2 - i)%nat with 2%nat by lia.
  by rewrite (drop_S _ (char_at s i) i), (drop_S _ (char_at s (S i)) (S i))
    by (apply char_at_lookup; lia).
Qed.

(** [int()] of two digits of the text. *)
Lemma py_int_two_digits s (i : nat) :
  (i + 2 ≤ String.length s)%nat →
  is_digit (char_at s i) = true → is_digit (char_at s (S i)) = true →
  py_int (PyStr (py_slice s (Z.of_nat i) (Z.of_nat (i + 2))))
  = Ok (two_digits s i).
Proof.
  intros Hi Ha Hb. rewrite py_slice_two by done. cbn [py_int].
  rewrite <- (digit_char_digit_val (char_at s i)) at 1 by done.
  rewrite <- (digit_char_digit_val (char_at s (S i))) at 1 by done.
  apply (py_int_str_digits [_; _]); [|done].
  repeat constructor; by apply digit_val_range.
Qed.

(** ** Reading a code of the fiscal shape *)

Section shape.
Context (s : string) (Hs : fiscal_shape s = true).

Lemma shape_char (i : nat) p :
  shape_classes !! i = Some p → chars s !! i = Some (char_at s i) ∧ p (char_at s i) = true.
Proof.
  intros Hp. destruct (shape_match_lookup _ _ _ _ _ Hs Hp) as (c & Hc & Hpc).
  unfold char_at. by rewrite Hc.
Qed.

End shape.

(** [MONTHSCODE.index] on a month letter. *)
Lemma month_index c :
  is_month c = true →
  py_list_index MONTHSCODE (String c EmptyString) = Ok (month_of c - 1)
  ∧ 1 ≤ month_of c ≤ 12.
Proof.
  destruct c as [[] [] [] [] [] [] [] []]; intros Hc; vm_compute in Hc;
    try discriminate Hc; by vm_compute.
Qed.

(** ["%02d"] on a number of at most two digits. *)
Lemma py_format_02d_fits n : 0 ≤ n ≤ 99 → py_format_02d n = zpad 2 n.
Proof. intros Hn. apply (py_zfill_str_fits 2); lia. Qed.

(** [day < 32 and day or day - 40] *)
Lemma py_and_or_day day :
  py_and_or truthy_int (day <? 32) day (day - 40) = printed_day day.
Proof.
  unfold py_and_or, printed_day, truthy_int.
  by destruct (day <? 32), (day =? 0).
Qed.

Lemma printed_day_male day : 1 ≤ day ≤ 31 → printed_day day = day.
Proof.
  intros Hd. unfold printed_day.
  destruct (Z.ltb_spec day 32), (Z.eqb_spec day 0); cbn; lia.
Qed.

Lemma printed_day_female day : 32 ≤ day → printed_day day = day - 40.
Proof. intros Hd. unfold printed_day. by destruct (Z.ltb_spec day 32); [lia|]. Qed.

(** ** The decoders on the fields they read *)

(** The texts in which the day can be read: two digits at 9 and 10. *)
Definition day_readable (s : string) : bool :=
  bool_decide (11 ≤ String.length s)%nat
  && is_digit (char_at s 9) && is_digit (char_at s 10).

(** The texts in which the date can be read: two digits at 6 and 7 and a
    month letter at 8 as well. *)
Definition date_readable (s : string) : bool :=
  day_readable s && is_digit (char_at s 6) && is_digit (char_at s 7)
  && is_month (char_at s 8).

Lemma day_readable_spec s :
  day_readable s = true
  ↔ (11 ≤ String.length s)%nat
    ∧ is_digit (char_at s 9) = true ∧ is_digit (char_at s 10) = true.
Proof.
  unfold day_readable. rewrite !andb_true_iff, bool_decide_eq_true. tauto.
Qed.

Lemma date_readable_spec s :
  date_readable s = true
  ↔ day_readable s = true
    ∧ is_digit (char_at s 6) = true ∧ is_digit (char_at s 7) = true
    ∧ is_month (char_at s 8) = true.
Proof. unfold date_readable. rewrite !andb_true_iff. tauto. Qed.

Lemma fiscal_shape_readable s : fiscal_shape s = true → date_readable s = true.
Proof.
  intros Hs. apply date_readable_spec. rewrite day_readable_spec.
  assert (11 ≤ String.length s)%nat
    by (destruct (fiscal_shape_length s Hs) as [->|[-> _]]; lia).
  split_and!; [done|by apply (shape_char s Hs _ is_digit)..|].
  by apply (shape_char s Hs 8 is_month).
Qed.

Lemma day_readable_int s :
  day_readable s = true → py_int (PyStr (py_slice s 9 11)) = Ok (day_field s).
Proof.
  intros (Hl & Ha & Hb)%day_readable_spec.
  by apply (py_int_two_digits s 9); [lia|..].
Qed.

Lemma date_readable_year s :
  date_readable s = true →
  py_int (PyStr (py_slice s 6 8)) = Ok (year_field s)
  ∧ 0 ≤ year_field s ≤ 99.
Proof.
  intros ((Hl & _)%day_readable_spec & H6 & H7 & _)%date_readable_spec.
  split; [by apply (py_int_two_digits s 6); [lia|..]|].
  apply digit_val_range in H6, H7. unfold year_field, two_digits. lia.
Qed.

Lemma date_readable_month s :
  date_readable s = true →
  py_getitem s 8 = Ok (String (char_at s 8) EmptyString).
Proof.
  intros ((Hl & _)%day_readable_spec & _)%date_readable_spec.
  apply (py_getitem_lookup s 8), char_at_lookup. lia.
Qed.

(** The decoders after their assertion: each reads its own field and
    nothing else of the text. *)
Section fields.
Context {interp : Interpreter} (s : string).
Context (Ha : py_assert_stmt (ssn_isvalid (PyStr s)) = Ok ()).

Lemma ssn_get_sex_fields :
  day_readable s = true →
  ssn_get_sex (PyStr s)
  = Ok (if day_field s <? 32 then "M"%string else "F"%string).
Proof.
  intros Hd. unfold ssn_get_sex. rewrite Ha.
  cbn [mbind result_bind py_slice_val].
  rewrite day_readable_int by done. simpl_result.
  by destruct (day_field s <? 32).
Qed.

Lemma ssn_get_birthday_fields :
  date_readable s = true →
  ssn_get_birthday (PyStr s)
  = Ok (py_format_02d (printed_day (day_field s)) +:+ "/"
        +:+ zpad 2 (month_field s) +:+ "/" +:+ zpad 2 (year_field s)).
Proof.
  intros (Hd & H6 & H7 & Hm)%date_readable_spec.
  pose proof Hd as (Hl & _)%day_readable_spec.
  unfold ssn_get_birthday. rewrite Ha.
  cbn [mbind result_bind py_slice_val py_getitem_val].
  rewrite day_readable_int by done. simpl_result.
  rewrite (date_readable_month s) by (apply date_readable_spec; eauto).
  simpl_result.
  destruct (month_index _ Hm) as [-> Hr]. simpl_result.
  destruct (date_readable_year s) as [-> Hy];
    [apply date_readable_spec; eauto|]. simpl_result.
  rewrite py_and_or_day.
  rewrite (py_format_02d_fits (month_of _ - 1 + 1)) by lia.
  rewrite (py_format_02d_fits (year_field s)) by done.
  unfold month_field.
  by replace (month_of (char_at s 8) - 1 + 1) with (month_of (char_at s 8)) by lia.
Qed.

End fields.

(** ** The decoders on a code of the fiscal shape *)

Section decoders.
Context {interp : Interpreter} (s : string) (Hs : fiscal_shape s = true).

Lemma shape_assert : py_assert_stmt (ssn_isvalid (PyStr s)) = Ok ().
Proof. rewrite ssn_isvalid_str, Hs. apply py_assert_stmt_holds. by right. Qed.

Lemma ssn_get_sex_shape :
  ssn_get_sex (PyStr s) = Ok (if day_field s <? 32 then "M"%string else "F"%string).
Proof.
  apply ssn_get_sex_fields; [apply shape_assert|].
  by apply date_readable_spec, fiscal_shape_readable.
Qed.

Lemma ssn_get_birthday_shape :
  ssn_get_birthday (PyStr s)
  = Ok (py_format_02d (printed_day (day_field s)) +:+ "/"
        +:+ zpad 2 (month_field s) +:+ "/" +:+ zpad 2 (year_field s)).
Proof.
  apply ssn_get_birthday_fields;
    [apply shape_assert|by apply fiscal_shape_readable].
Qed.

End decoders.

(** The values outside the fiscal shape. *)
Definition not_valid (v : pyval) : Prop :=
  match v with PyStr s => fiscal_shape s = false | _ => True end.

Lemma not_valid_isvalid v : not_valid v ↔ ssn_isvalid v = Ok false.
Proof.
  destruct v as [s| | |]; cbn [not_valid]; [rewrite ssn_isvalid_str|done..].
  split; [by intros ->|by intros [= ->]].
Qed.

Lemma valid_or_not (v : pyval) :
  (∃ s, v = PyStr s ∧ fiscal_shape s = true) ∨ not_valid v.
Proof.
  destruct v as [s| | |]; cbn; [|by right..].
  destruct (fiscal_shape s) eqn:Hs; [left; by exists s|by right].
Qed.

(** ** The contract of the decoders *)

Section contract.
Context {interp : Interpreter}.

(** A call is checked when the [assert] statements are executed or the
    argument is one that [ssn_isvalid] accepts: the theorems on the
    decoders are stated for checked calls. *)
Definition checked (v : pyval) : Prop :=
  py_debug = true ∨ ssn_isvalid v = Ok true.

Lemma checked_cases (v : pyval) :
  checked v →
  (∃ s, v = PyStr s ∧ fiscal_shape s = true)
  ∨ (py_debug = true ∧ not_valid v).
Proof.
  intros Hc. destruct (valid_or_not v) as [?|Hv]; [by left|right].
  destruct Hc as [?|Hc]; [done|].
  apply not_valid_isvalid in Hv. congruence.
Qed.

(** Outside the fiscal shape the assertion fails, when it is executed. *)
Lemma ssn_decode_invalid (v : pyval) :
  py_debug = true → not_valid v →
  ssn_get_birthday v = Raise AssertionError
  ∧ ssn_get_sex v = Raise AssertionError.
Proof.
  intros Hd Hv%not_valid_isvalid. unfold ssn_get_birthday, ssn_get_sex.
  by rewrite Hv, py_assert_stmt_fails.
Qed.

Lemma not_valid_match {A} (v : pyval) (f : string → result A) :
  not_valid v →
  match v with
  | PyStr s => if fiscal_shape s then f s else Raise AssertionError
  | _ => Raise AssertionError
  end = Raise AssertionError.
Proof. destruct v as [s| | |]; cbn; [by intros ->|done..]. Qed.

(** ** Theorems on the decoders *)

(** C27. [ssn_get_sex] on a checked call: on a text of the fiscal shape,
    "M" when the number written at positions 9 and 10 is below 32 and "F"
    otherwise; on anything else, [AssertionError]. *)
Theorem ssn_get_sex_spec (v : pyval) :
  checked v →
  ssn_get_sex v
  = match v with
    | PyStr s =>
        if fiscal_shape s
        then Ok (if day_field s <? 32 then "M"%string else "F"%string)
        else Raise AssertionError
    | _ => Raise AssertionError
    end.
Proof.
  intros [(s & -> & Hs)|[Hd Hv]]%checked_cases.
  - by rewrite ssn_get_sex_shape, Hs.
  - destruct (ssn_decode_invalid v Hd Hv) as [_ ->].
    by rewrite not_valid_match.
Qed.

(** Every result of [ssn_get_sex] is "M" or "F", on every value and
    for every interpreter. *)
Theorem ssn_get_sex_type (v : pyval) (r : string) :
  ssn_get_sex v = Ok r → r = "M"%string ∨ r = "F"%string.
Proof.
  unfold ssn_get_sex. intros (_ & _ & (dd & _ & (day & _ & Hr)%bind_Ok)%bind_Ok)%bind_Ok.
  injection Hr as <-. destruct (day <? 32); auto.
Qed.

(** C7. [ssn_get_birthday] on a checked call: on a text of the fiscal
    shape, the day, the month of the month letter and the two-digit year,
    each printed with ["%02d"] and separated by "/"; the day printed is the
    day field below 32, the day field less 40 otherwise, and also for a day
    field of 0.  On anything else, [AssertionError]. *)
Theorem ssn_get_birthday_spec (v : pyval) :
  checked v →
  ssn_get_birthday v
  = match v with
    | PyStr s =>
        if fiscal_shape s
        then Ok (py_format_02d (printed_day (day_field s)) +:+ "/"
                 +:+ zpad 2 (month_field s) +:+ "/" +:+ zpad 2 (year_field s))
        else Raise AssertionError
    | _ => Raise AssertionError
    end.
Proof.
  intros [(s & -> & Hs)|[Hd Hv]]%checked_cases.
  - by rewrite ssn_get_birthday_shape, Hs.
  - destruct (ssn_decode_invalid v Hd Hv) as [-> _].
    by rewrite not_valid_match.
Qed.

(** For a day field that encodes a day of the month (1 to 31, or 41 to
    71 for a woman), [ssn_get_birthday] returns the eight characters
    DD/MM/YY of the day, the month and the year. *)
Theorem ssn_get_birthday_plausible (s : string) :
  fiscal_shape s = true →
  1 ≤ day_field s ≤ 31 ∨ 41 ≤ day_field s ≤ 71 →
  ssn_get_birthday (PyStr s)
  = Ok (zpad 2 (day_field s `mod` 40) +:+ "/" +:+ zpad 2 (month_field s)
        +:+ "/" +:+ zpad 2 (year_field s))
  ∧ 1 ≤ day_field s `mod` 40 ≤ 31 ∧ 1 ≤ month_field s ≤ 12.
Proof.
  intros Hs Hd. rewrite ssn_get_birthday_shape by done.
  destruct (shape_char s Hs 8 is_month) as [_ Hm]; [done|].
  destruct (month_index _ Hm) as [_ Hr].
  assert (printed_day (day_field s) = day_field s `mod` 40
          ∧ 1 ≤ day_field s `mod` 40 ≤ 31) as [-> Hp].
  { destruct Hd as [Hd|Hd];
      [rewrite printed_day_male by done|rewrite printed_day_female by lia];
      Z.div_mod_to_equations; lia. }
  by rewrite py_format_02d_fits by lia.
Qed.

(** A day field of 00 passes the syntax check, and [ssn_get_birthday]
    then prints the day -40: [day < 32 and day or day - 40] takes the second
    branch when [day] is 0. *)
Theorem ssn_get_birthday_day_zero (s : string) :
  fiscal_shape s = true → day_field s = 0 →
  ssn_get_birthday (PyStr s)
  = Ok ("-40/" +:+ zpad 2 (month_field s) +:+ "/" +:+ zpad 2 (year_field s)).
Proof.
  intros Hs Hd. rewrite ssn_get_birthday_shape by done. by rewrite Hd.
Qed.

End contract.

(** ** The municipality *)

Lemma digit_not_upper c : is_digit c = true → is_upper c = false.
Proof.
  intros Hd%is_digit_spec. destruct (is_upper c) eqn:Hu; [|done].
  apply is_upper_spec in Hu. lia.
Qed.

(** The key of a code of sixteen characters. *)
Lemma municipality_key_16 s :
  String.length s = 16%nat → py_slice s (-5) (-1) = cadastral_field s.
Proof. intros Hl. unfold cadastral_field, py_slice, py_len. by rewrite Hl. Qed.

(** The key of a code of sixteen characters followed by a newline: one
    character further. *)
Lemma municipality_key_17 t :
  String.length t = 16%nat →
  py_slice (t +:+ String newline EmptyString) (-5) (-1) = py_slice t 12 16.
Proof.
  intros Hl. apply chars_inj. rewrite !chars_py_slice, py_len_app.
  unfold py_len. rewrite Hl, chars_app. cbn -[take drop chars].
  rewrite <- chars_length in Hl.
  by rewrite drop_app_le, take_app_le by (rewrite ?length_drop; lia).
Qed.

(** The key of any text of seventeen characters. *)
Lemma municipality_key_long s :
  String.length s = 17%nat → py_slice s (-5) (-1) = py_slice s 12 16.
Proof. intros Hl. unfold py_slice, py_len. by rewrite Hl. Qed.

(** The four characters that [ssn_get_municipality] looks up in a text of
    the fiscal shape: the cadastral code of a code of sixteen characters,
    and the characters one further when a newline follows the code. *)
Definition municipality_key (s : string) : string :=
  if bool_decide (String.length s = 16%nat) then cadastral_field s
  else py_slice s 12 16.

Lemma municipality_key_shape s :
  fiscal_shape s = true → py_slice s (-5) (-1) = municipality_key s.
Proof.
  intros [Hl|[Hl _]]%fiscal_shape_length; unfold municipality_key;
    [rewrite bool_decide_true by done; by apply municipality_key_16|].
  rewrite bool_decide_false by lia. by apply municipality_key_long.
Qed.

(** A slice of four characters inside the text. *)
Lemma py_slice_four s (i : nat) :
  (i + 4 ≤ String.length s)%nat →
  py_slice s (Z.of_nat i) (Z.of_nat (i + 4))
  = String (char_at s i) (String (char_at s (S i))
      (String (char_at s (S (S i))) (String (char_at s (S (S (S i)))) EmptyString))).
Proof.
  intros Hi. apply chars_inj.
  rewrite chars_py_slice_in by (rewrite chars_length; lia).
  replace (i + 4 - i)%nat with 4%nat by lia.
  rewrite (drop_S _ (char_at s i) i), (drop_S _ (char_at s (S i)) (S i)),
    (drop_S _ (char_at s (S (S i))) (S (S i))),
    (drop_S _ (char_at s (S (S (S i)))) (S (S (S i))))
    by (apply char_at_lookup; lia).
  done.
Qed.

(** The four characters that [ssn_get_municipality] looks up in a code of
    sixteen characters are a cadastral code proper iff the character 13 is
    a digit: [PATTERN] also admits a letter there. *)
Lemma cadastral_field_shape s :
  String.length s = 16%nat → fiscal_shape s = true →
  cadastral_shape (cadastral_field s) = is_digit (char_at s 13).
Proof.
  intros Hl Hs. unfold cadastral_field.
  change (py_slice s 11 15) with (py_slice s (Z.of_nat 11) (Z.of_nat (11 + 4))).
  rewrite py_slice_four by lia. cbn [cadastral_shape].
  destruct (shape_char s Hs 11 is_upper) as [_ ->]; [done|].
  destruct (shape_char s Hs 12 is_digit) as [_ ->]; [done|].
  destruct (shape_char s Hs 14 is_digit) as [_ ->]; [done|].
  by rewrite andb_true_r.
Qed.

Section municipality.
Context `{CodiciTable} {interp : Interpreter}.

Lemma ssn_get_municipality_shape s :
  fiscal_shape s = true →
  ssn_get_municipality (PyStr s)
  = Ok (py_dict_get CODICI_CHOICES (py_slice s (-5) (-1)) "Altro").
Proof.
  intros Hs. unfold ssn_get_municipality.
  by rewrite ssn_isvalid_str, Hs, py_assert_stmt_holds by auto.
Qed.

Lemma ssn_get_municipality_invalid v :
  py_debug = true → not_valid v →
  ssn_get_municipality v = Raise AssertionError.
Proof.
  intros Hd Hv%not_valid_isvalid. unfold ssn_get_municipality.
  by rewrite Hv, py_assert_stmt_fails.
Qed.

(** C28. [ssn_get_municipality] on a checked call: on a text of the
    fiscal shape, the name that the table gives for the key [code[-5:-1]],
    "Altro" when the table has none; the key is the characters 11 to 14 of
    a code of sixteen characters, and the characters 12 to 15 when a
    newline follows the code.  On anything else, [AssertionError]. *)
Theorem ssn_get_municipality_spec (v : pyval) :
  checked v →
  ssn_get_municipality v
  = match v with
    | PyStr s =>
        if fiscal_shape s
        then Ok (default "Altro"%string (CODICI_CHOICES !! municipality_key s))
        else Raise AssertionError
    | _ => Raise AssertionError
    end.
Proof.
  intros [(s & -> & Hs)|[Hd Hv]]%checked_cases.
  - rewrite ssn_get_municipality_shape, Hs by done.
    by rewrite municipality_key_shape.
  - by rewrite ssn_get_municipality_invalid, not_valid_match.
Qed.

(** A key that is no cadastral code proper is not in a table of such
    codes. *)
Lemma lookup_not_cadastral `{!CadastralTable} (k : string) :
  cadastral_shape k = false → py_dict_get CODICI_CHOICES k "Altro" = "Altro"%string.
Proof.
  intros Hk. unfold py_dict_get.
  destruct (CODICI_CHOICES !! k) as [name|] eqn:E; [|done].
  apply codici_key_shape in E. congruence.
Qed.

(** C37. A code followed by a newline passes [ssn_isvalid], and
    [ssn_get_municipality] then reads the characters 12 to 15 of the code
    instead of 11 to 14: with a table of cadastral codes proper (a letter and
    three digits) the result is always "Altro". *)
Theorem ssn_get_municipality_newline `{!CadastralTable} (t : string) :
  String.length t = 16%nat → fiscal_shape t = true →
  ssn_isvalid (PyStr (t +:+ String newline EmptyString)) = Ok true
  ∧ ssn_get_municipality (PyStr (t +:+ String newline EmptyString))
    = Ok "Altro"%string.
Proof.
  intros Hl Ht.
  assert (fiscal_shape (t +:+ String newline EmptyString) = true) as Hs.
  { unfold fiscal_shape in *. rewrite shape_match_app by done.
    rewrite <- (str_app_nil_r t), shape_match_app in Ht by done. done. }
  rewrite ssn_isvalid_str, ssn_get_municipality_shape, Hs by done.
  split; [done|]. rewrite municipality_key_17 by done. f_equal.
  apply lookup_not_cadastral.
  change (py_slice t 12 16) with (py_slice t (Z.of_nat 12) (Z.of_nat (12 + 4))).
  rewrite py_slice_four by lia. cbn [cadastral_shape].
  destruct (shape_char t Ht 12 is_digit) as [_ Hd]; [done|].
  by rewrite (digit_not_upper _ Hd).
Qed.

(** A code with a letter at position 13, which [PATTERN] admits, has no
    entry in a table of cadastral codes proper: [ssn_get_municipality]
    returns "Altro"; with a digit there the key looked up is a cadastral
    code proper. *)
Theorem ssn_get_municipality_letter `{!CadastralTable} (s : string) :
  String.length s = 16%nat → fiscal_shape s = true →
  cadastral_shape (cadastral_field s) = is_digit (char_at s 13)
  ∧ (is_digit (char_at s 13) = false →
     ssn_get_municipality (PyStr s) = Ok "Altro"%string).
Proof.
  intros Hl Hs. split; [by apply cadastral_field_shape|]. intros Hd.
  rewrite ssn_get_municipality_shape, municipality_key_16 by done. f_equal.
  apply lookup_not_cadastral. by rewrite cadastral_field_shape.
Qed.

End municipality.

(** ** Instances of the theorems *)

Lemma ssn_get_sex_spec_witness :
  ssn_get_sex (interp := python_O) (PyStr "CNTCHR83T41D969D") = Ok "F"%string.
Proof.
  by apply (ssn_get_sex_spec (interp := python_O) (PyStr "CNTCHR83T41D969D"));
    right.
Defined.

Lemma ssn_get_birthday_spec_witness :
  ssn_get_birthday (interp := python_O) (PyStr "RCCMNL83S18D969H")
  = Ok "18/11/83"%string.
Proof.
  by apply (ssn_get_birthday_spec (interp := python_O)
              (PyStr "RCCMNL83S18D969H")); right.
Defined.

Lemma ssn_get_sex_type_witness :
  "F"%string = "M"%string ∨ "F"%string = "F"%string.
Proof. by apply (ssn_get_sex_type (PyStr "CNTCHR83T41D969D")). Defined.

Lemma ssn_get_municipality_spec_witness :
  ssn_get_municipality (PyInt 5) = Raise AssertionError.
Proof. by apply (ssn_get_municipality_spec (PyInt 5)); left. Defined.

Lemma ssn_get_birthday_plausible_witness :
  ssn_get_birthday (PyStr "CNTCHR83T41D969D")
  = Ok (zpad 2 (day_field "CNTCHR83T41D969D" `mod` 40) +:+ "/"
        +:+ zpad 2 (month_field "CNTCHR83T41D969D")
        +:+ "/" +:+ zpad 2 (year_field "CNTCHR83T41D969D"))
  ∧ 1 ≤ day_field "CNTCHR83T41D969D" `mod` 40 ≤ 31
  ∧ 1 ≤ month_field "CNTCHR83T41D969D" ≤ 12.
Proof.
  apply ssn_get_birthday_plausible; [done|right; by vm_compute].
Defined.

Lemma ssn_get_birthday_day_zero_witness :
  ssn_get_birthday (PyStr "RCCMNL83S00D969H")
  = Ok ("-40/" +:+ zpad 2 (month_field "RCCMNL83S00D969H") +:+ "/"
        +:+ zpad 2 (year_field "RCCMNL83S00D969H")).
Proof. by apply ssn_get_birthday_day_zero. Defined.

Lemma ssn_get_municipality_newline_witness :
  ssn_isvalid (PyStr ("RCCMNL83S18D969H" +:+ String newline EmptyString)) = Ok true
  ∧ ssn_get_municipality (PyStr ("RCCMNL83S18D969H" +:+ String newline EmptyString))
    = Ok "Altro"%string.
Proof. by apply ssn_get_municipality_newline. Defined.

Lemma ssn_get_municipality_letter_witness :
  cadastral_shape (cadastral_field "RCCMNL83S18D9L9H")
  = is_digit (char_at "RCCMNL83S18D9L9H" 13)
  ∧ (is_digit (char_at "RCCMNL83S18D9L9H" 13) = false →
     ssn_get_municipality (PyStr "RCCMNL83S18D9L9H") = Ok "Altro"%string).
Proof. by apply ssn_get_municipality_letter. Defined.
