(* ===== verification/SsnUnchecked.v ===== *)
(** * The decoders with and without their assertions

    [ssn_get_birthday], [ssn_get_sex] and [ssn_get_municipality] check their
    argument with [assert ssn_isvalid(code)].  An interpreter started with
    [-O] does not execute [assert] statements ([Prelude.python_O]): the
    decoders then run on whatever they are given.  This file shows what
    they do in that case (which texts they return a result for, which
    exceptions they raise) and states the precondition of the decoders for
    both kinds of interpreter. *)

From S2P Require Import Prelude PyBuiltins PyDecimal Regex Codici Django Ssn SsnSyntax SsnDecode.
From stdpp Require Import gmap.

#[local] Open Scope Z_scope.

(** ** The slices that the decoders take *)

(** The day is read only in a text of ten characters at least. *)
Lemma day_read_length s n :
  py_int_str (py_slice s 9 11) = Ok n → (10 ≤ String.length s)%nat.
Proof.
  intros Hn%py_int_str_nonempty.
  destruct (decide (10 ≤ String.length s)%nat); [done|].
  destruct Hn. apply py_slice_empty. unfold slice_bound, py_len. cbn. lia.
Qed.

(** The key that is looked up in a text of fewer than five characters has
    fewer than four. *)
Lemma municipality_key_short s :
  (String.length s < 5)%nat →
  (String.length (py_slice s (-5) (-1)) < 4)%nat.
Proof.
  intros Hl. pose proof (py_slice_length s (-5) (-1)) as Hk.
  unfold slice_bound, py_len in Hk. cbn in Hk. lia.
Qed.

(** ** Without [__debug__] *)

Section unchecked.
Context `{CodiciTable} {interp : Interpreter} (Hopt : py_debug = false).

Lemma unchecked_assert (s : string) :
  py_assert_stmt (ssn_isvalid (PyStr s)) = Ok ().
Proof. by apply py_assert_stmt_skipped. Qed.

(** On a value that is not text the first slice raises [TypeError]. *)
Lemma ssn_decode_unchecked_TypeError (v : pyval) :
  isinstance_str v = false →
  ssn_get_birthday v = Raise TypeError ∧ ssn_get_sex v = Raise TypeError
  ∧ ssn_get_municipality v = Raise TypeError.
Proof.
  intros Hv. unfold ssn_get_birthday, ssn_get_sex, ssn_get_municipality.
  rewrite py_assert_stmt_skipped by done. by destruct v.
Qed.

(** [ssn_get_municipality] returns on every text. *)
Lemma ssn_get_municipality_text (s : string) :
  ssn_get_municipality (PyStr s)
  = Ok (py_dict_get CODICI_CHOICES (py_slice s (-5) (-1)) "Altro").
Proof. unfold ssn_get_municipality. by rewrite unchecked_assert. Qed.

Lemma ssn_get_sex_Raise (s : string) (e : pyexc) :
  ssn_get_sex (PyStr s) = Raise e → e = ValueError_int (py_slice s 9 11).
Proof.
  unfold ssn_get_sex. rewrite unchecked_assert.
  cbn [mbind result_bind py_slice_val py_int].
  destruct (py_int_str _) eqn:E; [done|]. intros [= <-].
  by apply py_int_str_Raise.
Qed.

(** [code[8]] is never out of range: [int(code[9:11])] has raised before on
    a text that short. *)
Lemma ssn_get_birthday_Raise (s : string) (e : pyexc) :
  ssn_get_birthday (PyStr s) = Raise e →
  e = ValueError_int (py_slice s 9 11)
  ∨ e = ValueError_index (String (char_at s 8) EmptyString)
  ∨ e = ValueError_int (py_slice s 6 8).
Proof.
  unfold ssn_get_birthday. rewrite unchecked_assert.
  cbn [mbind result_bind py_slice_val py_getitem_val py_int].
  destruct (py_int_str (py_slice s 9 11)) as [day|e1] eqn:Ed;
    [|intros [= <-]; left; by apply py_int_str_Raise].
  apply day_read_length in Ed.
  assert (py_getitem s 8 = Ok (String (char_at s 8) EmptyString)) as ->
    by (apply (py_getitem_lookup s 8), char_at_lookup; lia).
  cbn [mbind result_bind]. destruct (py_list_index _ _) as [idx|e2] eqn:Ei;
    [|intros [= <-]; right; left; by eapply py_list_index_Raise].
  cbn [mbind result_bind]. destruct (py_int_str (py_slice s 6 8)) eqn:Ey;
    [done|]. intros [= <-]. right; right. by apply py_int_str_Raise.
Qed.

(** No decoder raises [AssertionError]. *)
Lemma ssn_decode_unchecked_no_assertion (v : pyval) :
  ssn_get_birthday v ≠ Raise AssertionError
  ∧ ssn_get_sex v ≠ Raise AssertionError
  ∧ ssn_get_municipality v ≠ Raise AssertionError.
Proof.
  destruct (isinstance_str v) eqn:Hv;
    [|by destruct (ssn_decode_unchecked_TypeError v Hv) as (-> & -> & ->)].
  destruct v as [s| | |]; try done. rewrite ssn_get_municipality_text.
  split_and!;
    [intros [?|[?|?]]%ssn_get_birthday_Raise|intros ?%ssn_get_sex_Raise|];
    done.
Qed.

(** C32. The exceptions of the decoders without their assertions: [TypeError]
    on a value that is not text, the [ValueError] of [int()] on the two
    characters of the day or of the year, and the [ValueError] of
    [MONTHSCODE.index] on the character at 8.  [ssn_get_municipality]
    raises on no text. *)
Theorem ssn_decoders_unchecked_exceptions (v : pyval) (e : pyexc) :
  ssn_get_birthday v = Raise e ∨ ssn_get_sex v = Raise e
  ∨ ssn_get_municipality v = Raise e →
  match v with
  | PyStr s =>
      ssn_get_municipality v ≠ Raise e
      ∧ (e = ValueError_int (py_slice s 9 11)
         ∨ e = ValueError_index (String (char_at s 8) EmptyString)
         ∨ e = ValueError_int (py_slice s 6 8))
  | _ => e = TypeError
  end.
Proof.
  destruct (isinstance_str v) eqn:Hv.
  2: { destruct (ssn_decode_unchecked_TypeError v Hv) as (-> & -> & ->).
       destruct v; [done|by intros [[= <-]|[[= <-]|[= <-]]]..]. }
  destruct v as [s| | |]; try done. rewrite ssn_get_municipality_text.
  intros [He|[He%ssn_get_sex_Raise|[=]]]; (split; [done|]);
    [by apply ssn_get_birthday_Raise|by left].
Qed.

(** C13. What the decoders return without their assertions: each reads its own
    field, whatever the rest of the text.  [ssn_get_sex] needs two digits at
    9 and 10, [ssn_get_birthday] two more at 6 and 7 and a month letter at
    8, [ssn_get_municipality] nothing, and a text of fewer than five
    characters, which has no four characters to look up, gives "Altro". *)
Theorem ssn_decoders_unchecked (s : string) :
  (day_readable s = true →
   ssn_get_sex (PyStr s)
   = Ok (if day_field s <? 32 then "M"%string else "F"%string))
  ∧ (date_readable s = true →
     ssn_get_birthday (PyStr s)
     = Ok (py_format_02d (printed_day (day_field s)) +:+ "/"
           +:+ zpad 2 (month_field s) +:+ "/" +:+ zpad 2 (year_field s)))
  ∧ ssn_get_municipality (PyStr s)
    = Ok (default "Altro"%string (CODICI_CHOICES !! py_slice s (-5) (-1)))
  ∧ ((String.length s < 5)%nat →
     ssn_get_municipality (PyStr s) = Ok "Altro"%string).
Proof.
  split_and!;
    [apply ssn_get_sex_fields, unchecked_assert
    |apply ssn_get_birthday_fields, unchecked_assert
    |apply ssn_get_municipality_text|].
  intros Hl%municipality_key_short. rewrite ssn_get_municipality_text.
  unfold py_dict_get. destruct (CODICI_CHOICES !! _) as [name|] eqn:Ek; [|done].
  apply codici_key_length in Ek. lia.
Qed.

End unchecked.

(** ** The precondition, for both kinds of interpreter *)

Section precondition.
Context `{CodiciTable} {interp : Interpreter}.

(** C11. The precondition of the decoders.  Each of them returns on the
    values that [ssn_isvalid] accepts.  On every other value, when the
    [assert] statements are executed each raises [AssertionError] and no
    other exception is possible; when they are not (the interpreter was
    started with [-O]), none of them raises [AssertionError]: the
    precondition is not checked. *)
Theorem ssn_decoders_precondition (v : pyval) :
  (ssn_isvalid v = Ok true
   ∧ is_Ok (ssn_get_birthday v) ∧ is_Ok (ssn_get_sex v)
   ∧ is_Ok (ssn_get_municipality v))
  ∨ (ssn_isvalid v = Ok false
     ∧ if py_debug
       then ssn_get_birthday v = Raise AssertionError
            ∧ ssn_get_sex v = Raise AssertionError
            ∧ ssn_get_municipality v = Raise AssertionError
       else ssn_get_birthday v ≠ Raise AssertionError
            ∧ ssn_get_sex v ≠ Raise AssertionError
            ∧ ssn_get_municipality v ≠ Raise AssertionError).
Proof.
  destruct (valid_or_not v) as [(s & -> & Hs)|Hv]; [left|right].
  - rewrite ssn_isvalid_str, ssn_get_birthday_shape, ssn_get_sex_shape,
      ssn_get_municipality_shape, Hs by done.
    split_and!; [done|apply is_Ok_Ok..].
  - split; [by apply not_valid_isvalid|]. destruct py_debug eqn:Hd.
    + destruct (ssn_decode_invalid v Hd Hv) as [-> ->].
      by rewrite ssn_get_municipality_invalid.
    + by apply ssn_decode_unchecked_no_assertion.
Qed.

End precondition.

(** ** Instances of the theorems *)

Lemma ssn_decoders_unchecked_witness :
  ssn_get_sex (interp := python_O) (PyStr ".........07") = Ok "M"%string
  ∧ ssn_get_birthday (interp := python_O) (PyStr "......83S18")
    = Ok "18/11/83"%string
  ∧ ssn_get_municipality (interp := python_O) (PyStr "D969H") = Ok "Genova"%string
  ∧ ssn_get_municipality (interp := python_O) (PyStr "D969") = Ok "Altro"%string
  ∧ ssn_isvalid (PyStr ".........07") = Ok false.
Proof.
  destruct (ssn_decoders_unchecked (interp := python_O) eq_refl ".........07")
    as (Hsex & _).
  destruct (ssn_decoders_unchecked (interp := python_O) eq_refl "......83S18")
    as (_ & Hdate & _).
  destruct (ssn_decoders_unchecked (interp := python_O) eq_refl "D969H")
    as (_ & _ & Hkey & _).
  destruct (ssn_decoders_unchecked (interp := python_O) eq_refl "D969")
    as (_ & _ & _ & Hshort).
  split_and!; [by apply Hsex|by apply Hdate|apply Hkey|apply Hshort; cbn; lia|done].
Defined.

Lemma ssn_decoders_unchecked_exceptions_witness :
  ssn_get_municipality (interp := python_O) (PyStr "RCCMNL83X18D969H")
  ≠ Raise (ValueError_index "X")
  ∧ (ValueError_index "X" = ValueError_int (py_slice "RCCMNL83X18D969H" 9 11)
     ∨ ValueError_index "X"
       = ValueError_index (String (char_at "RCCMNL83X18D969H" 8) EmptyString)
     ∨ ValueError_index "X" = ValueError_int (py_slice "RCCMNL83X18D969H" 6 8)).
Proof.
  apply (ssn_decoders_unchecked_exceptions (interp := python_O) eq_refl
           (PyStr "RCCMNL83X18D969H") (ValueError_index "X")).
  by left.
Defined.
