(* ===== verification/Vat.v ===== *)
(** * The VAT functions of [util.py]

    [vat_number_check_digit] and [vat_number_validation], translated
    statement by statement. *)

From S2P Require Import Prelude PyBuiltins Django.

#[local] Open Scope Z_scope.

(** ** Definitions *)

(** The body of the first loop: [total += int(normalized_vat_number[i])]. *)
Definition vat_even_step (normalized_vat_number : string) (total i : Z)
    : result Z :=
  c ← py_getitem normalized_vat_number i;
  d ← py_int (PyStr c);
  Ok (total + d).

(** The body of the second loop: the digit is doubled and the digits of the
    double are added. *)
Definition vat_odd_step (normalized_vat_number : string) (total i : Z)
    : result Z :=
  c ← py_getitem normalized_vat_number i;
  d ← py_int (PyStr c);
  let '(quotient, remainder) := py_divmod (d * 2) 10 in
  Ok (total + (quotient + remainder)).

Definition vat_number_check_digit (vat_number : pyval) : result string :=
  let normalized_vat_number := py_zfill (smart_text vat_number) 10 in
  total ← for_loop (py_range 0 10 2) (vat_even_step normalized_vat_number) 0;
  total ← for_loop (py_range 1 11 2) (vat_odd_step normalized_vat_number) total;
  Ok (smart_text (PyInt ((10 - total `mod` 10) `mod` 10))).

(** [_('Check digit does not match.')] *)
Definition vat_check_digit_msg {translation : Translation} : string :=
  ugettext_lazy "Check digit does not match.".

Definition vat_number_validation {translation : Translation} (vat_number : pyval)
    : result string :=
  n ← py_int vat_number;
  let vat_number := py_zfill (py_str_int n) 11 in
  check_digit ← vat_number_check_digit (PyStr (py_slice vat_number 0 10));
  c ← py_getitem vat_number 10;
  if bool_decide (c ≠ check_digit) then Raise (ValueError vat_check_digit_msg)
  else Ok (smart_text (PyStr vat_number)).
