(* ===== verification/VatCheck.v ===== *)
(** * The VAT control digit: [vat_number_check_digit]

    The reference is the Luhn-style sum over a list of ten digits,
    [vat_sum], and the control digit [vat_check] derived from it.  The two
    loops of [vat_number_check_digit] are shown to compute it on the
    zero-padded text of their argument, and to raise on the first character
    that is not a digit in the order in which they read, [vat_first_bad]. *)

From S2P Require Import Prelude PyBuiltins Django PyDecimal Vat.

#[local] Open Scope Z_scope.

(** ** Reference definitions *)

(** The sum of the digits of twice a digit. *)
Definition luhn_double (d : Z) : Z := (d * 2) `div` 10 + (d * 2) `mod` 10.

(** The sum over the digits [ds]: a digit at an even index (from zero)
    counts as it is, a digit at an odd index counts [luhn_double].  [even]
    tells whether the first digit is at an even index. *)
Fixpoint vat_sum (even : bool) (ds : list Z) : Z :=
  match ds with
  | [] => 0
  | d :: ds' => (if even then d else luhn_double d) + vat_sum (negb even) ds'
  end.

(** The control digit of ten digits. *)
Definition vat_check (ds : list Z) : Z := (10 - vat_sum true ds `mod` 10) `mod` 10.

(** The character at index [i] of a text, for the loops, and its digit. *)
Definition vat_char (u : string) (i : Z) : ascii :=
  default "0"%char (chars u !! Z.to_nat i).

Definition digit_at (u : string) (i : Z) : Z := digit_val (vat_char u i).

(** The indices in the order in which the two loops read them: the even
    ones, then the odd ones. *)
Definition vat_read_order : list Z := py_range 0 10 2 ++ py_range 1 11 2.

(** The first character, in that order, that is not a digit. *)
Definition vat_first_bad (u : string) : option ascii :=
  (λ p, vat_char u p.2)
  <$> list_find (λ i, is_digit (vat_char u i) = false) vat_read_order.

(** What [vat_number_check_digit] does on the text [u] that it reads: it
    raises on the first character that is not a digit, and returns the
    control digit of the ten when there is none. *)
Definition vat_result (u : string) : result string :=
  match vat_first_bad u with
  | Some c => Raise (ValueError_int (String c EmptyString))
  | None => Ok (digits_str [vat_check (digit_val <$> take 10 (chars u))])
  end.

(** ** The loops *)

Lemma vat_even_step_inside u (i : nat) c total :
  chars u !! i = Some c →
  vat_even_step u total (Z.of_nat i)
  = if is_digit c then Ok (total + digit_val c)
    else Raise (ValueError_int (String c EmptyString)).
Proof.
  intros Hc. unfold vat_even_step.
  rewrite (py_getitem_lookup _ _ _ Hc). simpl_result.
  cbn [py_int]. rewrite py_int_str_char. by destruct (is_digit c).
Qed.

Lemma vat_odd_step_inside u (i : nat) c total :
  chars u !! i = Some c →
  vat_odd_step u total (Z.of_nat i)
  = if is_digit c then Ok (total + luhn_double (digit_val c))
    else Raise (ValueError_int (String c EmptyString)).
Proof.
  intros Hc. unfold vat_odd_step.
  rewrite (py_getitem_lookup _ _ _ Hc). simpl_result.
  cbn [py_int]. rewrite py_int_str_char. by destruct (is_digit c).
Qed.

(** The text read by the loops: ten characters at least. *)
Lemma py_len_zfill s (w : Z) : Z.max w (py_len s) = py_len (py_zfill s w).
Proof.
  unfold py_zfill. pose proof (py_len_nonneg s) as Hs.
  assert (∀ t, py_len (str_repeat "0" (Z.to_nat (w - py_len s)) +:+ t)
               = Z.max 0 (w - py_len s) + py_len t) as Hpad.
  { intros t. rewrite py_len_app. f_equal.
    rewrite py_len_chars, chars_repeat, length_replicate. lia. }
  destruct s as [|c r]; [rewrite <- (str_app_nil_r (str_repeat _ _)), Hpad;
    unfold py_len; cbn; lia|].
  destruct (is_sign c).
  - change (String c (?a +:+ r)) with (String c EmptyString +:+ (a +:+ r)).
    rewrite py_len_app, Hpad.
    change (String c r) with (String c EmptyString +:+ r) in *.
    rewrite py_len_app in *. lia.
  - rewrite Hpad. lia.
Qed.

Section loops.
Context (u : string) (Hlen : 10 ≤ py_len u).

Lemma index_inside (i : Z) :
  0 ≤ i < 10 → ∃ c, chars u !! Z.to_nat i = Some c.
Proof.
  intros Hi. apply lookup_lt_is_Some_2. rewrite py_len_chars in Hlen. lia.
Qed.

Lemma vat_even_step_at (i : Z) total :
  0 ≤ i < 10 →
  vat_even_step u total i
  = match chars u !! Z.to_nat i with
    | Some c => if is_digit c then Ok (total + digit_val c)
                else Raise (ValueError_int (String c EmptyString))
    | None => Raise IndexError
    end.
Proof.
  intros Hi. destruct (index_inside i Hi) as [c Hc]. rewrite Hc.
  rewrite <- (Z2Nat.id i) at 1 by lia. by apply vat_even_step_inside.
Qed.

Lemma vat_odd_step_at (i : Z) total :
  0 ≤ i < 10 →
  vat_odd_step u total i
  = match chars u !! Z.to_nat i with
    | Some c => if is_digit c then Ok (total + luhn_double (digit_val c))
                else Raise (ValueError_int (String c EmptyString))
    | None => Raise IndexError
    end.
Proof.
  intros Hi. destruct (index_inside i Hi) as [c Hc]. rewrite Hc.
  rewrite <- (Z2Nat.id i) at 1 by lia. by apply vat_odd_step_inside.
Qed.

End loops.

(** A list of ten elements at least, written out. *)
Lemma list_ten {A} (l : list A) :
  (10 ≤ length l)%nat →
  ∃ a0 a1 a2 a3 a4 a5 a6 a7 a8 a9 r,
    l = a0 :: a1 :: a2 :: a3 :: a4 :: a5 :: a6 :: a7 :: a8 :: a9 :: r.
Proof.
  intros Hl. do 10 (destruct l as [|? l]; [cbn in Hl; lia|]).
  by repeat eexists.
Qed.

(** The text the loops read: the argument as text, zero-filled to ten. *)
Definition vat_text (vat_number : pyval) : string :=
  py_zfill (smart_text vat_number) 10.

(** Its first ten characters, the only ones the loops read. *)
Definition vat_chars (vat_number : pyval) : list ascii :=
  take 10 (chars (vat_text vat_number)).

Lemma vat_text_length v : 10 ≤ py_len (vat_text v).
Proof. unfold vat_text. rewrite <- py_len_zfill. lia. Qed.

#[export] Hint Resolve vat_text_length : py.

(** The two loops, on a text of ten characters at least. *)
Definition vat_loops (u : string) : result Z :=
  total ← for_loop (py_range 0 10 2) (vat_even_step u) 0;
  for_loop (py_range 1 11 2) (vat_odd_step u) total.

Lemma vat_number_check_digit_loops v :
  vat_number_check_digit v
  = total ← vat_loops (vat_text v);
    Ok (smart_text (PyInt ((10 - total `mod` 10) `mod` 10))).
Proof.
  unfold vat_number_check_digit, vat_loops, vat_text.
  by destruct (for_loop (py_range 0 10 2) _ 0).
Qed.

(** Evaluates the closed conversions of indices to [nat]. *)
Ltac eval_to_nat :=
  repeat match goal with
  | |- context [Z.to_nat ?k] =>
      let n := eval vm_compute in (Z.to_nat k) in
      progress change (Z.to_nat k) with n
  end.

Lemma vat_index_range (i : Z) :
  i ∈ py_range 0 10 2 ∨ i ∈ py_range 1 11 2 → 0 ≤ i < 10.
Proof.
  intros [H|H]; apply elem_of_py_range in H; try lia;
    destruct H as [? ?]; Z.div_mod_to_equations; lia.
Qed.

Section loops_spec.
Context (u : string) (Hlen : 10 ≤ py_len u).

Lemma vat_char_inside (i : Z) :
  0 ≤ i < 10 →
  chars u !! Z.to_nat i = Some (vat_char u i) ∧ vat_char u i ∈ take 10 (chars u).
Proof.
  intros Hi. destruct (index_inside u Hlen i Hi) as [c Hc].
  unfold vat_char. rewrite Hc. split; [done|].
  eapply list_elem_of_lookup_2. rewrite lookup_take_lt; [done|lia].
Qed.

(** The bodies of the loops raise exactly on the characters that are not
    digits. *)
Lemma vat_even_step_guarded total (i : Z) :
  i ∈ py_range 0 10 2 →
  vat_even_step u total i
  = if is_digit (vat_char u i) then Ok (total + digit_at u i)
    else Raise (ValueError_int (String (vat_char u i) EmptyString)).
Proof.
  intros Hi. assert (0 ≤ i < 10) as Hr by (apply vat_index_range; auto).
  rewrite vat_even_step_at by done.
  by destruct (vat_char_inside i Hr) as [-> _].
Qed.

Lemma vat_odd_step_guarded total (i : Z) :
  i ∈ py_range 1 11 2 →
  vat_odd_step u total i
  = if is_digit (vat_char u i) then Ok (total + luhn_double (digit_at u i))
    else Raise (ValueError_int (String (vat_char u i) EmptyString)).
Proof.
  intros Hi. assert (0 ≤ i < 10) as Hr by (apply vat_index_range; auto).
  rewrite vat_odd_step_at by done.
  by destruct (vat_char_inside i Hr) as [-> _].
Qed.

(** The two folds add up to the reference sum. *)
Lemma vat_folds_sum :
  foldl (λ s i, s + luhn_double (digit_at u i))
    (foldl (λ s i, s + digit_at u i) 0 (py_range 0 10 2)) (py_range 1 11 2)
  = vat_sum true (digit_val <$> take 10 (chars u)).
Proof.
  destruct (list_ten (chars u)) as (a0&a1&a2&a3&a4&a5&a6&a7&a8&a9&r&Hu);
    [rewrite py_len_chars in Hlen; lia|].
  change (py_range 0 10 2) with [0; 2; 4; 6; 8].
  change (py_range 1 11 2) with [1; 3; 5; 7; 9].
  unfold digit_at, vat_char. rewrite Hu. cbn. rewrite take_0. cbn.
  eval_to_nat. cbn. lia.
Qed.

(** The loops raise on the first character, in the order in which they read,
    that is not a digit; when there is none they return the reference sum. *)
Lemma vat_loops_spec :
  vat_loops u
  = match vat_first_bad u with
    | Some c => Raise (ValueError_int (String c EmptyString))
    | None => Ok (vat_sum true (digit_val <$> take 10 (chars u)))
    end.
Proof.
  unfold vat_loops, vat_first_bad, vat_read_order.
  rewrite (for_loop_guarded _ _ _ _ _ _ (vat_even_step_guarded)).
  destruct (list_find _ (py_range 0 10 2)) as [[k i]|] eqn:E;
    [by rewrite (list_find_app_l _ _ _ _ _ E)|].
  rewrite (list_find_app_r _ _ _ E). cbn [mbind result_bind].
  rewrite (for_loop_guarded _ _ _ _ _ _ (vat_odd_step_guarded)).
  destruct (list_find _ (py_range 1 11 2)) as [[k i]|]; [done|].
  cbn [fmap option_fmap option_map]. f_equal. apply vat_folds_sum.
Qed.

Lemma vat_first_bad_Some c :
  vat_first_bad u = Some c → c ∈ take 10 (chars u) ∧ is_digit c = false.
Proof.
  unfold vat_first_bad.
  intros ([k i] & (Hk%list_elem_of_lookup_2 & Hd & _)%list_find_Some & ->)%fmap_Some.
  split; [|done]. apply vat_char_inside, vat_index_range.
  by apply elem_of_app.
Qed.

Lemma vat_first_bad_None :
  vat_first_bad u = None ↔ Forall (λ c, is_digit c = true) (take 10 (chars u)).
Proof.
  unfold vat_first_bad. rewrite fmap_None, list_find_None.
  destruct (list_ten (chars u)) as (a0&a1&a2&a3&a4&a5&a6&a7&a8&a9&r&Hu);
    [rewrite py_len_chars in Hlen; lia|].
  change vat_read_order with [0; 2; 4; 6; 8; 1; 3; 5; 7; 9].
  unfold vat_char. rewrite Hu. cbn [take]. rewrite take_0.
  rewrite !Forall_cons, !Forall_nil. eval_to_nat. cbn [lookup list_lookup default].
  rewrite !not_false_iff_true. tauto.
Qed.

Lemma vat_loops_Ok :
  Forall (λ c, is_digit c = true) (take 10 (chars u)) →
  vat_loops u = Ok (vat_sum true (digit_val <$> take 10 (chars u))).
Proof. intros Hd%vat_first_bad_None. by rewrite vat_loops_spec, Hd. Qed.

Lemma vat_loops_is_Ok :
  is_Ok (vat_loops u) ↔ Forall (λ c, is_digit c = true) (take 10 (chars u)).
Proof.
  rewrite <- vat_first_bad_None, vat_loops_spec.
  destruct (vat_first_bad u); [by split; [intros [? ?]|]|].
  split; [done|by eexists].
Qed.

Lemma vat_loops_Raise e :
  vat_loops u = Raise e →
  ∃ c, c ∈ take 10 (chars u) ∧ is_digit c = false
       ∧ e = ValueError_int (String c EmptyString).
Proof.
  rewrite vat_loops_spec. destruct (vat_first_bad u) as [c|] eqn:E; [|done].
  intros [= <-]. exists c. by destruct (vat_first_bad_Some c E).
Qed.

End loops_spec.

(** ** The reference sum *)

Lemma vat_check_range ds : 0 ≤ vat_check ds ≤ 9.
Proof. unfold vat_check. Z.div_mod_to_equations. lia. Qed.

(** The control digit completes the sum to a multiple of ten. *)
Lemma vat_check_sum ds : (vat_sum true ds + vat_check ds) `mod` 10 = 0.
Proof. unfold vat_check. Z.div_mod_to_equations. lia. Qed.

(** It is the only digit that does. *)
Lemma vat_check_unique ds c :
  0 ≤ c ≤ 9 → (vat_sum true ds + c) `mod` 10 = 0 → c = vat_check ds.
Proof. unfold vat_check. intros Hc. Z.div_mod_to_equations. lia. Qed.

Lemma vat_sum_app even ds es :
  vat_sum even (ds ++ es)
  = vat_sum even ds + vat_sum (if Nat.even (length ds) then even else negb even) es.
Proof.
  revert even; induction ds as [|d ds IH]; intros even; cbn [vat_sum app length].
  - cbn. lia.
  - rewrite IH, Nat.even_succ, <- Nat.negb_even.
    destruct (Nat.even (length ds)), even; cbn; lia.
Qed.

(** The ten characters read, for the inputs of interest. *)
Lemma vat_chars_digits ds :
  is_digit_list ds →
  vat_chars (PyStr (digits_str ds))
  = digit_char <$> take 10 (replicate (10 - length ds) 0 ++ ds).
Proof.
  intros Hds. unfold vat_chars, vat_text, smart_text, py_str.
  rewrite py_zfill_digits by done.
  replace (Z.to_nat (10 - Z.of_nat (length ds))) with (10 - length ds)%nat by lia.
  by rewrite chars_digits_str, fmap_take.
Qed.

Lemma vat_chars_int n :
  0 ≤ n < 10 ^ 10 → vat_chars (PyInt n) = digit_char <$> zdigits 10 n.
Proof.
  intros Hn. unfold vat_chars, vat_text, smart_text, py_str.
  rewrite (py_zfill_str_fits 10) by (lia || done). unfold zpad.
  rewrite chars_digits_str. apply take_ge.
  by rewrite length_fmap, zdigits_length.
Qed.

Lemma digit_chars_are_digits ds :
  is_digit_list ds → Forall (λ c, is_digit c = true) (digit_char <$> ds).
Proof.
  intros Hds. apply Forall_fmap. eapply Forall_impl; [exact Hds|].
  intros d Hd. by apply is_digit_digit_char.
Qed.

Lemma digit_val_digit_chars ds :
  is_digit_list ds → digit_val <$> (digit_char <$> ds) = ds.
Proof.
  intros Hds. rewrite <- list_fmap_compose.
  rewrite <- (list_fmap_id ds) at 2. apply Forall_fmap_ext_1.
  eapply Forall_impl; [exact Hds|]. intros d Hd. by apply digit_val_digit_char.
Qed.

(** ** [vat_number_check_digit] *)

(** When the ten characters that [vat_number_check_digit] reads are digits,
    it returns the text of the control digit [vat_check] of those digits: its
    two loops, over the even and over the odd indices, compute the reference
    sum. *)
Lemma vat_check_digit_chars v :
  Forall (λ c, is_digit c = true) (vat_chars v) →
  vat_number_check_digit v
  = Ok (digits_str [vat_check (digit_val <$> vat_chars v)]).
Proof.
  intros Hd. rewrite vat_number_check_digit_loops.
  rewrite vat_loops_Ok by auto with py. simpl_result.
  f_equal. apply py_str_int_digit, vat_check_range.
Qed.

(** C5. On a text of digits, [vat_number_check_digit] returns the control
    digit of its first ten digits, a text of fewer than ten digits (the
    empty text too) being filled with zeros on the left. *)
Theorem vat_number_check_digit_digits ds :
  is_digit_list ds →
  vat_number_check_digit (PyStr (digits_str ds))
  = Ok (digits_str [vat_check (take 10 (replicate (10 - length ds) 0 ++ ds))]).
Proof.
  intros Hds.
  assert (is_digit_list (take 10 (replicate (10 - length ds) 0 ++ ds))) as Hp
    by (apply Forall_take, Forall_app; split; [apply Forall_replicate; lia|done]).
  rewrite vat_check_digit_chars; rewrite vat_chars_digits by done.
  - by rewrite digit_val_digit_chars.
  - by apply digit_chars_are_digits.
Qed.

Lemma vat_number_check_digit_digits_witness :
  vat_number_check_digit (PyStr (digits_str [7; 5; 0; 3])) = Ok (digits_str [6]).
Proof.
  rewrite (vat_number_check_digit_digits [7; 5; 0; 3]);
    [done|repeat constructor; lia].
Defined.

(** The loops and the [return] statement give [vat_result]. *)
Lemma vat_loops_result u :
  10 ≤ py_len u →
  (total ← vat_loops u;
   Ok (smart_text (PyInt ((10 - total `mod` 10) `mod` 10))))
  = vat_result u.
Proof.
  intros Hlen. unfold vat_result. rewrite vat_loops_spec by done.
  destruct (vat_first_bad _); [done|]. simpl_result.
  f_equal. apply py_str_int_digit, vat_check_range.
Qed.

Lemma vat_number_check_digit_result (v : pyval) :
  vat_number_check_digit v = vat_result (vat_text v).
Proof.
  rewrite vat_number_check_digit_loops. apply vat_loops_result, vat_text_length.
Qed.

(** C6. [vat_number_check_digit] on every value.  It reads the ten first
    characters of its argument as text, zero-filled to ten, those at the
    even indices and then those at the odd ones; it raises the [ValueError]
    of [int()] on the first of them, in that order, that is not a digit,
    and when all are digits it returns the control digit of the ten. *)
Theorem vat_number_check_digit_spec (v : pyval) :
  vat_number_check_digit v
  = match vat_first_bad (vat_text v) with
    | Some c => Raise (ValueError_int (String c EmptyString))
    | None => Ok (digits_str [vat_check (digit_val <$> vat_chars v)])
    end.
Proof. apply vat_number_check_digit_result. Qed.

(** The character at 8 is read before the character at 1. *)
Example vat_number_check_digit_order_ex :
  vat_number_check_digit (PyStr "1b345678x0") = Raise (ValueError_int "x")
  ∧ vat_number_check_digit (PyStr "1b34567890") = Raise (ValueError_int "b")
  ∧ vat_number_check_digit (PyStr "x") = Raise (ValueError_int "x")
  ∧ vat_number_check_digit (PyInt (-5)) = Raise (ValueError_int "-")
  ∧ vat_number_check_digit PyNone = Raise (ValueError_int "N")
  ∧ vat_number_check_digit (PyBool true) = Raise (ValueError_int "T").
Proof. by vm_compute. Qed.

(** [vat_number_check_digit] returns exactly when the ten characters
    it reads are digits; otherwise it raises the [ValueError] of [int()] on
    one of them that is not a digit, and nothing else. *)
Theorem vat_number_check_digit_total v :
  (is_Ok (vat_number_check_digit v)
   ↔ Forall (λ c, is_digit c = true) (vat_chars v))
  ∧ ∀ e, vat_number_check_digit v = Raise e →
         ∃ c, c ∈ vat_chars v ∧ is_digit c = false
              ∧ e = ValueError_int (String c EmptyString).
Proof.
  rewrite <- (vat_loops_is_Ok _ (vat_text_length v)).
  rewrite vat_number_check_digit_loops.
  destruct (vat_loops (vat_text v)) eqn:E; cbn.
  - split; [split; intros _; by eexists|done].
  - split; [split; intros [? [=]]|intros ? [= <-]].
    by apply vat_loops_Raise in E; [|apply vat_text_length].
Qed.

(** The result of [vat_number_check_digit] is one digit, and the sum of
    the even-indexed digits, of the doubled odd-indexed digits (their own
    digits added) and of the result is a multiple of ten. *)
Theorem vat_number_check_digit_luhn v r :
  vat_number_check_digit v = Ok r →
  ∃ c, r = digits_str [c] ∧ 0 ≤ c ≤ 9
       ∧ (vat_sum true (digit_val <$> vat_chars v) + c) `mod` 10 = 0.
Proof.
  intros Hr. assert (is_Ok (vat_loops (vat_text v))) as Hok.
  { rewrite vat_number_check_digit_loops in Hr.
    destruct (vat_loops (vat_text v)); [by eexists|done]. }
  apply vat_loops_is_Ok in Hok; [|apply vat_text_length].
  rewrite vat_check_digit_chars in Hr by done. injection Hr as <-.
  eexists. split_and!; [done|apply vat_check_range..|apply vat_check_sum].
Qed.

Lemma vat_number_check_digit_luhn_witness :
  ∃ c, "7"%string = digits_str [c] ∧ 0 ≤ c ≤ 9
       ∧ (vat_sum true (digit_val <$> vat_chars (PyStr "1234567001")) + c) `mod` 10 = 0.
Proof. by apply (vat_number_check_digit_luhn (PyStr "1234567001")). Defined.
