(* ===== verification/VatLoop.v ===== *)
(** * The two loops of [vat_number_check_digit] as a machine

    The body of [vat_number_check_digit] is a machine with two phases, one
    per loop: a configuration holds the phase, the indices still to visit
    and [total].  Each loop runs as the machine of [Loop.v]; the end of the
    first loop enters the second with the same [total], the end of the
    second returns the control digit.  The machine is deterministic and
    keeps [total] within the bounds of the digits read so far.  The
    configurations that it reaches are characterised against the reference
    ([vat_reach]: the characters read so far are digits and [total] is the
    sum of their terms; at the end, [VatCheck.vat_result]), and so is the
    length of its run ([vat_steps]: one step for each index up to the first
    whose character is not a digit, one to pass from the first loop to the
    second, twelve when all ten are digits). *)

From S2P Require Import Prelude Loop PyBuiltins Django PyDecimal Vat VatCheck.
From stdpp Require Import relations.

#[local] Open Scope Z_scope.

(** ** Definitions *)

(** The two loops: over the even indices, then over the odd ones. *)
Inductive vat_phase : Type := VatEven | VatOdd.

#[export] Instance vat_phase_eq_dec : EqDecision vat_phase.
Proof. solve_decision. Defined.

Inductive vat_config : Type :=
| VatIter (ph : vat_phase) (xs : list Z) (total : Z)
| VatDone (r : result string).

(** The body of the loop of a phase. *)
Definition vat_body (ph : vat_phase) (u : string) : Z → Z → result Z :=
  match ph with
  | VatEven => vat_even_step u
  | VatOdd => vat_odd_step u
  end.

(** [smart_text((10 - total % 10) % 10)], the [return] statement. *)
Definition vat_return (total : Z) : string :=
  smart_text (PyInt ((10 - total `mod` 10) `mod` 10)).

(** The steps on the text [u], the argument zero-filled to ten. *)
Inductive vat_step (u : string) : relation vat_config :=
| vat_step_next ph i xs total total' :
    vat_body ph u total i = Ok total' →
    vat_step u (VatIter ph (i :: xs) total) (VatIter ph xs total')
| vat_step_raise ph i xs total e :
    vat_body ph u total i = Raise e →
    vat_step u (VatIter ph (i :: xs) total) (VatDone (Raise e))
| vat_step_second total :
    vat_step u (VatIter VatEven [] total) (VatIter VatOdd (py_range 1 11 2) total)
| vat_step_return total :
    vat_step u (VatIter VatOdd [] total) (VatDone (Ok (vat_return total))).

(** The configuration in which the first loop is entered. *)
Definition vat_start : vat_config := VatIter VatEven (py_range 0 10 2) 0.

(** What a configuration of the loop of a phase is in the machine: the end
    of the first loop enters the second, the end of the second returns. *)
Definition vat_embed (ph : vat_phase) (c : loop_config Z Z) : vat_config :=
  match c with
  | Iter xs total => VatIter ph xs total
  | Done (Raise e) => VatDone (Raise e)
  | Done (Ok total) =>
      match ph with
      | VatEven => VatIter VatOdd (py_range 1 11 2) total
      | VatOdd => VatDone (Ok (vat_return total))
      end
  end.

(** The step as a function. *)
Definition vat_next (u : string) (c : vat_config) : option vat_config :=
  match c with
  | VatIter ph xs total =>
      vat_embed ph <$> loop_next (vat_body ph u) (Iter xs total)
  | VatDone _ => None
  end.

(** [n] steps of the machine, fewer when it stops before. *)
Fixpoint vat_run (u : string) (n : nat) (c : vat_config) : vat_config :=
  match n with
  | O => c
  | S n' =>
      match vat_next u c with
      | Some c' => vat_run u n' c'
      | None => c
      end
  end.

(** The number of steps a configuration has left at most. *)
Definition vat_fuel (c : vat_config) : nat :=
  match c with
  | VatIter VatEven xs _ => length xs + 7
  | VatIter VatOdd xs _ => length xs + 1
  | VatDone _ => 0
  end.

(** The number of digits added to [total] in a configuration. *)
Definition vat_visited (ph : vat_phase) (xs : list Z) : Z :=
  match ph with
  | VatEven => 5 - Z.of_nat (length xs)
  | VatOdd => 10 - Z.of_nat (length xs)
  end.

(** The invariant: at most five indices are left in a loop, and [total] is
    between 0 and nine times the number of digits added. *)
Definition vat_inv (c : vat_config) : Prop :=
  match c with
  | VatIter ph xs total =>
      (length xs ≤ 5)%nat ∧ 0 ≤ total ≤ 9 * vat_visited ph xs
  | VatDone _ => True
  end.

(** The indices of the loop of a phase. *)
Definition vat_phase_range (ph : vat_phase) : list Z :=
  match ph with
  | VatEven => py_range 0 10 2
  | VatOdd => py_range 1 11 2
  end.

(** What the iteration at index [i] adds to [total]: the digit at an even
    index, the sum of the digits of twice the digit at an odd one. *)
Definition vat_term (u : string) (i : Z) : Z :=
  if Z.even i then digit_at u i else luhn_double (digit_at u i).

(** [total], from the value [t], after the iterations at the indices
    [zs]. *)
Definition vat_partial (u : string) (t : Z) (zs : list Z) : Z :=
  foldl (λ s i, s + vat_term u i) t zs.

(** The indices read since the start when the loop of a phase has visited
    the indices [zs]. *)
Definition vat_read (ph : vat_phase) (zs : list Z) : list Z :=
  match ph with
  | VatEven => zs
  | VatOdd => py_range 0 10 2 ++ zs
  end.

(** The configurations of the machine on the text [u], by the reference:
    inside a loop, the characters at the indices read so far are digits and
    [total] is the sum of their terms; at the end, the result is
    [vat_result]. *)
Definition vat_reach (u : string) (c : vat_config) : Prop :=
  match c with
  | VatIter ph xs total =>
      ∃ zs, vat_phase_range ph = zs ++ xs
            ∧ Forall (λ i, is_digit (vat_char u i) = true) (vat_read ph zs)
            ∧ total = vat_partial u 0 (vat_read ph zs)
  | VatDone r => r = vat_result u
  end.

(** The length of the run on the text [u]: one step for each index, in the
    order of the loops, up to the first whose character is not a digit,
    that one included, and one more to pass from the first loop to the
    second; twelve when the ten characters are digits. *)
Definition vat_steps (u : string) : nat :=
  match list_find (λ i, is_digit (vat_char u i) = false) vat_read_order with
  | Some (k, _) => if decide (k < 5)%nat then S k else S (S k)
  | None => 12
  end.

(** ** The steps *)

Lemma vat_step_embed u ph c c' :
  loop_step (vat_body ph u) c c' →
  vat_step u (vat_embed ph c) (vat_embed ph c').
Proof.
  intros [i xs st st' E|i xs st e E|st]; cbn; [by constructor..|].
  destruct ph; constructor.
Qed.

Lemma vat_step_next_iff u c c' : vat_step u c c' ↔ vat_next u c = Some c'.
Proof.
  split.
  - intros [ph i xs t t' E|ph i xs t e E|t|t]; cbn; by rewrite ?E.
  - destruct c as [ph xs t|r]; [|done]. cbn [vat_next].
    destruct (loop_next _ _) as [lc|] eqn:E; [|done]. intros [= <-].
    apply loop_step_next_iff in E. by apply (vat_step_embed _ _ (Iter xs t)).
Qed.

Lemma vat_step_det u c c1 c2 : vat_step u c c1 → vat_step u c c2 → c1 = c2.
Proof. rewrite !vat_step_next_iff. congruence. Qed.

Lemma vat_nf_done u c : nf (vat_step u) c ↔ ∃ r, c = VatDone r.
Proof.
  split.
  - intros Hnf. destruct c as [ph xs t|r]; [|by exists r]. destruct Hnf.
    destruct (vat_next u (VatIter ph xs t)) as [c'|] eqn:E.
    + exists c'. by apply vat_step_next_iff.
    + by destruct xs.
  - intros [r ->] [c' Hc]. inversion Hc.
Qed.

Lemma vat_step_fuel u c c' : vat_step u c c' → (vat_fuel c' < vat_fuel c)%nat.
Proof.
  intros [[] ? ? ? ? ?|[] ? ? ? ? ?| |]; cbn [vat_fuel length];
    try change (length (py_range 1 11 2)) with 5%nat; lia.
Qed.

Lemma vat_rtc_fuel u c c' :
  rtc (vat_step u) c c' → (vat_fuel c' ≤ vat_fuel c)%nat.
Proof. induction 1 as [|c c1 c2 Hs%vat_step_fuel _ IH]; [done|lia]. Qed.

Lemma vat_run_steps u n c : rtc (vat_step u) c (vat_run u n c).
Proof.
  revert c; induction n as [|n IH]; intros c; cbn; [done|].
  destruct (vat_next u c) as [c'|] eqn:E; [|done].
  eapply rtc_l; [by apply vat_step_next_iff|apply IH].
Qed.

(** Running for longer than a run that ends gives where it ends. *)
Lemma vat_run_nsteps u k n c r :
  nsteps (vat_step u) k c (VatDone r) → (k ≤ n)%nat →
  vat_run u n c = VatDone r.
Proof.
  revert n c; induction k as [|k IH]; intros n c Hk Hn.
  - inversion Hk; subst. by destruct n.
  - inversion Hk as [|? ? c1 ? Hs Hr]; subst.
    destruct n as [|n]; [lia|]. cbn.
    apply vat_step_next_iff in Hs as ->. apply IH; [done|lia].
Qed.

(** The run of one loop, in the machine. *)
Lemma vat_run_loop u ph xs total :
  rtc (vat_step u) (VatIter ph xs total)
    (vat_embed ph (Done (for_loop xs (vat_body ph u) total))).
Proof.
  apply (rtc_congruence (R:=loop_step (vat_body ph u)) (vat_embed ph)
           (vat_step u) (Iter xs total)).
  - apply vat_step_embed.
  - apply loop_steps_for_loop.
Qed.

(** The run of the two loops: the result of the function. *)
Lemma vat_run_loops u :
  rtc (vat_step u) vat_start
    (VatDone (total ← vat_loops u; Ok (vat_return total))).
Proof.
  unfold vat_start, vat_loops. etrans; [apply vat_run_loop|]. cbn [vat_body].
  destruct (for_loop (py_range 0 10 2) _ 0) as [t|e]; cbn; [|done].
  etrans; [apply vat_run_loop|]. cbn [vat_body].
  by destruct (for_loop (py_range 1 11 2) _ t).
Qed.

(** ** The bodies add one digit *)

Lemma luhn_double_range d : 0 ≤ d ≤ 9 → 0 ≤ luhn_double d ≤ 9.
Proof. unfold luhn_double. intros Hd. Z.div_mod_to_equations. lia. Qed.

Lemma vat_body_Ok ph u total i total' :
  vat_body ph u total i = Ok total' → 0 ≤ total' - total ≤ 9.
Proof.
  destruct ph; cbn; unfold vat_even_step, vat_odd_step;
    intros (c & (a & -> & _)%py_getitem_Ok & Hd)%bind_Ok;
    cbn [py_int] in Hd; rewrite py_int_str_char in Hd;
    destruct (is_digit a) eqn:Ha; simplify_eq/=;
    pose proof (digit_val_range _ Ha) as Hr;
    [|pose proof (luhn_double_range _ Hr); unfold luhn_double in *]; lia.
Qed.

(** Every step keeps the invariant. *)
Lemma vat_step_inv u c c' : vat_step u c c' → vat_inv c → vat_inv c'.
Proof.
  intros [ph i xs t t' E%vat_body_Ok|ph i xs t e E|t|t]; cbn [vat_inv];
    [|done| |done].
  - destruct ph; cbn [vat_visited length]; lia.
  - cbn [vat_visited]. change (length (py_range 1 11 2)) with 5%nat.
    cbn [length]. lia.
Qed.

(** The runs from the start that end, end with the result of the loops. *)
Lemma vat_reach_done u r :
  rtc (vat_step u) vat_start (VatDone r)
  ↔ r = (total ← vat_loops u; Ok (vat_return total)).
Proof.
  split; [|intros ->; apply vat_run_loops].
  intros Hr. assert (VatDone r = VatDone (total ← vat_loops u;
                                          Ok (vat_return total))) as [= ->]; [|done].
  eapply (rtc_det_nf (vat_step u));
    [apply vat_step_det|done|apply vat_nf_done; eauto
    |apply vat_run_loops|apply vat_nf_done; eauto].
Qed.

(** Every run ends, in as many steps as the configuration has fuel at
    most. *)
Lemma vat_fuel_live u c :
  ∃ (n : nat) (r : result string),
    (n ≤ vat_fuel c)%nat ∧ nsteps (vat_step u) n c (VatDone r).
Proof.
  remember (vat_fuel c) as k eqn:Ek. revert c Ek.
  induction k as [k IH] using lt_wf_ind; intros c ->.
  destruct c as [ph xs t|r]; [|exists 0%nat, r; split; [done|constructor]].
  destruct (vat_next u (VatIter ph xs t)) as [c'|] eqn:E; [|by destruct xs].
  apply vat_step_next_iff in E. pose proof (vat_step_fuel _ _ _ E) as Hf.
  destruct (IH _ Hf c' eq_refl) as (n & r & Hn & Hr).
  exists (S n), r. split; [lia|]. by econstructor.
Qed.

(** ** The loops against the reference *)

Lemma vat_phase_parity ph (i : Z) :
  i ∈ vat_phase_range ph → Z.even i = bool_decide (ph = VatEven).
Proof.
  destruct ph; cbn [vat_phase_range];
    [change (py_range 0 10 2) with [0; 2; 4; 6; 8]
    |change (py_range 1 11 2) with [1; 3; 5; 7; 9]];
    rewrite !elem_of_cons, elem_of_nil; by intros [->|[->|[->|[->|[->|[]]]]]].
Qed.

Lemma vat_read_snoc ph zs (i : Z) :
  vat_read ph (zs ++ [i]) = vat_read ph zs ++ [i].
Proof. destruct ph; cbn [vat_read]; [done|by rewrite app_assoc]. Qed.

(** The indices read so far and those left in the loop begin the order in
    which the function reads. *)
Lemma vat_read_order_split ph zs xs :
  vat_phase_range ph = zs ++ xs →
  ∃ rest, vat_read_order = vat_read ph zs ++ xs ++ rest.
Proof.
  unfold vat_read_order. destruct ph; cbn [vat_phase_range vat_read]; intros ->.
  - exists (py_range 1 11 2). by rewrite <- app_assoc.
  - exists []. by rewrite app_nil_r.
Qed.

Section reference.
Context (u : string) (Hlen : 10 ≤ py_len u).

(** The body of each loop raises exactly on the characters that are not
    digits, and adds the term of the index otherwise. *)
Lemma vat_body_guarded ph total (i : Z) :
  i ∈ vat_phase_range ph →
  vat_body ph u total i
  = if is_digit (vat_char u i) then Ok (total + vat_term u i)
    else Raise (ValueError_int (String (vat_char u i) EmptyString)).
Proof.
  intros Hi. unfold vat_term. rewrite (vat_phase_parity ph i Hi).
  destruct ph; cbn [vat_body vat_phase_range] in *;
    [by apply vat_even_step_guarded|by apply vat_odd_step_guarded].
Qed.

Lemma vat_body_guarded_in ph zs xs total (i : Z) :
  vat_phase_range ph = zs ++ xs → i ∈ zs →
  vat_body ph u total i
  = if is_digit (vat_char u i) then Ok (total + vat_term u i)
    else Raise (ValueError_int (String (vat_char u i) EmptyString)).
Proof.
  intros Hr Hi. apply vat_body_guarded. rewrite Hr, elem_of_app. by left.
Qed.

(** The run of a loop over indices whose characters are digits. *)
Lemma vat_phase_run ph zs xs t :
  vat_phase_range ph = zs ++ xs →
  Forall (λ i, is_digit (vat_char u i) = true) zs →
  rtc (vat_step u) (VatIter ph (zs ++ xs) t) (VatIter ph xs (vat_partial u t zs)).
Proof.
  intros Hr Hd.
  apply (rtc_congruence (R:=loop_step (vat_body ph u)) (vat_embed ph)
           (vat_step u) (Iter (zs ++ xs) t) (Iter xs (vat_partial u t zs)));
    [apply vat_step_embed|].
  apply loop_reach_iter. exists zs. split; [done|].
  by apply (for_loop_guarded_Ok _ _ _ _ _ _ _
              (λ s i Hi, vat_body_guarded_in ph zs xs s i Hr Hi)).
Qed.

(** The run of the first loop, and the passage to the second. *)
Lemma vat_first_loop_run :
  Forall (λ i, is_digit (vat_char u i) = true) (py_range 0 10 2) →
  rtc (vat_step u) vat_start
    (VatIter VatOdd (py_range 1 11 2) (vat_partial u 0 (py_range 0 10 2))).
Proof.
  intros He. eapply rtc_r; [|apply vat_step_second].
  unfold vat_start. rewrite <- (app_nil_r (py_range 0 10 2)) at 1.
  apply vat_phase_run; [by rewrite app_nil_r|done].
Qed.

(** The result when the ten characters are digits, and when one is not. *)
Lemma vat_result_digits :
  Forall (λ i, is_digit (vat_char u i) = true) vat_read_order →
  vat_result u = Ok (vat_return (vat_partial u 0 vat_read_order)).
Proof.
  intros [He Ho]%Forall_app. rewrite <- vat_loops_result by done.
  unfold vat_loops, vat_read_order, vat_partial. rewrite foldl_app.
  rewrite (proj2 (for_loop_guarded_Ok _ _ _ _ _ _ _
                    (vat_body_guarded VatEven)) (conj He eq_refl)).
  cbn [mbind result_bind].
  by rewrite (proj2 (for_loop_guarded_Ok _ _ _ _ _ _ _
                       (vat_body_guarded VatOdd)) (conj Ho eq_refl)).
Qed.

Lemma vat_result_raise pre (i : Z) rest :
  vat_read_order = pre ++ i :: rest →
  Forall (λ i, is_digit (vat_char u i) = true) pre →
  is_digit (vat_char u i) = false →
  vat_result u = Raise (ValueError_int (String (vat_char u i) EmptyString)).
Proof.
  intros Ho Hpre Hi. unfold vat_result, vat_first_bad.
  rewrite Ho, list_find_first; [done| |done].
  eapply Forall_impl; [done|]. by intros j ->.
Qed.

(** ** The configurations reached *)

Lemma vat_reach_start : vat_reach u vat_start.
Proof. by exists []. Qed.

Lemma vat_step_reach c c' : vat_reach u c → vat_step u c c' → vat_reach u c'.
Proof.
  intros Hc Hs. revert Hc.
  destruct Hs as [ph i xs t t' E|ph i xs t e E|t|t]; cbn [vat_reach];
    intros (zs & Hr & Hd & ->).
  - rewrite vat_body_guarded in E by (rewrite Hr; set_solver).
    destruct (is_digit _) eqn:Hi; [|done]. injection E as <-.
    exists (zs ++ [i]). rewrite vat_read_snoc, <- app_assoc, Forall_app.
    split_and!; [done..|by constructor|]. unfold vat_partial. by rewrite foldl_app.
  - rewrite vat_body_guarded in E by (rewrite Hr; set_solver).
    destruct (is_digit _) eqn:Hi; [done|]. injection E as <-.
    destruct (vat_read_order_split _ _ _ Hr) as [rest Ho].
    symmetry. by eapply vat_result_raise.
  - rewrite app_nil_r in Hr. cbn in Hr, Hd. subst zs.
    exists []. cbn [vat_read vat_phase_range]. by rewrite app_nil_r.
  - rewrite app_nil_r in Hr. cbn in Hr. subst zs.
    symmetry. by apply vat_result_digits.
Qed.

Lemma vat_reach_run c : vat_reach u c → rtc (vat_step u) vat_start c.
Proof.
  destruct c as [ph xs t|r]; cbn [vat_reach].
  - intros (zs & Hr & Hd & ->). unfold vat_start.
    destruct ph; cbn [vat_read vat_phase_range] in *.
    + rewrite Hr. by apply vat_phase_run.
    + apply Forall_app in Hd as [He Ho].
      etrans; [by apply vat_first_loop_run|]. rewrite Hr.
      unfold vat_partial at 2. rewrite foldl_app. by apply vat_phase_run.
  - intros ->. apply vat_reach_done. symmetry. by apply vat_loops_result.
Qed.

(** ** The length of the run *)

Lemma vat_steps_bound : (vat_steps u ≤ 12)%nat.
Proof.
  unfold vat_steps. destruct (list_find _ _) as [[k i]|] eqn:E; [|done].
  apply list_find_Some in E as (Hk%lookup_lt_Some & _).
  change (length vat_read_order) with 10%nat in Hk. case_decide; lia.
Qed.

Lemma vat_phase_steps ph t :
  loop_steps (vat_body ph u) (vat_phase_range ph) t
  = match list_find (λ i, is_digit (vat_char u i) = false) (vat_phase_range ph)
    with Some (k, _) => S k | None => 6%nat end.
Proof.
  rewrite (loop_steps_guarded _ _ _ _ _ _ (vat_body_guarded ph)).
  by destruct ph.
Qed.

(** The run of the loop of a phase, in the machine. *)
Lemma vat_phase_nsteps ph t :
  nsteps (vat_step u)
    (match list_find (λ i, is_digit (vat_char u i) = false) (vat_phase_range ph)
     with Some (k, _) => S k | None => 6 end)
    (VatIter ph (vat_phase_range ph) t)
    (vat_embed ph (Done (for_loop (vat_phase_range ph) (vat_body ph u) t))).
Proof.
  rewrite <- (vat_phase_steps ph t).
  apply (nsteps_congruence (R:=loop_step (vat_body ph u)) (vat_embed ph)
           (vat_step u) _ (Iter (vat_phase_range ph) t)
           (Done (for_loop (vat_phase_range ph) (vat_body ph u) t)));
    [apply vat_step_embed|apply loop_nsteps_for_loop].
Qed.

(** A run from the start that ends, ends with the reference result. *)
Lemma vat_nsteps_result n r :
  nsteps (vat_step u) n vat_start (VatDone r) →
  nsteps (vat_step u) n vat_start (VatDone (vat_result u)).
Proof.
  intros Hn. replace (vat_result u) with r; [done|].
  rewrite <- vat_loops_result by done.
  by apply vat_reach_done, (rtc_nsteps_2 n).
Qed.

Lemma vat_start_nsteps :
  nsteps (vat_step u) (vat_steps u) vat_start (VatDone (vat_result u)).
Proof.
  pose proof (vat_phase_nsteps VatEven 0) as H1. unfold vat_steps, vat_read_order.
  rewrite (for_loop_guarded _ _ _ _ _ _ (vat_body_guarded VatEven)) in H1.
  cbn [vat_phase_range] in H1.
  destruct (list_find _ (py_range 0 10 2)) as [[k i]|] eqn:E1.
  - rewrite (list_find_app_l _ _ _ _ _ E1).
    apply list_find_Some in E1 as (Hk%lookup_lt_Some & _).
    change (length (py_range 0 10 2)) with 5%nat in Hk.
    rewrite decide_True by done. by eapply vat_nsteps_result.
  - rewrite (list_find_app_r _ _ _ E1).
    change (length (py_range 0 10 2)) with 5%nat.
    pose proof (vat_phase_nsteps VatOdd (vat_partial u 0 (py_range 0 10 2))) as H2.
    pose proof (nsteps_trans _ _ _ _ _ H1 H2) as H. clear H1 H2.
    cbn [vat_phase_range] in H.
    destruct (for_loop _ _ _) as [t|e]; cbn [vat_embed] in H;
      apply vat_nsteps_result in H;
      destruct (list_find _ (py_range 1 11 2)) as [[k i]|];
      cbn [fmap option_fmap option_map prod_map fst snd id]; [|done| |done];
      rewrite decide_False by lia;
      by replace (S (S (k + 5))) with (6 + S k)%nat by lia.
Qed.

End reference.

(** ** Theorems *)

(** C16. The invariant of the two loops: in every configuration that
    [vat_number_check_digit] reaches, at most five indices are left in the
    current loop and [total] lies between 0 and nine times the number of
    digits read so far; it is at most 90 when the function returns. *)
Theorem vat_reach_invariant (u : string) (c : vat_config) :
  rtc (vat_step u) vat_start c → vat_inv c.
Proof.
  revert c. apply rtc_ind_r; [|intros c c' _ Hs IH; by eapply vat_step_inv].
  cbn. change (length (py_range 0 10 2)) with 5%nat. lia.
Qed.

(** The machine of the two loops computes [vat_number_check_digit]: the
    runs from the start that end, end with the result of the function on
    the argument whose zero-filled text is read. *)
Lemma vat_steps_check_digit (v : pyval) (r : result string) :
  rtc (vat_step (vat_text v)) vat_start (VatDone r)
  ↔ r = vat_number_check_digit v.
Proof. by rewrite vat_reach_done, vat_number_check_digit_loops. Qed.

(** C14. The configurations that the two loops of [vat_number_check_digit]
    reach on the zero-filled text of the argument are exactly those of the
    reference: inside a loop, some of its indices have been visited, the
    characters at the indices read since the start are digits and [total]
    is the sum of their terms (the digit at an even index, the digit sum of
    twice the digit at an odd one); at the end, the result is the
    [ValueError] of the first character, in the order of the loops, that is
    not a digit, or the control digit of the ten. *)
Theorem vat_loop_reachable (v : pyval) (c : vat_config) :
  rtc (vat_step (vat_text v)) vat_start c ↔ vat_reach (vat_text v) c.
Proof.
  split; [|apply vat_reach_run, vat_text_length].
  revert c. apply rtc_ind_r; [apply vat_reach_start|].
  intros c c' _ Hs Hc. by eapply vat_step_reach; [apply vat_text_length|..].
Qed.

(** C18. The two loops end, and when: on the zero-filled text of the
    argument the run from the start has [vat_steps] steps, twelve at most
    (one for each index up to the first whose character is not a digit, one
    to pass from the first loop to the second); it ends with the reference
    result [vat_result], and from every configuration on the way the same
    end is reached in at most as many steps. *)
Theorem vat_live (v : pyval) (c : vat_config) :
  rtc (vat_step (vat_text v)) vat_start c →
  (vat_steps (vat_text v) ≤ 12)%nat
  ∧ nsteps (vat_step (vat_text v)) (vat_steps (vat_text v)) vat_start
      (VatDone (vat_result (vat_text v)))
  ∧ ∃ n : nat,
      (n ≤ vat_steps (vat_text v))%nat
      ∧ nsteps (vat_step (vat_text v)) n c (VatDone (vat_result (vat_text v))).
Proof.
  intros Hc. pose proof (vat_start_nsteps _ (vat_text_length v)) as Hn.
  split_and!; [apply vat_steps_bound|done|].
  eapply nsteps_det_rest; [apply vat_step_det|done| |done].
  apply vat_nf_done. by eexists.
Qed.

(** Twelve steps are enough: run for twelve steps or more from the
    start, on the zero-filled text of the argument, the machine has stopped
    with the result of [vat_number_check_digit]. *)
Theorem vat_run_check_digit (v : pyval) (n : nat) :
  (12 ≤ n)%nat →
  vat_run (vat_text v) n vat_start = VatDone (vat_number_check_digit v).
Proof.
  intros Hn.
  destruct (vat_fuel_live (vat_text v) vat_start) as (k & r & Hk & Hr).
  change (vat_fuel vat_start) with 12%nat in Hk.
  rewrite (vat_run_nsteps _ _ _ _ _ Hr) by lia. f_equal.
  rewrite vat_number_check_digit_loops. by apply vat_reach_done, (rtc_nsteps_2 k).
Qed.

(** ** Instances of the theorems *)

Lemma vat_reach_invariant_witness :
  vat_inv (vat_run "1234567001" 8 vat_start).
Proof. apply (vat_reach_invariant "1234567001"), vat_run_steps. Defined.

Lemma vat_run_check_digit_witness :
  vat_run (vat_text (PyInt 1234567001)) 12 vat_start = VatDone (Ok "7"%string).
Proof. by rewrite vat_run_check_digit. Defined.

Lemma vat_loop_reachable_witness :
  vat_reach (vat_text (PyStr "12a4567b01"))
    (vat_run (vat_text (PyStr "12a4567b01")) 1 vat_start)
  ∧ vat_reach (vat_text (PyStr "12a4567b01"))
      (vat_run (vat_text (PyStr "12a4567b01")) 2 vat_start).
Proof. split; apply vat_loop_reachable, vat_run_steps. Defined.

Lemma vat_live_witness :
  (vat_steps (vat_text (PyInt 1234567001)) ≤ 12)%nat
  ∧ nsteps (vat_step (vat_text (PyInt 1234567001)))
      (vat_steps (vat_text (PyInt 1234567001))) vat_start
      (VatDone (vat_result (vat_text (PyInt 1234567001))))
  ∧ ∃ n : nat,
      (n ≤ vat_steps (vat_text (PyInt 1234567001)))%nat
      ∧ nsteps (vat_step (vat_text (PyInt 1234567001))) n
          (vat_run (vat_text (PyInt 1234567001)) 3 vat_start)
          (VatDone (vat_result (vat_text (PyInt 1234567001)))).
Proof. apply vat_live, vat_run_steps. Defined.

(** The run on a text of digits has twelve steps; a character that is not
    a digit at index 2 stops it at the second step, one at index 7, in the
    second loop, at the tenth: five iterations, the passage to the second
    loop, three iterations and the one that raises. *)
Example vat_steps_ex :
  vat_steps "1234567001" = 12%nat
  ∧ vat_result "1234567001" = Ok "7"%string
  ∧ vat_steps "12a4567b01" = 2%nat
  ∧ vat_result "12a4567b01" = Raise (ValueError_int "a")
  ∧ vat_steps "1234567b01" = 10%nat
  ∧ vat_run "12a4567b01" 2 vat_start = VatDone (Raise (ValueError_int "a"))
  ∧ vat_run "1234567b01" 10 vat_start = VatDone (Raise (ValueError_int "b")).
Proof. by vm_compute. Qed.
