(* ===== verification/VatValid.v ===== *)
(** * VAT validation: [vat_number_validation]

    The function is characterised on every integer: below [10^11] (the
    eleven-digit text, or the check-digit error), above (only the first
    eleven digits are checked) and negative (the [ValueError] of [int('-')]
    escapes).  Then idempotence, the round trip with
    [vat_number_check_digit] and the form of what is returned. *)

From S2P Require Import Prelude PyBuiltins Django PyDecimal Vat VatCheck.

#[local] Open Scope Z_scope.

(** Two arguments that [int()] reads alike, or rejects alike. *)
Definition same_int (v w : pyval) : Prop := py_int v = py_int w.

#[export] Instance same_int_equiv : Equivalence same_int.
Proof.
  unfold same_int. split; [by intros ?|by intros ??|].
  intros ??? -> ->. done.
Qed.

Section validation.
Context {translation : Translation}.

(** The function after its first line: the checks on the normalised text. *)
Definition vat_validate_text (vat_number : string) : result string :=
  check_digit ← vat_number_check_digit (PyStr (py_slice vat_number 0 10));
  c ← py_getitem vat_number 10;
  if bool_decide (c ≠ check_digit) then Raise (ValueError vat_check_digit_msg)
  else Ok (smart_text (PyStr vat_number)).

Lemma vat_number_validation_unfold v :
  vat_number_validation v
  = n ← py_int v; vat_validate_text (py_zfill (py_str_int n) 11).
Proof. done. Qed.

(** [zfill] leaves a text that is wide enough as it is. *)
Lemma py_zfill_wide s (w : Z) : w ≤ py_len s → py_zfill s w = s.
Proof.
  intros Hw. unfold py_zfill.
  replace (Z.to_nat (w - py_len s)) with 0%nat by lia. cbn [str_repeat].
  destruct s as [|c r]; [done|]. rewrite !str_app_nil_l. by destruct (is_sign c).
Qed.

(** The ten characters read from the slice of a text of eleven characters at
    least are its first ten. *)
Lemma vat_chars_slice s :
  11 ≤ py_len s → vat_chars (PyStr (py_slice s 0 10)) = take 10 (chars s).
Proof.
  intros Hs. rewrite py_len_chars in Hs.
  assert (chars (py_slice s 0 10) = take 10 (chars s)) as Hc.
  { change (py_slice s 0 10) with (py_slice s (Z.of_nat 0) (Z.of_nat 10)).
    rewrite chars_py_slice_in by lia. by rewrite drop_0. }
  unfold vat_chars, vat_text, smart_text, py_str.
  rewrite py_zfill_wide, Hc; [by rewrite take_take|].
  rewrite py_len_chars, Hc, length_take. lia.
Qed.

Lemma vat_validate_text_digits ds :
  is_digit_list ds → (11 ≤ length ds)%nat →
  vat_validate_text (digits_str ds)
  = if bool_decide (ds !! 10%nat = Some (vat_check (take 10 ds)))
    then Ok (digits_str ds) else Raise (ValueError vat_check_digit_msg).
Proof.
  intros Hds Hl. unfold vat_validate_text.
  assert (11 ≤ py_len (digits_str ds)) as Hlen
    by (unfold py_len; rewrite digits_str_length; lia).
  destruct (lookup_lt_is_Some_2 ds 10) as [d Hd]; [lia|].
  assert (0 ≤ d ≤ 9) as Hr by (by eapply (proj1 (Forall_lookup _ _) Hds)).
  rewrite vat_check_digit_chars; rewrite vat_chars_slice, chars_digits_str,
    <- fmap_take by done; [|by apply digit_chars_are_digits, Forall_take].
  rewrite digit_val_digit_chars by by apply Forall_take.
  simpl_result.
  rewrite (py_getitem_lookup _ 10 (digit_char d))
    by by rewrite chars_digits_str, list_lookup_fmap, Hd.
  cbn [mbind result_bind digits_str smart_text py_str]. rewrite Hd.
  pose proof (vat_check_range (take 10 ds)) as Hc.
  repeat case_bool_decide; try done; exfalso.
  - match goal with H : Some _ = Some _ |- _ => injection H as -> end. done.
  - match goal with H : String _ _ = String _ _ |- _ =>
      injection H as H%(f_equal digit_val) end.
    rewrite !digit_val_digit_char in * by done. by simplify_eq.
Qed.

(** A first character that is not a digit stops the first loop at once. *)
Lemma vat_loops_first_bad u c :
  10 ≤ py_len u → chars u !! 0%nat = Some c → is_digit c = false →
  vat_loops u = Raise (ValueError_int (String c EmptyString)).
Proof.
  intros Hlen Hc Hd. unfold vat_loops.
  change (py_range 0 10 2) with [0; 2; 4; 6; 8]. cbn [for_loop].
  rewrite (vat_even_step_at u Hlen) by lia.
  change (Z.to_nat 0) with 0%nat. by rewrite Hc, Hd.
Qed.

Lemma vat_validate_text_minus r :
  10 ≤ py_len r →
  vat_validate_text (String "-" r) = Raise (ValueError_int "-").
Proof.
  intros Hr. unfold vat_validate_text.
  assert (11 ≤ py_len (String "-" r)) as Hlen
    by (unfold py_len in *; cbn [String.length]; lia).
  pose proof (vat_chars_slice _ Hlen) as Hc. unfold vat_chars in Hc.
  rewrite vat_number_check_digit_loops,
    (vat_loops_first_bad _ "-"); [done|apply vat_text_length| |done].
  apply (f_equal (λ l, l !! 0%nat)) in Hc.
  by rewrite !lookup_take_lt in Hc by lia.
Qed.

(** The normalised text of a natural number: its decimal expansion, on
    eleven digits at least. *)
Lemma ndigits_wide (w : nat) n : 10 ^ Z.of_nat w ≤ n → (w < ndigits n)%nat.
Proof.
  intros Hn. assert (0 < 10 ^ Z.of_nat w) by (apply Z.pow_pos_nonneg; lia).
  destruct (ndigits_bound n) as (Hub & _ & _); [lia|].
  apply Nat2Z.inj_lt, (Z.pow_lt_mono_r_iff 10); lia.
Qed.

Lemma vat_normalized_nonneg n :
  0 ≤ n → py_zfill (py_str_int n) 11 = zpad (Nat.max 11 (ndigits n)) n.
Proof.
  intros Hn. destruct (Z.lt_ge_cases n (10 ^ 11)) as [Hs|Hw].
  - rewrite (py_zfill_str_fits 11) by (lia || done).
    by rewrite Nat.max_l by (apply ndigits_le; [done|lia]).
  - rewrite (py_zfill_str_wide 11) by done.
    rewrite Nat.max_r by (apply Nat.lt_le_incl, ndigits_wide; done).
    unfold py_str_int. destruct (Z.ltb_spec n 0); [lia|].
    apply py_str_nonneg_zpad.
Qed.

Lemma vat_normalized_neg n :
  n < 0 → ∃ r, py_zfill (py_str_int n) 11 = String "-" r ∧ 10 ≤ py_len r.
Proof.
  intros Hn. unfold py_str_int. destruct (Z.ltb_spec n 0); [|lia].
  rewrite py_str_nonneg_zpad. unfold zpad. rewrite py_zfill_minus_digits.
  eexists; split; [done|]. unfold py_len.
  rewrite digits_str_length, length_app, length_replicate, zdigits_length. lia.
Qed.

(** Whether the digits [ds], eleven at least, carry their control digit. *)
Definition vat_valid_digits (ds : list Z) : bool :=
  bool_decide (ds !! 10%nat = Some (vat_check (take 10 ds))).

Lemma vat_valid_digits_app ds rest :
  length ds = 11%nat → vat_valid_digits (ds ++ rest) = vat_valid_digits ds.
Proof.
  intros Hl. unfold vat_valid_digits.
  rewrite lookup_app_l, take_app_le by lia. done.
Qed.

Lemma vat_valid_digits_11 n :
  vat_valid_digits (zdigits 11 n)
  = bool_decide (n `mod` 10 = vat_check (zdigits 10 (n `div` 10))).
Proof.
  unfold vat_valid_digits. change (zdigits 11 n)
    with (zdigits 10 (n `div` 10) ++ [n `mod` 10]).
  rewrite lookup_app_r, take_app_length' by by rewrite zdigits_length.
  rewrite zdigits_length. cbn. apply bool_decide_ext. split; congruence.
Qed.

(** The result of [vat_number_validation] on a natural number. *)
Lemma vat_validation_nonneg n :
  0 ≤ n →
  vat_number_validation (PyInt n)
  = let ds := zdigits (Nat.max 11 (ndigits n)) n in
    if vat_valid_digits ds then Ok (digits_str ds)
    else Raise (ValueError vat_check_digit_msg).
Proof.
  intros Hn. rewrite vat_number_validation_unfold. cbn [py_int mbind result_bind].
  rewrite vat_normalized_nonneg by done. unfold zpad.
  apply vat_validate_text_digits; [auto with py|].
  rewrite zdigits_length. lia.
Qed.

Lemma vat_validation_neg n :
  n < 0 → vat_number_validation (PyInt n) = Raise (ValueError_int "-").
Proof.
  intros Hn. rewrite vat_number_validation_unfold. cbn [py_int mbind result_bind].
  destruct (vat_normalized_neg n Hn) as (r & -> & Hr).
  by apply vat_validate_text_minus.
Qed.

(** [vat_number_validation] reads its argument through [int()] only. *)
#[export] Instance vat_number_validation_proper :
  Proper (same_int ==> eq) vat_number_validation.
Proof.
  intros v w Hvw. rewrite !vat_number_validation_unfold.
  unfold same_int in Hvw. by rewrite Hvw.
Qed.

Lemma vat_validation_int v n :
  py_int v = Ok n → vat_number_validation v = vat_number_validation (PyInt n).
Proof. intros Hv. by apply vat_number_validation_proper. Qed.

(** [vat_number_validation] on the text of eleven digits. *)
Lemma vat_validation_digits ds :
  is_digit_list ds → length ds = 11%nat →
  vat_number_validation (PyStr (digits_str ds))
  = if vat_valid_digits ds then Ok (digits_str ds)
    else Raise (ValueError vat_check_digit_msg).
Proof.
  intros Hds Hl. pose proof (zvalue_bound ds Hds) as Hb. rewrite Hl in Hb.
  rewrite (vat_validation_int _ (zvalue 0 ds))
    by (apply py_int_str_digits; [done|by intros ->]).
  rewrite vat_validation_nonneg by lia. cbn zeta.
  rewrite Nat.max_l by (apply ndigits_le; [done|lia]).
  by rewrite <- Hl, zdigits_zvalue.
Qed.

(** Eleven digits carry their control digit iff their weighted sum is a
    multiple of ten. *)
Lemma vat_valid_digits_sum ds :
  is_digit_list ds → length ds = 11%nat →
  vat_valid_digits ds = true ↔ vat_sum true ds `mod` 10 = 0.
Proof.
  intros Hds Hl. unfold vat_valid_digits. rewrite bool_decide_eq_true.
  destruct (lookup_lt_is_Some_2 ds 10) as [d Hd]; [lia|].
  assert (0 ≤ d ≤ 9) as Hr by (by eapply (proj1 (Forall_lookup _ _) Hds)).
  rewrite <- (take_drop 10 ds) at 3.
  rewrite (drop_S _ _ _ Hd), drop_ge, vat_sum_app, length_take by lia.
  replace (10 `min` length ds)%nat with 10%nat by lia.
  cbn [Nat.even vat_sum]. rewrite Hd, Z.add_0_r. split.
  - intros [= ->]. apply vat_check_sum.
  - intros Hs. f_equal. by apply vat_check_unique.
Qed.

(** [vat_number_validation] depends on its argument through [int()]
    only: arguments that [int()] reads as the same number (an integer, or
    text with white space around it, a plus sign, leading zeros or
    underscores between digits) have the same result, and an argument that
    [int()] rejects raises the exception of [int()]. *)
Theorem vat_number_validation_int_value v w :
  same_int v w →
  vat_number_validation v = vat_number_validation w
  ∧ (∀ e, py_int v = Raise e → vat_number_validation v = Raise e).
Proof.
  intros Hvw. split; [by rewrite Hvw|].
  intros e He. by rewrite vat_number_validation_unfold, He.
Qed.

(** C2. Functional behaviour: on an argument that [int()] reads as [n] with
    [0 <= n < 10^11], [vat_number_validation] returns the eleven-digit text of
    [n] when its last digit is the control digit of the ten before, and
    raises [ValueError] with the check-digit message otherwise. *)
Theorem vat_number_validation_spec v n :
  py_int v = Ok n → 0 ≤ n < 10 ^ 11 →
  vat_number_validation v
  = if bool_decide (n `mod` 10 = vat_check (zdigits 10 (n `div` 10)))
    then Ok (zpad 11 n) else Raise (ValueError vat_check_digit_msg).
Proof.
  intros Hv Hn. rewrite (vat_validation_int v n Hv), vat_validation_nonneg by lia.
  cbn zeta. rewrite Nat.max_l by (apply ndigits_le; [done|lia]).
  by rewrite vat_valid_digits_11.
Qed.

(** C33. A negative number is never validated, and the exception is not the
    check-digit error: the sign is handed to [int()] by the first loop of
    [vat_number_check_digit], whose [ValueError] escapes. *)
Theorem vat_number_validation_negative v n :
  py_int v = Ok n → n < 0 →
  vat_number_validation v = Raise (ValueError_int "-").
Proof.
  intros Hv Hn. rewrite (vat_validation_int v n Hv). by apply vat_validation_neg.
Qed.

(** C34. A number of more than eleven digits is not rejected for its length:
    [zfill] leaves it as it is, the first eleven digits are checked, the
    others are ignored, and the whole text is returned. *)
Theorem vat_number_validation_wide v n :
  py_int v = Ok n → 10 ^ 11 ≤ n →
  let m := n `div` 10 ^ Z.of_nat (ndigits n - 11) in
  vat_number_validation v
  = if bool_decide (m `mod` 10 = vat_check (zdigits 10 (m `div` 10)))
    then Ok (py_str_int n) else Raise (ValueError vat_check_digit_msg).
Proof.
  intros Hv Hn m. pose proof (ndigits_wide 11 n Hn) as Hk.
  rewrite (vat_validation_int v n Hv), vat_validation_nonneg by lia.
  cbn zeta. rewrite Nat.max_r by lia.
  replace (digits_str (zdigits (ndigits n) n)) with (py_str_int n)
    by (unfold py_str_int; destruct (Z.ltb_spec n 0); [lia|];
        apply py_str_nonneg_zpad).
  replace (ndigits n) with (11 + (ndigits n - 11))%nat at 1 by lia.
  rewrite zdigits_add, vat_valid_digits_app by apply zdigits_length.
  by rewrite vat_valid_digits_11.
Qed.

(** C29. The exceptions of [vat_number_validation]: those of [int()] on its
    argument ([TypeError] or the [ValueError] of a text that is no integer),
    the [ValueError] of [int('-')] for a negative number, and the
    check-digit [ValueError]; it never raises [IndexError]. *)
Theorem vat_number_validation_exceptions v e :
  vat_number_validation v = Raise e →
  py_int v = Raise e
  ∨ e = ValueError_int "-"
  ∨ e = ValueError vat_check_digit_msg.
Proof.
  destruct (py_int v) as [n|e'] eqn:Hv;
    [|rewrite vat_number_validation_unfold, Hv; cbn; intros [= ->]; auto].
  destruct (Z.lt_ge_cases n 0) as [Hneg|Hpos].
  - rewrite (vat_validation_int v n Hv), vat_validation_neg by done.
    intros [= <-]; auto.
  - rewrite (vat_validation_int v n Hv), vat_validation_nonneg by done. cbn zeta.
    destruct (vat_valid_digits _); [done|intros [= <-]; auto].
Qed.

(** C20. Idempotence: the text that [vat_number_validation] returns is
    validated again, to itself. *)
Theorem vat_number_validation_idempotent v r :
  vat_number_validation v = Ok r → vat_number_validation (PyStr r) = Ok r.
Proof.
  rewrite vat_number_validation_unfold.
  destruct (py_int v) as [n|] eqn:Hv; [|done]. simpl_result.
  intros Hr. assert (r = py_zfill (py_str_int n) 11) as ->.
  { unfold vat_validate_text in Hr.
    destruct (vat_number_check_digit _); [|done].
    destruct (py_getitem _ _); [|done]. cbn in Hr.
    by case_bool_decide; simplify_eq. }
  rewrite (vat_validation_int _ n) by apply py_int_str_zfill.
  by rewrite vat_number_validation_unfold.
Qed.

(** C21. Round trip of the two functions: a ten-digit number followed by the
    digit that [vat_number_check_digit] returns for it is validated. *)
Theorem vat_number_validation_roundtrip p c :
  0 ≤ p < 10 ^ 10 → vat_number_check_digit (PyInt p) = Ok c →
  vat_number_validation (PyStr (zpad 10 p +:+ c)) = Ok (zpad 10 p +:+ c).
Proof.
  intros Hp. pose proof (zdigits_range 10 p) as Hr.
  rewrite vat_check_digit_chars; rewrite vat_chars_int by done;
    [|by apply digit_chars_are_digits].
  rewrite digit_val_digit_chars by done. intros Hc.
  assert (c = digits_str [vat_check (zdigits 10 p)]) as -> by congruence.
  clear Hc. unfold zpad. rewrite <- digits_str_app.
  pose proof (vat_check_range (zdigits 10 p)) as Hc.
  rewrite vat_validation_digits;
    [|apply Forall_app; split; [done|by apply Forall_singleton]
     |by rewrite length_app, zdigits_length].
  unfold vat_valid_digits.
  rewrite lookup_app_r, take_app_length' by by rewrite zdigits_length.
  rewrite zdigits_length. cbn. by rewrite bool_decide_eq_true_2.
Qed.

(** C22. Exactly one of the ten digits completes a ten-digit number to a
    valid one: the one that [vat_number_check_digit] returns. *)
Theorem vat_number_validation_unique p c :
  0 ≤ p < 10 ^ 10 → 0 ≤ c ≤ 9 →
  is_Ok (vat_number_validation (PyInt (10 * p + c)))
  ↔ vat_number_check_digit (PyInt p) = Ok (digits_str [c]).
Proof.
  intros Hp Hc. pose proof (zdigits_range 10 p) as Hr.
  pose proof (vat_check_range (zdigits 10 p)) as Hv.
  rewrite vat_check_digit_chars; rewrite vat_chars_int by done;
    [|by apply digit_chars_are_digits].
  rewrite digit_val_digit_chars, vat_validation_nonneg by (done || lia).
  cbn zeta. rewrite Nat.max_l by (apply ndigits_le; lia).
  rewrite vat_valid_digits_11.
  replace ((10 * p + c) `mod` 10) with c by (Z.div_mod_to_equations; lia).
  replace ((10 * p + c) `div` 10) with p by (Z.div_mod_to_equations; lia).
  case_bool_decide as Heq.
  - split; [intros _; by rewrite Heq|by eexists].
  - split; [by intros [? ?]|].
    intros [= H%(f_equal digit_val)].
    rewrite !digit_val_digit_char in H by done. by simplify_eq.
Qed.

(** C19. The type of the result: what [vat_number_validation] returns is the
    decimal text of the number that [int()] reads in the argument, which is
    not negative, zero-filled to eleven digits: a text of eleven characters
    at least, all of them digits, that [int()] reads as the same number. *)
Theorem vat_number_validation_output v r :
  vat_number_validation v = Ok r →
  ∃ n, py_int v = Ok n ∧ 0 ≤ n
       ∧ r = zpad (Nat.max 11 (ndigits n)) n
       ∧ str_forall is_digit r = true ∧ (11 ≤ String.length r)%nat
       ∧ py_int (PyStr r) = Ok n.
Proof.
  destruct (py_int v) as [n|e] eqn:Hv;
    [|by rewrite vat_number_validation_unfold, Hv].
  rewrite (vat_validation_int v n Hv).
  destruct (Z.lt_ge_cases n 0) as [Hneg|Hpos];
    [by rewrite vat_validation_neg|].
  rewrite vat_validation_nonneg by done. cbn zeta.
  destruct (vat_valid_digits _); [intros [= <-]|done].
  exists n. split_and!; [done..| | |].
  - apply digits_str_forall, zdigits_range.
  - rewrite digits_str_length, zdigits_length. lia.
  - fold (zpad (Nat.max 11 (ndigits n)) n).
    rewrite <- vat_normalized_nonneg by done. apply py_int_str_zfill.
Qed.

End validation.

(** ** Instances of the theorems *)

Lemma vat_number_validation_int_value_witness :
  vat_number_validation (PyStr " +0_075 ") = vat_number_validation (PyInt 75)
  ∧ (∀ e, py_int (PyStr " +0_075 ") = Raise e
          → vat_number_validation (PyStr " +0_075 ") = Raise e).
Proof. by apply vat_number_validation_int_value. Defined.

Lemma vat_number_validation_spec_witness :
  vat_number_validation (PyStr " 75 ") = Ok "00000000075"%string.
Proof.
  rewrite (vat_number_validation_spec (PyStr " 75 ") 75); [done|done|lia].
Defined.

Lemma vat_number_validation_negative_witness :
  vat_number_validation (PyStr "-73") = Raise (ValueError_int "-").
Proof. apply (vat_number_validation_negative (PyStr "-73") (-73)); [done|lia]. Defined.

Lemma vat_number_validation_wide_witness :
  vat_number_validation (PyStr "12345670017999") = Ok "12345670017999"%string.
Proof.
  by rewrite (vat_number_validation_wide (PyStr "12345670017999") 12345670017999).
Defined.

Lemma vat_number_validation_exceptions_witness :
  py_int (PyStr "IT12345670017") = Raise (ValueError_int "IT12345670017")
  ∨ ValueError_int "IT12345670017" = ValueError_int "-"
  ∨ ValueError_int "IT12345670017" = ValueError vat_check_digit_msg.
Proof. by apply (vat_number_validation_exceptions (PyStr "IT12345670017")). Defined.

Lemma vat_number_validation_idempotent_witness :
  vat_number_validation (PyStr "00000000075") = Ok "00000000075"%string.
Proof. by apply (vat_number_validation_idempotent (PyInt 75)). Defined.

Lemma vat_number_validation_roundtrip_witness :
  vat_number_validation (PyStr "01234567897") = Ok "01234567897"%string.
Proof.
  by apply (vat_number_validation_roundtrip 123456789 "7"); [lia|].
Defined.

Lemma vat_number_validation_unique_witness :
  is_Ok (vat_number_validation (PyInt (10 * 1234567001 + 7)))
  ↔ vat_number_check_digit (PyInt 1234567001) = Ok (digits_str [7]).
Proof. apply (vat_number_validation_unique 1234567001 7); lia. Defined.

Lemma vat_number_validation_output_witness :
  ∃ n, py_int (PyStr " 75 ") = Ok n ∧ 0 ≤ n
       ∧ "00000000075"%string = zpad (Nat.max 11 (ndigits n)) n
       ∧ str_forall is_digit "00000000075" = true
       ∧ (11 ≤ String.length "00000000075")%nat
       ∧ py_int (PyStr "00000000075") = Ok n.
Proof. by apply (vat_number_validation_output (PyStr " 75 ")). Defined.
