(* ===== verification/VatDetect.v ===== *)
(** * The errors that the control digit of a VAT number detects

    The sum that [vat_number_check_digit] computes is a sum of alternating
    weights ([ParitySum.psum]): the digit at even indices, the digit sum of
    its double at odd ones.  Each weight is injective on the digits modulo
    ten, so every substitution of one digit is detected; the exchange of two
    neighbours is detected unless they are 0 and 9.  The eleven-digit
    numbers that [vat_number_validation] accepts are therefore a code of
    minimum distance two. *)

From S2P Require Import Prelude ParitySum PyBuiltins Django PyDecimal Vat VatCheck VatValid.

#[local] Open Scope Z_scope.

(** ** The weights *)

(** The weight of a digit in the sum, by the parity of its index. *)
Definition vat_weight (even : bool) (d : Z) : Z :=
  if even then d else luhn_double d.

(** The reference sum is a sum of alternating weights. *)
Lemma vat_sum_psum even ds : vat_sum even ds = psum vat_weight even ds.
Proof.
  revert even; induction ds as [|d ds IH]; intros even; [done|].
  cbn [vat_sum psum]. by rewrite IH.
Qed.

Lemma vat_weight_inj even d e :
  0 ≤ d ≤ 9 → 0 ≤ e ≤ 9 →
  vat_weight even d `mod` 10 = vat_weight even e `mod` 10 → d = e.
Proof.
  unfold vat_weight, luhn_double. intros Hd He.
  destruct even; Z.div_mod_to_equations; lia.
Qed.

(** The differences of the two weights of two digits agree modulo ten only
    when the digits are equal, or 0 and 9. *)
Lemma vat_weight_swap even a b :
  0 ≤ a ≤ 9 → 0 ≤ b ≤ 9 →
  (vat_weight even a - vat_weight (negb even) a) `mod` 10
  = (vat_weight even b - vat_weight (negb even) b) `mod` 10
  ↔ a = b ∨ (a = 0 ∧ b = 9) ∨ (a = 9 ∧ b = 0).
Proof.
  unfold vat_weight, luhn_double. intros Ha Hb.
  destruct even; cbn [negb]; (split; [|intros [->|[[-> ->]|[-> ->]]]; done]);
    Z.div_mod_to_equations; lia.
Qed.

Section detection.
Context (l r : list Z).

Lemma vat_sum_subst even d e :
  0 ≤ d ≤ 9 → 0 ≤ e ≤ 9 →
  vat_sum even (l ++ d :: r) `mod` 10 = vat_sum even (l ++ e :: r) `mod` 10 →
  d = e.
Proof.
  intros Hd He. rewrite !vat_sum_psum, psum_subst. by apply vat_weight_inj.
Qed.

Lemma vat_sum_swap_iff even a b :
  0 ≤ a ≤ 9 → 0 ≤ b ≤ 9 →
  vat_sum even (l ++ a :: b :: r) `mod` 10
  = vat_sum even (l ++ b :: a :: r) `mod` 10
  ↔ a = b ∨ (a = 0 ∧ b = 9) ∨ (a = 9 ∧ b = 0).
Proof.
  intros Ha Hb. rewrite !vat_sum_psum, psum_swap. by apply vat_weight_swap.
Qed.

End detection.

Section validation.
Context {translation : Translation}.

Lemma swap_digit_list l a b r :
  is_digit_list (l ++ a :: b :: r) →
  0 ≤ a ≤ 9 ∧ 0 ≤ b ≤ 9 ∧ is_digit_list (l ++ b :: a :: r).
Proof.
  intros [Hl [Ha [Hb Hr]%Forall_cons]%Forall_cons]%Forall_app.
  split; [exact Ha|split; [exact Hb|]]. apply Forall_app. auto.
Qed.

(** The outcome of [vat_number_validation] on eleven digits is decided by their
    weighted sum. *)
Lemma vat_validation_digits_sum ds :
  is_digit_list ds → length ds = 11%nat →
  vat_number_validation (PyStr (digits_str ds))
  = if bool_decide (vat_sum true ds `mod` 10 = 0) then Ok (digits_str ds)
    else Raise (ValueError vat_check_digit_msg).
Proof.
  intros Hds Hl. rewrite vat_validation_digits by done.
  pose proof (vat_valid_digits_sum ds Hds Hl) as Hv.
  destruct (vat_valid_digits ds); case_bool_decide as Hs; try done.
  - destruct Hs. by apply Hv.
  - by apply Hv in Hs.
Qed.

(** C9. Error detection: when an eleven-digit number is valid, the number
    obtained by changing any one of its digits, the control digit included,
    is rejected with the check-digit error. *)
Theorem vat_number_validation_detects_substitution l d e r :
  is_digit_list (l ++ d :: r) → 0 ≤ e ≤ 9 → length (l ++ d :: r) = 11%nat →
  d ≠ e →
  is_Ok (vat_number_validation (PyStr (digits_str (l ++ d :: r)))) →
  vat_number_validation (PyStr (digits_str (l ++ e :: r)))
  = Raise (ValueError vat_check_digit_msg).
Proof.
  intros Hds He Hlen Hne.
  assert (0 ≤ d ≤ 9) as Hd by (by apply Forall_app in Hds as [_ ?%Forall_inv]).
  assert (is_digit_list (l ++ e :: r)) as Hes.
  { apply Forall_app in Hds as [? [_ ?]%Forall_cons]. apply Forall_app. auto. }
  rewrite !vat_validation_digits_sum
    by (done || by rewrite length_app in *).
  repeat case_bool_decide; try done; [|by intros [? ?]].
  intros _. destruct Hne. apply (vat_sum_subst l r true); congruence.
Qed.

(** C36. Error detection: when an eleven-digit number is valid, the number
    obtained by exchanging two neighbouring digits is valid as well exactly
    when the two digits are equal, or are 0 and 9: every other exchange of
    neighbours is rejected with the check-digit error, and the exchange of
    a neighbouring 0 and 9 is never detected. *)
Theorem vat_number_validation_transposition l a b r :
  is_digit_list (l ++ a :: b :: r) → length (l ++ a :: b :: r) = 11%nat →
  is_Ok (vat_number_validation (PyStr (digits_str (l ++ a :: b :: r)))) →
  (is_Ok (vat_number_validation (PyStr (digits_str (l ++ b :: a :: r))))
   ↔ a = b ∨ (a = 0 ∧ b = 9) ∨ (a = 9 ∧ b = 0))
  ∧ (¬ is_Ok (vat_number_validation (PyStr (digits_str (l ++ b :: a :: r))))
     → vat_number_validation (PyStr (digits_str (l ++ b :: a :: r)))
       = Raise (ValueError vat_check_digit_msg)).
Proof.
  intros Hds Hlen.
  destruct (swap_digit_list l a b r Hds) as (Ha & Hb & Hds').
  rewrite !vat_validation_digits_sum by (done || by rewrite length_app in *).
  rewrite <- (vat_sum_swap_iff l r true a b) by done.
  repeat case_bool_decide; intros Hok; try by destruct Hok.
  - split; [split; [congruence|auto with py]|by intros []; auto with py].
  - split; [split; [by intros [? ?]|congruence]|done].
Qed.

(** C26. The eleven-digit numbers that [vat_number_validation] accepts are a
    code of minimum distance two: two of them that differ, differ in two
    digits at least. *)
Theorem vat_number_validation_distance (ds es : list Z) :
  is_digit_list ds → is_digit_list es →
  length ds = 11%nat → length es = 11%nat →
  is_Ok (vat_number_validation (PyStr (digits_str ds))) →
  is_Ok (vat_number_validation (PyStr (digits_str es))) →
  ds ≠ es →
  (2 ≤ hamming ds es)%nat.
Proof.
  intros Hds Hes Hld Hle. rewrite !vat_validation_digits_sum by done.
  intros Hd He Hne.
  destruct (hamming ds es) as [|[|k]] eqn:Hh; [| |lia].
  - destruct Hne. apply hamming_0; [lia|done].
  - apply hamming_1 in Hh as (l & d & e & r & -> & -> & Hde); [|lia].
    apply Forall_app in Hds as [_ [Hd9 _]%Forall_cons].
    apply Forall_app in Hes as [_ [He9 _]%Forall_cons].
    repeat case_bool_decide; try (by destruct Hd); try (by destruct He).
    destruct Hde. apply (vat_sum_subst l r true); congruence.
Qed.

(** The distance two is attained: a neighbouring 0 and 9 exchanged. *)
Example vat_number_validation_distance_attained :
  vat_number_validation (PyStr "09000000001") = Ok "09000000001"%string
  ∧ vat_number_validation (PyStr "90000000001") = Ok "90000000001"%string
  ∧ hamming [0; 9; 0; 0; 0; 0; 0; 0; 0; 0; 1] [9; 0; 0; 0; 0; 0; 0; 0; 0; 0; 1]
    = 2%nat.
Proof. by vm_compute. Qed.

End validation.

(** ** Instances of the theorems *)

Lemma vat_number_validation_distance_witness :
  (2 ≤ hamming [1; 2; 3; 4; 5; 6; 7; 0; 0; 1; 7]%Z
         [0; 0; 0; 0; 0; 0; 0; 0; 0; 7; 5]%Z)%nat.
Proof.
  apply vat_number_validation_distance;
    [repeat constructor; lia..|done|done
    |eexists; by vm_compute|eexists; by vm_compute|done].
Defined.

Lemma vat_number_validation_detects_substitution_witness :
  vat_number_validation (PyStr "12345670817") = Raise (ValueError vat_check_digit_msg).
Proof.
  apply (vat_number_validation_detects_substitution
           [1; 2; 3; 4; 5; 6; 7; 0] 0 8 [1; 7]);
    [repeat constructor; lia|lia|done|done
    |exists "12345670017"%string; by vm_compute].
Defined.

Lemma vat_number_validation_transposition_witness :
  (is_Ok (vat_number_validation (PyStr "12345670107"))
   ↔ 0 = 1 ∨ (0 = 0 ∧ 1 = 9) ∨ (0 = 9 ∧ 1 = 0))
  ∧ (¬ is_Ok (vat_number_validation (PyStr "12345670107"))
     → vat_number_validation (PyStr "12345670107")
       = Raise (ValueError vat_check_digit_msg)).
Proof.
  apply (vat_number_validation_transposition [1; 2; 3; 4; 5; 6; 7; 0] 0 1 [7]);
    [repeat constructor; lia|done|exists "12345670017"%string; by vm_compute].
Defined.
