(* ===== verification/SsnVat.v ===== *)
(** * The validators of fiscal codes and of VAT numbers together

    [vat_number_validation] is, as its docstring says, also the validation
    of the fiscal codes of entities, which are numbers of eleven digits; the
    fiscal codes of persons go through [ssn_isvalid] and [ssn_validation].
    This file shows that no value passes on both sides: what [int()] reads
    has no capital letter, and a fiscal code of a person begins with one and
    ends with one. *)

From S2P Require Import Prelude PyBuiltins PyDecimal Regex Codici Django Ssn SsnSyntax SsnCheck Vat VatCheck VatValid.

#[local] Open Scope Z_scope.

(** ** Capital letters and integer literals *)

Lemma is_upper_not_int_char c : is_upper c = true → is_int_char c = false.
Proof. revert c; intros [[] [] [] [] [] [] [] []]; by vm_compute. Qed.

(** A text that [int()] reads has no capital letter at any index. *)
Lemma int_text_no_upper s n (i : nat) c :
  py_int_str s = Ok n → chars s !! i = Some c → is_upper c = false.
Proof.
  intros Hn%py_int_str_chars Hc. destruct (is_upper c) eqn:Hu; [|done].
  apply is_upper_not_int_char in Hu.
  by rewrite (str_forall_lookup _ _ _ _ Hn Hc) in Hu.
Qed.

(** Such a text has not the shape of a fiscal code, whose first character
    is a capital letter. *)
Lemma int_text_not_fiscal s n : py_int_str s = Ok n → fiscal_shape s = false.
Proof.
  intros Hn. destruct (fiscal_shape s) eqn:Hs; [|done].
  destruct (shape_match_lookup _ _ _ 0 is_upper Hs) as (c & Hc & Hu); [done|].
  by rewrite (int_text_no_upper _ _ _ _ Hn Hc) in Hu.
Qed.

Section validators.
Context {translation : Translation}.

(** Nor does it pass [ssn_validation], which compares the character at 15
    with a capital letter. *)
Lemma int_text_not_validated s n :
  py_int_str s = Ok n → ¬ is_Ok (ssn_validation (PyStr s)).
Proof.
  intros Hn [r (_ & s' & d & [= <-] & Hd & Hg)%ssn_validation_inv].
  destruct (ssn_check_digit_letter _ _ Hd) as (c & -> & Hu).
  apply py_getitem_Ok in Hg as (c' & [= <-] & Hc & _).
  by rewrite (int_text_no_upper _ _ _ _ Hn Hc) in Hu.
Qed.

(** ** Theorems *)

(** C25. No value passes on both sides.  A value that [vat_number_validation]
    accepts is rejected by [ssn_isvalid] and by [ssn_validation]. *)
Theorem validators_disjoint (v : pyval) :
  is_Ok (vat_number_validation v) →
  ssn_isvalid v = Ok false ∧ ¬ is_Ok (ssn_validation v).
Proof.
  rewrite vat_number_validation_unfold.
  intros [r (n & Hn & _)%bind_Ok]. destruct v as [s| | |]; try done.
  - rewrite ssn_isvalid_str, (int_text_not_fiscal s n Hn).
    split; [done|by eapply int_text_not_validated].
  - split; [done|by intros [? ?]].
  - split; [done|by intros [? ?]].
Qed.

(** A value that [ssn_isvalid] accepts, or that passes [ssn_validation], is
    a text in which [int()] fails: [vat_number_validation] raises the
    [ValueError] of [int()], not the check-digit error. *)
Theorem ssn_not_vat_number (v : pyval) :
  ssn_isvalid v = Ok true ∨ is_Ok (ssn_validation v) →
  ∃ s, v = PyStr s ∧ vat_number_validation v = Raise (ValueError_int s).
Proof.
  intros Hv. destruct v as [s| | |];
    [|by destruct Hv as [?|[? ?]]..].
  exists s. split; [done|]. rewrite vat_number_validation_unfold. cbn [py_int].
  destruct (py_int_str s) as [n|e] eqn:Hn;
    [|by rewrite (py_int_str_Raise _ _ Hn)].
  destruct Hv as [Hs|Hs]; [|by apply int_text_not_validated in Hn].
  by rewrite ssn_isvalid_str, (int_text_not_fiscal s n Hn) in Hs.
Qed.

End validators.

(** ** Instances of the theorems *)

Lemma validators_disjoint_witness :
  ssn_isvalid (PyStr "12345670017") = Ok false
  ∧ ¬ is_Ok (ssn_validation (PyStr "12345670017")).
Proof.
  apply validators_disjoint. exists "12345670017"%string. by vm_compute.
Defined.

Lemma ssn_not_vat_number_witness :
  ∃ s, PyStr "RCCMNL83S18D969H" = PyStr s
       ∧ vat_number_validation (PyStr "RCCMNL83S18D969H")
         = Raise (ValueError_int s).
Proof. apply ssn_not_vat_number. left. by vm_compute. Defined.
