(* ===== verification/Examples.v ===== *)
(** * Examples

    The functions of [util.py] evaluated on concrete arguments: the examples
    of the docstrings, the arguments of the tests of the specification, and
    the corner cases that the theorems of the other files are about (a
    value that is not text, the interpreter started with [-O], a catalogue
    of translations, the white space that [int()] skips).  Every example is
    proved by evaluation of the definitions of [Ssn] and [Vat]. *)

From S2P Require Import Prelude PyBuiltins Regex Codici Django Ssn Vat.
From stdpp Require Import gmap.

#[local] Open Scope Z_scope.

(** ** The fiscal-code functions: the examples of the docstrings *)

Example ssn_isvalid_doc :
  ssn_isvalid (PyStr "RCCMNL83S18D969H") = Ok true
  ∧ ssn_isvalid (PyStr "RCCMNL83S18D969") = Ok false
  ∧ ssn_isvalid (PyInt 5) = Ok false
  ∧ ssn_isvalid (PyBool true) = Ok false.
Proof. by vm_compute. Qed.

Example ssn_get_birthday_doc :
  ssn_get_birthday (PyStr "RCCMNL83S18D969H") = Ok "18/11/83".
Proof. by vm_compute. Qed.

Example ssn_get_sex_doc :
  ssn_get_sex (PyStr "RCCMNL83S18D969H") = Ok "M"
  ∧ ssn_get_sex (PyStr "CNTCHR83T41D969D") = Ok "F".
Proof. by vm_compute. Qed.

Example ssn_get_municipality_doc :
  ssn_get_municipality (PyStr "RCCMNL83S18D969H") = Ok "Genova"
  ∧ ssn_get_municipality (PyStr "CNTCHR83T41D969D") = Ok "Genova"
  ∧ ssn_get_municipality (PyStr "RCCMNL83S18A000H") = Ok "Altro".
Proof. by vm_compute. Qed.

(** The decoders started with [-O]: the assertion is not executed, and a
    text that is no fiscal code is decoded. *)
Example ssn_decoders_optimized_ex :
  ssn_get_sex (PyStr "RCCMNL83S18D969") = Raise AssertionError
  ∧ ssn_get_sex (interp := python_O) (PyStr "RCCMNL83S18D969") = Ok "M"
  ∧ ssn_get_sex (interp := python_O) (PyStr "RCCMNL83S18D969H") = Ok "M"
  ∧ ssn_get_birthday (interp := python_O) (PyStr "") = Raise (ValueError_int "")
  ∧ ssn_get_municipality (interp := python_O) (PyStr "") = Ok "Altro"
  ∧ ssn_get_municipality (interp := python_O) (PyInt 5) = Raise TypeError.
Proof. by vm_compute. Qed.

Example ssn_validation_doc :
  ssn_validation (PyStr "RCCMNL83S18D969H") = Ok (PyStr "RCCMNL83S18D969H")
  ∧ ssn_validation (PyStr "RCCMNL83S18D969X")
    = Raise (ValueError ssn_check_digit_msg)
  ∧ ssn_check_digit (PyStr "RCCMNL83S18D96?H")
    = Raise (ValueError "Character '?' is not allowed.").
Proof. by vm_compute. Qed.

(** ** The VAT functions *)

Example vat_number_check_digit_ex :
  vat_number_check_digit (PyStr "1234567001") = Ok "7"
  ∧ vat_number_check_digit (PyInt 7) = Ok "5"
  ∧ vat_number_check_digit (PyStr "12345x7001") = Raise (ValueError_int "x").
Proof. by vm_compute. Qed.

Example vat_number_validation_ex :
  vat_number_validation (PyStr "12345670017") = Ok "12345670017"
  ∧ vat_number_validation (PyInt 75) = Ok "00000000075"
  ∧ vat_number_validation (PyStr " 75 ") = Ok "00000000075"
  ∧ vat_number_validation (PyStr "12345670018")
    = Raise (ValueError vat_check_digit_msg)
  ∧ vat_number_validation (PyStr "IT12345670017")
    = Raise (ValueError_int "IT12345670017")
  ∧ vat_number_validation (PyInt 1234567)
    = Raise (ValueError vat_check_digit_msg)
  ∧ vat_number_validation (PyInt (-73)) = Raise (ValueError_int "-")
  ∧ vat_number_validation PyNone = Raise TypeError.
Proof. by vm_compute. Qed.

(** With a catalogue of translations active, the message of the exception
    is the entry of the catalogue. *)
Example vat_number_validation_translated_ex :
  vat_number_validation (translation := catalogue_translation sample_catalogue)
    (PyStr "12345670018")
  = Raise (ValueError "La cifra di controllo non corrisponde.")
  ∧ vat_number_validation (translation := catalogue_translation ∅) (PyStr "12345670018")
    = Raise (ValueError "Check digit does not match.").
Proof. by vm_compute. Qed.

(** [True] and [False] are read by [int()] as 1 and 0 and by [smart_text]
    as their names. *)
Example vat_number_bool_ex :
  vat_number_validation (PyBool false) = Ok "00000000000"
  ∧ vat_number_validation (PyBool true)
    = Raise (ValueError vat_check_digit_msg)
  ∧ vat_number_check_digit (PyBool true) = Raise (ValueError_int "T").
Proof. by vm_compute. Qed.

(** [int()] skips the white space of C and the no-break space around the
    digits, not the separators 28..31. *)
Example vat_number_validation_space_ex :
  vat_number_validation (PyStr (String (ascii_of_code 9) "75")) = Ok "00000000075"
  ∧ vat_number_validation (PyStr (String (ascii_of_code 160) "75"))
    = Ok "00000000075"
  ∧ vat_number_validation (PyStr (String (ascii_of_code 28) "75"))
    = Raise (ValueError_int (String (ascii_of_code 28) "75"))
  ∧ vat_number_validation (PyStr "7 5") = Raise (ValueError_int "7 5")
  ∧ vat_number_validation (PyStr "+7_5") = Ok "00000000075"
  ∧ vat_number_validation (PyStr "7__5") = Raise (ValueError_int "7__5").
Proof. by vm_compute. Qed.
